(** * IMD Loader: a shallow embedding of [ImdLoader/imd_loader.py]

    The development follows the layout of the Python module: the Unicode
    data and string primitives the code calls, the Name Sanitiser, the Link Extractor, the
    File Fetcher, the two Table Extractors, the Database Loader and the
    Pipeline Orchestrator.  Every definition is a transcription of the
    function of the same name; the properties proved about them come after
    the definitions. *)

From Stdlib Require Import ZArith List Ascii String DecimalString DecimalPos Bool Lia.
From Stdlib Require DecimalFacts DecimalN.
From stdpp Require Import gmap strings list sorting.

Local Open Scope string_scope.
Local Open Scope list_scope.

(** ** Unicode data of [str.lower]

    The tables [str.lower()] consults, as CPython 3.11 has them (Unicode
    14.0.0): the full lowercase mapping of every code point that has one,
    and the code points that are case-ignorable or cased (the two
    properties the rule for a final sigma reads). *)

Module Unicode.

(** [(c, l)]: the lowercase form of [c] is the code points [l]; a code point
    that is not listed is its own lowercase form. *)
Definition lower_table : list (N * list N) :=
  [
   (65, [97]); (66, [98]); (67, [99]); (68, [100]); (69, [101]); (70, [102]);
   (71, [103]); (72, [104]); (73, [105]); (74, [106]); (75, [107]); (76, [108]);
   (77, [109]); (78, [110]); (79, [111]); (80, [112]); (81, [113]); (82, [114]);
   (83, [115]); (84, [116]); (85, [117]); (86, [118]); (87, [119]); (88, [120]);
   (89, [121]); (90, [122]); (192, [224]); (193, [225]); (194, [226]); (195, [227]);
   (196, [228]); (197, [229]); (198, [230]); (199, [231]); (200, [232]); (201, [233]);
   (202, [234]); (203, [235]); (204, [236]); (205, [237]); (206, [238]); (207, [239]);
   (208, [240]); (209, [241]); (210, [242]); (211, [243]); (212, [244]); (213, [245]);
   (214, [246]); (216, [248]); (217, [249]); (218, [250]); (219, [251]); (220, [252]);
   (221, [253]); (222, [254]); (256, [257]); (258, [259]); (260, [261]); (262, [263]);
   (264, [265]); (266, [267]); (268, [269]); (270, [271]); (272, [273]); (274, [275]);
   (276, [277]); (278, [279]); (280, [281]); (282, [283]); (284, [285]); (286, [287]);
   (288, [289]); (290, [291]); (292, [293]); (294, [295]); (296, [297]); (298, [299]);
   (300, [301]); (302, [303]); (304, [105; 775]); (306, [307]); (308, [309]);
   (310, [311]); (313, [314]); (315, [316]); (317, [318]); (319, [320]); (321, [322]);
   (323, [324]); (325, [326]); (327, [328]); (330, [331]); (332, [333]); (334, [335]);
   (336, [337]); (338, [339]); (340, [341]); (342, [343]); (344, [345]); (346, [347]);
   (348, [349]); (350, [351]); (352, [353]); (354, [355]); (356, [357]); (358, [359]);
   (360, [361]); (362, [363]); (364, [365]); (366, [367]); (368, [369]); (370, [371]);
   (372, [373]); (374, [375]); (376, [255]); (377, [378]); (379, [380]); (381, [382]);
   (385, [595]); (386, [387]); (388, [389]); (390, [596]); (391, [392]); (393, [598]);
   (394, [599]); (395, [396]); (398, [477]); (399, [601]); (400, [603]); (401, [402]);
   (403, [608]); (404, [611]); (406, [617]); (407, [616]); (408, [409]); (412, [623]);
   (413, [626]); (415, [629]); (416, [417]); (418, [419]); (420, [421]); (422, [640]);
   (423, [424]); (425, [643]); (428, [429]); (430, [648]); (431, [432]); (433, [650]);
   (434, [651]); (435, [436]); (437, [438]); (439, [658]); (440, [441]); (444, [445]);
   (452, [454]); (453, [454]); (455, [457]); (456, [457]); (458, [460]); (459, [460]);
   (461, [462]); (463, [464]); (465, [466]); (467, [468]); (469, [470]); (471, [472]);
   (473, [474]); (475, [476]); (478, [479]); (480, [481]); (482, [483]); (484, [485]);
   (486, [487]); (488, [489]); (490, [491]); (492, [493]); (494, [495]); (497, [499]);
   (498, [499]); (500, [501]); (502, [405]); (503, [447]); (504, [505]); (506, [507]);
   (508, [509]); (510, [511]); (512, [513]); (514, [515]); (516, [517]); (518, [519]);
   (520, [521]); (522, [523]); (524, [525]); (526, [527]); (528, [529]); (530, [531]);
   (532, [533]); (534, [535]); (536, [537]); (538, [539]); (540, [541]); (542, [543]);
   (544, [414]); (546, [547]); (548, [549]); (550, [551]); (552, [553]); (554, [555]);
   (556, [557]); (558, [559]); (560, [561]); (562, [563]); (570, [11365]);
   (571, [572]); (573, [410]); (574, [11366]); (577, [578]); (579, [384]);
   (580, [649]); (581, [652]); (582, [583]); (584, [585]); (586, [587]); (588, [589]);
   (590, [591]); (880, [881]); (882, [883]); (886, [887]); (895, [1011]);
   (902, [940]); (904, [941]); (905, [942]); (906, [943]); (908, [972]); (910, [973]);
   (911, [974]); (913, [945]); (914, [946]); (915, [947]); (916, [948]); (917, [949]);
   (918, [950]); (919, [951]); (920, [952]); (921, [953]); (922, [954]); (923, [955]);
   (924, [956]); (925, [957]); (926, [958]); (927, [959]); (928, [960]); (929, [961]);
   (931, [963]); (932, [964]); (933, [965]); (934, [966]); (935, [967]); (936, [968]);
   (937, [969]); (938, [970]); (939, [971]); (975, [983]); (984, [985]); (986, [987]);
   (988, [989]); (990, [991]); (992, [993]); (994, [995]); (996, [997]); (998, [999]);
   (1000, [1001]); (1002, [1003]); (1004, [1005]); (1006, [1007]); (1012, [952]);
   (1015, [1016]); (1017, [1010]); (1018, [1019]); (1021, [891]); (1022, [892]);
   (1023, [893]); (1024, [1104]); (1025, [1105]); (1026, [1106]); (1027, [1107]);
   (1028, [1108]); (1029, [1109]); (1030, [1110]); (1031, [1111]); (1032, [1112]);
   (1033, [1113]); (1034, [1114]); (1035, [1115]); (1036, [1116]); (1037, [1117]);
   (1038, [1118]); (1039, [1119]); (1040, [1072]); (1041, [1073]); (1042, [1074]);
   (1043, [1075]); (1044, [1076]); (1045, [1077]); (1046, [1078]); (1047, [1079]);
   (1048, [1080]); (1049, [1081]); (1050, [1082]); (1051, [1083]); (1052, [1084]);
   (1053, [1085]); (1054, [1086]); (1055, [1087]); (1056, [1088]); (1057, [1089]);
   (1058, [1090]); (1059, [1091]); (1060, [1092]); (1061, [1093]); (1062, [1094]);
   (1063, [1095]); (1064, [1096]); (1065, [1097]); (1066, [1098]); (1067, [1099]);
   (1068, [1100]); (1069, [1101]); (1070, [1102]); (1071, [1103]); (1120, [1121]);
   (1122, [1123]); (1124, [1125]); (1126, [1127]); (1128, [1129]); (1130, [1131]);
   (1132, [1133]); (1134, [1135]); (1136, [1137]); (1138, [1139]); (1140, [1141]);
   (1142, [1143]); (1144, [1145]); (1146, [1147]); (1148, [1149]); (1150, [1151]);
   (1152, [1153]); (1162, [1163]); (1164, [1165]); (1166, [1167]); (1168, [1169]);
   (1170, [1171]); (1172, [1173]); (1174, [1175]); (1176, [1177]); (1178, [1179]);
   (1180, [1181]); (1182, [1183]); (1184, [1185]); (1186, [1187]); (1188, [1189]);
   (1190, [1191]); (1192, [1193]); (1194, [1195]); (1196, [1197]); (1198, [1199]);
   (1200, [1201]); (1202, [1203]); (1204, [1205]); (1206, [1207]); (1208, [1209]);
   (1210, [1211]); (1212, [1213]); (1214, [1215]); (1216, [1231]); (1217, [1218]);
   (1219, [1220]); (1221, [1222]); (1223, [1224]); (1225, [1226]); (1227, [1228]);
   (1229, [1230]); (1232, [1233]); (1234, [1235]); (1236, [1237]); (1238, [1239]);
   (1240, [1241]); (1242, [1243]); (1244, [1245]); (1246, [1247]); (1248, [1249]);
   (1250, [1251]); (1252, [1253]); (1254, [1255]); (1256, [1257]); (1258, [1259]);
   (1260, [1261]); (1262, [1263]); (1264, [1265]); (1266, [1267]); (1268, [1269]);
   (1270, [1271]); (1272, [1273]); (1274, [1275]); (1276, [1277]); (1278, [1279]);
   (1280, [1281]); (1282, [1283]); (1284, [1285]); (1286, [1287]); (1288, [1289]);
   (1290, [1291]); (1292, [1293]); (1294, [1295]); (1296, [1297]); (1298, [1299]);
   (1300, [1301]); (1302, [1303]); (1304, [1305]); (1306, [1307]); (1308, [1309]);
   (1310, [1311]); (1312, [1313]); (1314, [1315]); (1316, [1317]); (1318, [1319]);
   (1320, [1321]); (1322, [1323]); (1324, [1325]); (1326, [1327]); (1329, [1377]);
   (1330, [1378]); (1331, [1379]); (1332, [1380]); (1333, [1381]); (1334, [1382]);
   (1335, [1383]); (1336, [1384]); (1337, [1385]); (1338, [1386]); (1339, [1387]);
   (1340, [1388]); (1341, [1389]); (1342, [1390]); (1343, [1391]); (1344, [1392]);
   (1345, [1393]); (1346, [1394]); (1347, [1395]); (1348, [1396]); (1349, [1397]);
   (1350, [1398]); (1351, [1399]); (1352, [1400]); (1353, [1401]); (1354, [1402]);
   (1355, [1403]); (1356, [1404]); (1357, [1405]); (1358, [1406]); (1359, [1407]);
   (1360, [1408]); (1361, [1409]); (1362, [1410]); (1363, [1411]); (1364, [1412]);
   (1365, [1413]); (1366, [1414]); (4256, [11520]); (4257, [11521]); (4258, [11522]);
   (4259, [11523]); (4260, [11524]); (4261, [11525]); (4262, [11526]);
   (4263, [11527]); (4264, [11528]); (4265, [11529]); (4266, [11530]);
   (4267, [11531]); (4268, [11532]); (4269, [11533]); (4270, [11534]);
   (4271, [11535]); (4272, [11536]); (4273, [11537]); (4274, [11538]);
   (4275, [11539]); (4276, [11540]); (4277, [11541]); (4278, [11542]);
   (4279, [11543]); (4280, [11544]); (4281, [11545]); (4282, [11546]);
   (4283, [11547]); (4284, [11548]); (4285, [11549]); (4286, [11550]);
   (4287, [11551]); (4288, [11552]); (4289, [11553]); (4290, [11554]);
   (4291, [11555]); (4292, [11556]); (4293, [11557]); (4295, [11559]);
   (4301, [11565]); (5024, [43888]); (5025, [43889]); (5026, [43890]);
   (5027, [43891]); (5028, [43892]); (5029, [43893]); (5030, [43894]);
   (5031, [43895]); (5032, [43896]); (5033, [43897]); (5034, [43898]);
   (5035, [43899]); (5036, [43900]); (5037, [43901]); (5038, [43902]);
   (5039, [43903]); (5040, [43904]); (5041, [43905]); (5042, [43906]);
   (5043, [43907]); (5044, [43908]); (5045, [43909]); (5046, [43910]);
   (5047, [43911]); (5048, [43912]); (5049, [43913]); (5050, [43914]);
   (5051, [43915]); (5052, [43916]); (5053, [43917]); (5054, [43918]);
   (5055, [43919]); (5056, [43920]); (5057, [43921]); (5058, [43922]);
   (5059, [43923]); (5060, [43924]); (5061, [43925]); (5062, [43926]);
   (5063, [43927]); (5064, [43928]); (5065, [43929]); (5066, [43930]);
   (5067, [43931]); (5068, [43932]); (5069, [43933]); (5070, [43934]);
   (5071, [43935]); (5072, [43936]); (5073, [43937]); (5074, [43938]);
   (5075, [43939]); (5076, [43940]); (5077, [43941]); (5078, [43942]);
   (5079, [43943]); (5080, [43944]); (5081, [43945]); (5082, [43946]);
   (5083, [43947]); (5084, [43948]); (5085, [43949]); (5086, [43950]);
   (5087, [43951]); (5088, [43952]); (5089, [43953]); (5090, [43954]);
   (5091, [43955]); (5092, [43956]); (5093, [43957]); (5094, [43958]);
   (5095, [43959]); (5096, [43960]); (5097, [43961]); (5098, [43962]);
   (5099, [43963]); (5100, [43964]); (5101, [43965]); (5102, [43966]);
   (5103, [43967]); (5104, [5112]); (5105, [5113]); (5106, [5114]); (5107, [5115]);
   (5108, [5116]); (5109, [5117]); (7312, [4304]); (7313, [4305]); (7314, [4306]);
   (7315, [4307]); (7316, [4308]); (7317, [4309]); (7318, [4310]); (7319, [4311]);
   (7320, [4312]); (7321, [4313]); (7322, [4314]); (7323, [4315]); (7324, [4316]);
   (7325, [4317]); (7326, [4318]); (7327, [4319]); (7328, [4320]); (7329, [4321]);
   (7330, [4322]); (7331, [4323]); (7332, [4324]); (7333, [4325]); (7334, [4326]);
   (7335, [4327]); (7336, [4328]); (7337, [4329]); (7338, [4330]); (7339, [4331]);
   (7340, [4332]); (7341, [4333]); (7342, [4334]); (7343, [4335]); (7344, [4336]);
   (7345, [4337]); (7346, [4338]); (7347, [4339]); (7348, [4340]); (7349, [4341]);
   (7350, [4342]); (7351, [4343]); (7352, [4344]); (7353, [4345]); (7354, [4346]);
   (7357, [4349]); (7358, [4350]); (7359, [4351]); (7680, [7681]); (7682, [7683]);
   (7684, [7685]); (7686, [7687]); (7688, [7689]); (7690, [7691]); (7692, [7693]);
   (7694, [7695]); (7696, [7697]); (7698, [7699]); (7700, [7701]); (7702, [7703]);
   (7704, [7705]); (7706, [7707]); (7708, [7709]); (7710, [7711]); (7712, [7713]);
   (7714, [7715]); (7716, [7717]); (7718, [7719]); (7720, [7721]); (7722, [7723]);
   (7724, [7725]); (7726, [7727]); (7728, [7729]); (7730, [7731]); (7732, [7733]);
   (7734, [7735]); (7736, [7737]); (7738, [7739]); (7740, [7741]); (7742, [7743]);
   (7744, [7745]); (7746, [7747]); (7748, [7749]); (7750, [7751]); (7752, [7753]);
   (7754, [7755]); (7756, [7757]); (7758, [7759]); (7760, [7761]); (7762, [7763]);
   (7764, [7765]); (7766, [7767]); (7768, [7769]); (7770, [7771]); (7772, [7773]);
   (7774, [7775]); (7776, [7777]); (7778, [7779]); (7780, [7781]); (7782, [7783]);
   (7784, [7785]); (7786, [7787]); (7788, [7789]); (7790, [7791]); (7792, [7793]);
   (7794, [7795]); (7796, [7797]); (7798, [7799]); (7800, [7801]); (7802, [7803]);
   (7804, [7805]); (7806, [7807]); (7808, [7809]); (7810, [7811]); (7812, [7813]);
   (7814, [7815]); (7816, [7817]); (7818, [7819]); (7820, [7821]); (7822, [7823]);
   (7824, [7825]); (7826, [7827]); (7828, [7829]); (7838, [223]); (7840, [7841]);
   (7842, [7843]); (7844, [7845]); (7846, [7847]); (7848, [7849]); (7850, [7851]);
   (7852, [7853]); (7854, [7855]); (7856, [7857]); (7858, [7859]); (7860, [7861]);
   (7862, [7863]); (7864, [7865]); (7866, [7867]); (7868, [7869]); (7870, [7871]);
   (7872, [7873]); (7874, [7875]); (7876, [7877]); (7878, [7879]); (7880, [7881]);
   (7882, [7883]); (7884, [7885]); (7886, [7887]); (7888, [7889]); (7890, [7891]);
   (7892, [7893]); (7894, [7895]); (7896, [7897]); (7898, [7899]); (7900, [7901]);
   (7902, [7903]); (7904, [7905]); (7906, [7907]); (7908, [7909]); (7910, [7911]);
   (7912, [7913]); (7914, [7915]); (7916, [7917]); (7918, [7919]); (7920, [7921]);
   (7922, [7923]); (7924, [7925]); (7926, [7927]); (7928, [7929]); (7930, [7931]);
   (7932, [7933]); (7934, [7935]); (7944, [7936]); (7945, [7937]); (7946, [7938]);
   (7947, [7939]); (7948, [7940]); (7949, [7941]); (7950, [7942]); (7951, [7943]);
   (7960, [7952]); (7961, [7953]); (7962, [7954]); (7963, [7955]); (7964, [7956]);
   (7965, [7957]); (7976, [7968]); (7977, [7969]); (7978, [7970]); (7979, [7971]);
   (7980, [7972]); (7981, [7973]); (7982, [7974]); (7983, [7975]); (7992, [7984]);
   (7993, [7985]); (7994, [7986]); (7995, [7987]); (7996, [7988]); (7997, [7989]);
   (7998, [7990]); (7999, [7991]); (8008, [8000]); (8009, [8001]); (8010, [8002]);
   (8011, [8003]); (8012, [8004]); (8013, [8005]); (8025, [8017]); (8027, [8019]);
   (8029, [8021]); (8031, [8023]); (8040, [8032]); (8041, [8033]); (8042, [8034]);
   (8043, [8035]); (8044, [8036]); (8045, [8037]); (8046, [8038]); (8047, [8039]);
   (8072, [8064]); (8073, [8065]); (8074, [8066]); (8075, [8067]); (8076, [8068]);
   (8077, [8069]); (8078, [8070]); (8079, [8071]); (8088, [8080]); (8089, [8081]);
   (8090, [8082]); (8091, [8083]); (8092, [8084]); (8093, [8085]); (8094, [8086]);
   (8095, [8087]); (8104, [8096]); (8105, [8097]); (8106, [8098]); (8107, [8099]);
   (8108, [8100]); (8109, [8101]); (8110, [8102]); (8111, [8103]); (8120, [8112]);
   (8121, [8113]); (8122, [8048]); (8123, [8049]); (8124, [8115]); (8136, [8050]);
   (8137, [8051]); (8138, [8052]); (8139, [8053]); (8140, [8131]); (8152, [8144]);
   (8153, [8145]); (8154, [8054]); (8155, [8055]); (8168, [8160]); (8169, [8161]);
   (8170, [8058]); (8171, [8059]); (8172, [8165]); (8184, [8056]); (8185, [8057]);
   (8186, [8060]); (8187, [8061]); (8188, [8179]); (8486, [969]); (8490, [107]);
   (8491, [229]); (8498, [8526]); (8544, [8560]); (8545, [8561]); (8546, [8562]);
   (8547, [8563]); (8548, [8564]); (8549, [8565]); (8550, [8566]); (8551, [8567]);
   (8552, [8568]); (8553, [8569]); (8554, [8570]); (8555, [8571]); (8556, [8572]);
   (8557, [8573]); (8558, [8574]); (8559, [8575]); (8579, [8580]); (9398, [9424]);
   (9399, [9425]); (9400, [9426]); (9401, [9427]); (9402, [9428]); (9403, [9429]);
   (9404, [9430]); (9405, [9431]); (9406, [9432]); (9407, [9433]); (9408, [9434]);
   (9409, [9435]); (9410, [9436]); (9411, [9437]); (9412, [9438]); (9413, [9439]);
   (9414, [9440]); (9415, [9441]); (9416, [9442]); (9417, [9443]); (9418, [9444]);
   (9419, [9445]); (9420, [9446]); (9421, [9447]); (9422, [9448]); (9423, [9449]);
   (11264, [11312]); (11265, [11313]); (11266, [11314]); (11267, [11315]);
   (11268, [11316]); (11269, [11317]); (11270, [11318]); (11271, [11319]);
   (11272, [11320]); (11273, [11321]); (11274, [11322]); (11275, [11323]);
   (11276, [11324]); (11277, [11325]); (11278, [11326]); (11279, [11327]);
   (11280, [11328]); (11281, [11329]); (11282, [11330]); (11283, [11331]);
   (11284, [11332]); (11285, [11333]); (11286, [11334]); (11287, [11335]);
   (11288, [11336]); (11289, [11337]); (11290, [11338]); (11291, [11339]);
   (11292, [11340]); (11293, [11341]); (11294, [11342]); (11295, [11343]);
   (11296, [11344]); (11297, [11345]); (11298, [11346]); (11299, [11347]);
   (11300, [11348]); (11301, [11349]); (11302, [11350]); (11303, [11351]);
   (11304, [11352]); (11305, [11353]); (11306, [11354]); (11307, [11355]);
   (11308, [11356]); (11309, [11357]); (11310, [11358]); (11311, [11359]);
   (11360, [11361]); (11362, [619]); (11363, [7549]); (11364, [637]);
   (11367, [11368]); (11369, [11370]); (11371, [11372]); (11373, [593]);
   (11374, [625]); (11375, [592]); (11376, [594]); (11378, [11379]); (11381, [11382]);
   (11390, [575]); (11391, [576]); (11392, [11393]); (11394, [11395]);
   (11396, [11397]); (11398, [11399]); (11400, [11401]); (11402, [11403]);
   (11404, [11405]); (11406, [11407]); (11408, [11409]); (11410, [11411]);
   (11412, [11413]); (11414, [11415]); (11416, [11417]); (11418, [11419]);
   (11420, [11421]); (11422, [11423]); (11424, [11425]); (11426, [11427]);
   (11428, [11429]); (11430, [11431]); (11432, [11433]); (11434, [11435]);
   (11436, [11437]); (11438, [11439]); (11440, [11441]); (11442, [11443]);
   (11444, [11445]); (11446, [11447]); (11448, [11449]); (11450, [11451]);
   (11452, [11453]); (11454, [11455]); (11456, [11457]); (11458, [11459]);
   (11460, [11461]); (11462, [11463]); (11464, [11465]); (11466, [11467]);
   (11468, [11469]); (11470, [11471]); (11472, [11473]); (11474, [11475]);
   (11476, [11477]); (11478, [11479]); (11480, [11481]); (11482, [11483]);
   (11484, [11485]); (11486, [11487]); (11488, [11489]); (11490, [11491]);
   (11499, [11500]); (11501, [11502]); (11506, [11507]); (42560, [42561]);
   (42562, [42563]); (42564, [42565]); (42566, [42567]); (42568, [42569]);
   (42570, [42571]); (42572, [42573]); (42574, [42575]); (42576, [42577]);
   (42578, [42579]); (42580, [42581]); (42582, [42583]); (42584, [42585]);
   (42586, [42587]); (42588, [42589]); (42590, [42591]); (42592, [42593]);
   (42594, [42595]); (42596, [42597]); (42598, [42599]); (42600, [42601]);
   (42602, [42603]); (42604, [42605]); (42624, [42625]); (42626, [42627]);
   (42628, [42629]); (42630, [42631]); (42632, [42633]); (42634, [42635]);
   (42636, [42637]); (42638, [42639]); (42640, [42641]); (42642, [42643]);
   (42644, [42645]); (42646, [42647]); (42648, [42649]); (42650, [42651]);
   (42786, [42787]); (42788, [42789]); (42790, [42791]); (42792, [42793]);
   (42794, [42795]); (42796, [42797]); (42798, [42799]); (42802, [42803]);
   (42804, [42805]); (42806, [42807]); (42808, [42809]); (42810, [42811]);
   (42812, [42813]); (42814, [42815]); (42816, [42817]); (42818, [42819]);
   (42820, [42821]); (42822, [42823]); (42824, [42825]); (42826, [42827]);
   (42828, [42829]); (42830, [42831]); (42832, [42833]); (42834, [42835]);
   (42836, [42837]); (42838, [42839]); (42840, [42841]); (42842, [42843]);
   (42844, [42845]); (42846, [42847]); (42848, [42849]); (42850, [42851]);
   (42852, [42853]); (42854, [42855]); (42856, [42857]); (42858, [42859]);
   (42860, [42861]); (42862, [42863]); (42873, [42874]); (42875, [42876]);
   (42877, [7545]); (42878, [42879]); (42880, [42881]); (42882, [42883]);
   (42884, [42885]); (42886, [42887]); (42891, [42892]); (42893, [613]);
   (42896, [42897]); (42898, [42899]); (42902, [42903]); (42904, [42905]);
   (42906, [42907]); (42908, [42909]); (42910, [42911]); (42912, [42913]);
   (42914, [42915]); (42916, [42917]); (42918, [42919]); (42920, [42921]);
   (42922, [614]); (42923, [604]); (42924, [609]); (42925, [620]); (42926, [618]);
   (42928, [670]); (42929, [647]); (42930, [669]); (42931, [43859]); (42932, [42933]);
   (42934, [42935]); (42936, [42937]); (42938, [42939]); (42940, [42941]);
   (42942, [42943]); (42944, [42945]); (42946, [42947]); (42948, [42900]);
   (42949, [642]); (42950, [7566]); (42951, [42952]); (42953, [42954]);
   (42960, [42961]); (42966, [42967]); (42968, [42969]); (42997, [42998]);
   (65313, [65345]); (65314, [65346]); (65315, [65347]); (65316, [65348]);
   (65317, [65349]); (65318, [65350]); (65319, [65351]); (65320, [65352]);
   (65321, [65353]); (65322, [65354]); (65323, [65355]); (65324, [65356]);
   (65325, [65357]); (65326, [65358]); (65327, [65359]); (65328, [65360]);
   (65329, [65361]); (65330, [65362]); (65331, [65363]); (65332, [65364]);
   (65333, [65365]); (65334, [65366]); (65335, [65367]); (65336, [65368]);
   (65337, [65369]); (65338, [65370]); (66560, [66600]); (66561, [66601]);
   (66562, [66602]); (66563, [66603]); (66564, [66604]); (66565, [66605]);
   (66566, [66606]); (66567, [66607]); (66568, [66608]); (66569, [66609]);
   (66570, [66610]); (66571, [66611]); (66572, [66612]); (66573, [66613]);
   (66574, [66614]); (66575, [66615]); (66576, [66616]); (66577, [66617]);
   (66578, [66618]); (66579, [66619]); (66580, [66620]); (66581, [66621]);
   (66582, [66622]); (66583, [66623]); (66584, [66624]); (66585, [66625]);
   (66586, [66626]); (66587, [66627]); (66588, [66628]); (66589, [66629]);
   (66590, [66630]); (66591, [66631]); (66592, [66632]); (66593, [66633]);
   (66594, [66634]); (66595, [66635]); (66596, [66636]); (66597, [66637]);
   (66598, [66638]); (66599, [66639]); (66736, [66776]); (66737, [66777]);
   (66738, [66778]); (66739, [66779]); (66740, [66780]); (66741, [66781]);
   (66742, [66782]); (66743, [66783]); (66744, [66784]); (66745, [66785]);
   (66746, [66786]); (66747, [66787]); (66748, [66788]); (66749, [66789]);
   (66750, [66790]); (66751, [66791]); (66752, [66792]); (66753, [66793]);
   (66754, [66794]); (66755, [66795]); (66756, [66796]); (66757, [66797]);
   (66758, [66798]); (66759, [66799]); (66760, [66800]); (66761, [66801]);
   (66762, [66802]); (66763, [66803]); (66764, [66804]); (66765, [66805]);
   (66766, [66806]); (66767, [66807]); (66768, [66808]); (66769, [66809]);
   (66770, [66810]); (66771, [66811]); (66928, [66967]); (66929, [66968]);
   (66930, [66969]); (66931, [66970]); (66932, [66971]); (66933, [66972]);
   (66934, [66973]); (66935, [66974]); (66936, [66975]); (66937, [66976]);
   (66938, [66977]); (66940, [66979]); (66941, [66980]); (66942, [66981]);
   (66943, [66982]); (66944, [66983]); (66945, [66984]); (66946, [66985]);
   (66947, [66986]); (66948, [66987]); (66949, [66988]); (66950, [66989]);
   (66951, [66990]); (66952, [66991]); (66953, [66992]); (66954, [66993]);
   (66956, [66995]); (66957, [66996]); (66958, [66997]); (66959, [66998]);
   (66960, [66999]); (66961, [67000]); (66962, [67001]); (66964, [67003]);
   (66965, [67004]); (68736, [68800]); (68737, [68801]); (68738, [68802]);
   (68739, [68803]); (68740, [68804]); (68741, [68805]); (68742, [68806]);
   (68743, [68807]); (68744, [68808]); (68745, [68809]); (68746, [68810]);
   (68747, [68811]); (68748, [68812]); (68749, [68813]); (68750, [68814]);
   (68751, [68815]); (68752, [68816]); (68753, [68817]); (68754, [68818]);
   (68755, [68819]); (68756, [68820]); (68757, [68821]); (68758, [68822]);
   (68759, [68823]); (68760, [68824]); (68761, [68825]); (68762, [68826]);
   (68763, [68827]); (68764, [68828]); (68765, [68829]); (68766, [68830]);
   (68767, [68831]); (68768, [68832]); (68769, [68833]); (68770, [68834]);
   (68771, [68835]); (68772, [68836]); (68773, [68837]); (68774, [68838]);
   (68775, [68839]); (68776, [68840]); (68777, [68841]); (68778, [68842]);
   (68779, [68843]); (68780, [68844]); (68781, [68845]); (68782, [68846]);
   (68783, [68847]); (68784, [68848]); (68785, [68849]); (68786, [68850]);
   (71840, [71872]); (71841, [71873]); (71842, [71874]); (71843, [71875]);
   (71844, [71876]); (71845, [71877]); (71846, [71878]); (71847, [71879]);
   (71848, [71880]); (71849, [71881]); (71850, [71882]); (71851, [71883]);
   (71852, [71884]); (71853, [71885]); (71854, [71886]); (71855, [71887]);
   (71856, [71888]); (71857, [71889]); (71858, [71890]); (71859, [71891]);
   (71860, [71892]); (71861, [71893]); (71862, [71894]); (71863, [71895]);
   (71864, [71896]); (71865, [71897]); (71866, [71898]); (71867, [71899]);
   (71868, [71900]); (71869, [71901]); (71870, [71902]); (71871, [71903]);
   (93760, [93792]); (93761, [93793]); (93762, [93794]); (93763, [93795]);
   (93764, [93796]); (93765, [93797]); (93766, [93798]); (93767, [93799]);
   (93768, [93800]); (93769, [93801]); (93770, [93802]); (93771, [93803]);
   (93772, [93804]); (93773, [93805]); (93774, [93806]); (93775, [93807]);
   (93776, [93808]); (93777, [93809]); (93778, [93810]); (93779, [93811]);
   (93780, [93812]); (93781, [93813]); (93782, [93814]); (93783, [93815]);
   (93784, [93816]); (93785, [93817]); (93786, [93818]); (93787, [93819]);
   (93788, [93820]); (93789, [93821]); (93790, [93822]); (93791, [93823]);
   (125184, [125218]); (125185, [125219]); (125186, [125220]); (125187, [125221]);
   (125188, [125222]); (125189, [125223]); (125190, [125224]); (125191, [125225]);
   (125192, [125226]); (125193, [125227]); (125194, [125228]); (125195, [125229]);
   (125196, [125230]); (125197, [125231]); (125198, [125232]); (125199, [125233]);
   (125200, [125234]); (125201, [125235]); (125202, [125236]); (125203, [125237]);
   (125204, [125238]); (125205, [125239]); (125206, [125240]); (125207, [125241]);
   (125208, [125242]); (125209, [125243]); (125210, [125244]); (125211, [125245]);
   (125212, [125246]); (125213, [125247]); (125214, [125248]); (125215, [125249]);
   (125216, [125250]); (125217, [125251])
  ]%N.

(** Inclusive ranges of the case-ignorable code points. *)
Definition case_ignorable_ranges : list (N * N) :=
  [
   (39, 39); (46, 46); (58, 58); (94, 94); (96, 96); (168, 168); (173, 173);
   (175, 175); (180, 180); (183, 184); (688, 879); (884, 885); (890, 890); (900, 901);
   (903, 903); (1155, 1161); (1369, 1369); (1375, 1375); (1425, 1469); (1471, 1471);
   (1473, 1474); (1476, 1477); (1479, 1479); (1524, 1524); (1536, 1541); (1552, 1562);
   (1564, 1564); (1600, 1600); (1611, 1631); (1648, 1648); (1750, 1757); (1759, 1768);
   (1770, 1773); (1807, 1807); (1809, 1809); (1840, 1866); (1958, 1968); (2027, 2037);
   (2042, 2042); (2045, 2045); (2070, 2093); (2137, 2139); (2184, 2184); (2192, 2193);
   (2200, 2207); (2249, 2306); (2362, 2362); (2364, 2364); (2369, 2376); (2381, 2381);
   (2385, 2391); (2402, 2403); (2417, 2417); (2433, 2433); (2492, 2492); (2497, 2500);
   (2509, 2509); (2530, 2531); (2558, 2558); (2561, 2562); (2620, 2620); (2625, 2626);
   (2631, 2632); (2635, 2637); (2641, 2641); (2672, 2673); (2677, 2677); (2689, 2690);
   (2748, 2748); (2753, 2757); (2759, 2760); (2765, 2765); (2786, 2787); (2810, 2815);
   (2817, 2817); (2876, 2876); (2879, 2879); (2881, 2884); (2893, 2893); (2901, 2902);
   (2914, 2915); (2946, 2946); (3008, 3008); (3021, 3021); (3072, 3072); (3076, 3076);
   (3132, 3132); (3134, 3136); (3142, 3144); (3146, 3149); (3157, 3158); (3170, 3171);
   (3201, 3201); (3260, 3260); (3263, 3263); (3270, 3270); (3276, 3277); (3298, 3299);
   (3328, 3329); (3387, 3388); (3393, 3396); (3405, 3405); (3426, 3427); (3457, 3457);
   (3530, 3530); (3538, 3540); (3542, 3542); (3633, 3633); (3636, 3642); (3654, 3662);
   (3761, 3761); (3764, 3772); (3782, 3782); (3784, 3789); (3864, 3865); (3893, 3893);
   (3895, 3895); (3897, 3897); (3953, 3966); (3968, 3972); (3974, 3975); (3981, 3991);
   (3993, 4028); (4038, 4038); (4141, 4144); (4146, 4151); (4153, 4154); (4157, 4158);
   (4184, 4185); (4190, 4192); (4209, 4212); (4226, 4226); (4229, 4230); (4237, 4237);
   (4253, 4253); (4348, 4348); (4957, 4959); (5906, 5908); (5938, 5939); (5970, 5971);
   (6002, 6003); (6068, 6069); (6071, 6077); (6086, 6086); (6089, 6099); (6103, 6103);
   (6109, 6109); (6155, 6159); (6211, 6211); (6277, 6278); (6313, 6313); (6432, 6434);
   (6439, 6440); (6450, 6450); (6457, 6459); (6679, 6680); (6683, 6683); (6742, 6742);
   (6744, 6750); (6752, 6752); (6754, 6754); (6757, 6764); (6771, 6780); (6783, 6783);
   (6823, 6823); (6832, 6862); (6912, 6915); (6964, 6964); (6966, 6970); (6972, 6972);
   (6978, 6978); (7019, 7027); (7040, 7041); (7074, 7077); (7080, 7081); (7083, 7085);
   (7142, 7142); (7144, 7145); (7149, 7149); (7151, 7153); (7212, 7219); (7222, 7223);
   (7288, 7293); (7376, 7378); (7380, 7392); (7394, 7400); (7405, 7405); (7412, 7412);
   (7416, 7417); (7468, 7530); (7544, 7544); (7579, 7679); (8125, 8125); (8127, 8129);
   (8141, 8143); (8157, 8159); (8173, 8175); (8189, 8190); (8203, 8207); (8216, 8217);
   (8228, 8228); (8231, 8231); (8234, 8238); (8288, 8292); (8294, 8303); (8305, 8305);
   (8319, 8319); (8336, 8348); (8400, 8432); (11388, 11389); (11503, 11505);
   (11631, 11631); (11647, 11647); (11744, 11775); (11823, 11823); (12293, 12293);
   (12330, 12333); (12337, 12341); (12347, 12347); (12441, 12446); (12540, 12542);
   (40981, 40981); (42232, 42237); (42508, 42508); (42607, 42610); (42612, 42621);
   (42623, 42623); (42652, 42655); (42736, 42737); (42752, 42785); (42864, 42864);
   (42888, 42890); (42994, 42996); (43000, 43001); (43010, 43010); (43014, 43014);
   (43019, 43019); (43045, 43046); (43052, 43052); (43204, 43205); (43232, 43249);
   (43263, 43263); (43302, 43309); (43335, 43345); (43392, 43394); (43443, 43443);
   (43446, 43449); (43452, 43453); (43471, 43471); (43493, 43494); (43561, 43566);
   (43569, 43570); (43573, 43574); (43587, 43587); (43596, 43596); (43632, 43632);
   (43644, 43644); (43696, 43696); (43698, 43700); (43703, 43704); (43710, 43711);
   (43713, 43713); (43741, 43741); (43756, 43757); (43763, 43764); (43766, 43766);
   (43867, 43871); (43881, 43883); (44005, 44005); (44008, 44008); (44013, 44013);
   (64286, 64286); (64434, 64450); (65024, 65039); (65043, 65043); (65056, 65071);
   (65106, 65106); (65109, 65109); (65279, 65279); (65287, 65287); (65294, 65294);
   (65306, 65306); (65342, 65342); (65344, 65344); (65392, 65392); (65438, 65439);
   (65507, 65507); (65529, 65531); (66045, 66045); (66272, 66272); (66422, 66426);
   (67456, 67461); (67463, 67504); (67506, 67514); (68097, 68099); (68101, 68102);
   (68108, 68111); (68152, 68154); (68159, 68159); (68325, 68326); (68900, 68903);
   (69291, 69292); (69446, 69456); (69506, 69509); (69633, 69633); (69688, 69702);
   (69744, 69744); (69747, 69748); (69759, 69761); (69811, 69814); (69817, 69818);
   (69821, 69821); (69826, 69826); (69837, 69837); (69888, 69890); (69927, 69931);
   (69933, 69940); (70003, 70003); (70016, 70017); (70070, 70078); (70089, 70092);
   (70095, 70095); (70191, 70193); (70196, 70196); (70198, 70199); (70206, 70206);
   (70367, 70367); (70371, 70378); (70400, 70401); (70459, 70460); (70464, 70464);
   (70502, 70508); (70512, 70516); (70712, 70719); (70722, 70724); (70726, 70726);
   (70750, 70750); (70835, 70840); (70842, 70842); (70847, 70848); (70850, 70851);
   (71090, 71093); (71100, 71101); (71103, 71104); (71132, 71133); (71219, 71226);
   (71229, 71229); (71231, 71232); (71339, 71339); (71341, 71341); (71344, 71349);
   (71351, 71351); (71453, 71455); (71458, 71461); (71463, 71467); (71727, 71735);
   (71737, 71738); (71995, 71996); (71998, 71998); (72003, 72003); (72148, 72151);
   (72154, 72155); (72160, 72160); (72193, 72202); (72243, 72248); (72251, 72254);
   (72263, 72263); (72273, 72278); (72281, 72283); (72330, 72342); (72344, 72345);
   (72752, 72758); (72760, 72765); (72767, 72767); (72850, 72871); (72874, 72880);
   (72882, 72883); (72885, 72886); (73009, 73014); (73018, 73018); (73020, 73021);
   (73023, 73029); (73031, 73031); (73104, 73105); (73109, 73109); (73111, 73111);
   (73459, 73460); (78896, 78904); (92912, 92916); (92976, 92982); (92992, 92995);
   (94031, 94031); (94095, 94111); (94176, 94177); (94179, 94180); (110576, 110579);
   (110581, 110587); (110589, 110590); (113821, 113822); (113824, 113827);
   (118528, 118573); (118576, 118598); (119143, 119145); (119155, 119170);
   (119173, 119179); (119210, 119213); (119362, 119364); (121344, 121398);
   (121403, 121452); (121461, 121461); (121476, 121476); (121499, 121503);
   (121505, 121519); (122880, 122886); (122888, 122904); (122907, 122913);
   (122915, 122916); (122918, 122922); (123184, 123197); (123566, 123566);
   (123628, 123631); (125136, 125142); (125252, 125259); (127995, 127999);
   (917505, 917505); (917536, 917631); (917760, 917999)
  ]%N.

(** Inclusive ranges of the cased code points that are not case-ignorable. *)
Definition cased_ranges : list (N * N) :=
  [
   (65, 90); (97, 122); (170, 170); (181, 181); (186, 186); (192, 214); (216, 246);
   (248, 442); (444, 447); (452, 659); (661, 687); (880, 883); (886, 887); (891, 893);
   (895, 895); (902, 902); (904, 906); (908, 908); (910, 929); (931, 1013);
   (1015, 1153); (1162, 1327); (1329, 1366); (1376, 1416); (4256, 4293); (4295, 4295);
   (4301, 4301); (4304, 4346); (4349, 4351); (5024, 5109); (5112, 5117); (7296, 7304);
   (7312, 7354); (7357, 7359); (7424, 7467); (7531, 7543); (7545, 7578); (7680, 7957);
   (7960, 7965); (7968, 8005); (8008, 8013); (8016, 8023); (8025, 8025); (8027, 8027);
   (8029, 8029); (8031, 8061); (8064, 8116); (8118, 8124); (8126, 8126); (8130, 8132);
   (8134, 8140); (8144, 8147); (8150, 8155); (8160, 8172); (8178, 8180); (8182, 8188);
   (8450, 8450); (8455, 8455); (8458, 8467); (8469, 8469); (8473, 8477); (8484, 8484);
   (8486, 8486); (8488, 8488); (8490, 8493); (8495, 8500); (8505, 8505); (8508, 8511);
   (8517, 8521); (8526, 8526); (8544, 8575); (8579, 8580); (9398, 9449);
   (11264, 11387); (11390, 11492); (11499, 11502); (11506, 11507); (11520, 11557);
   (11559, 11559); (11565, 11565); (42560, 42605); (42624, 42651); (42786, 42863);
   (42865, 42887); (42891, 42894); (42896, 42954); (42960, 42961); (42963, 42963);
   (42965, 42969); (42997, 42998); (43002, 43002); (43824, 43866); (43872, 43880);
   (43888, 43967); (64256, 64262); (64275, 64279); (65313, 65338); (65345, 65370);
   (66560, 66639); (66736, 66771); (66776, 66811); (66928, 66938); (66940, 66954);
   (66956, 66962); (66964, 66965); (66967, 66977); (66979, 66993); (66995, 67001);
   (67003, 67004); (68736, 68786); (68800, 68850); (71840, 71903); (93760, 93823);
   (119808, 119892); (119894, 119964); (119966, 119967); (119970, 119970);
   (119973, 119974); (119977, 119980); (119982, 119993); (119995, 119995);
   (119997, 120003); (120005, 120069); (120071, 120074); (120077, 120084);
   (120086, 120092); (120094, 120121); (120123, 120126); (120128, 120132);
   (120134, 120134); (120138, 120144); (120146, 120485); (120488, 120512);
   (120514, 120538); (120540, 120570); (120572, 120596); (120598, 120628);
   (120630, 120654); (120656, 120686); (120688, 120712); (120714, 120744);
   (120746, 120770); (120772, 120779); (122624, 122633); (122635, 122654);
   (125184, 125251); (127280, 127305); (127312, 127337); (127344, 127369)
  ]%N.

Definition in_ranges (c : N) (ranges : list (N * N)) : bool :=
  List.existsb (fun r : N * N => (r.1 <=? c) && (c <=? r.2))%N ranges.

Definition case_ignorable (c : N) : bool := in_ranges c case_ignorable_ranges.

(** Consulted only for a code point that is not case-ignorable. *)
Definition cased (c : N) : bool := in_ranges c cased_ranges.

Definition lower_map : gmap N (list N) := list_to_map lower_table.

(** The full lowercase mapping of one code point. *)
Definition to_lower_full (c : N) : list N := default [c] (lower_map !! c).

(** GREEK CAPITAL LETTER SIGMA and its two lowercase forms. *)
Definition CAPITAL_SIGMA : N := 931.
Definition SMALL_SIGMA : N := 963.
Definition FINAL_SIGMA : N := 962.

End Unicode.

(** ** UTF-8

    A [str] is embedded as the Rocq [string] of its UTF-8 encoding; the
    methods of [str] work on its code points.  A Rocq string that is not
    well-formed UTF-8 stands for the [str] it decodes to, every byte that
    cannot be decoded giving U+FFFD. *)

Module Utf8.

Definition byte (n : N) : ascii := ascii_of_N n.

(** A Unicode scalar value: below 0x110000 and not a surrogate. *)
Definition is_scalar (c : N) : bool :=
  ((c <? 1114112) && negb ((55296 <=? c) && (c <? 57344)))%N.

Definition REPLACEMENT : N := 65533.

Definition encode1 (c : N) : list ascii :=
  (if c <? 128 then [byte c]
   else if c <? 2048 then [byte (192 + c / 64); byte (128 + c mod 64)]
   else if c <? 65536 then
     [byte (224 + c / 64 / 64); byte (128 + (c / 64) mod 64); byte (128 + c mod 64)]
   else
     [byte (240 + c / 64 / 64 / 64); byte (128 + (c / 64 / 64) mod 64);
      byte (128 + (c / 64) mod 64); byte (128 + c mod 64)])%N.

Definition encode (l : list N) : list ascii := List.flat_map encode1 l.

Definition continuation (n : N) : bool := ((128 <=? n) && (n <? 192))%N.

Definition join2 (n0 n1 : N) : N := ((n0 - 192) * 64 + (n1 - 128))%N.
Definition join3 (n0 n1 n2 : N) : N :=
  (((n0 - 224) * 64 + (n1 - 128)) * 64 + (n2 - 128))%N.
Definition join4 (n0 n1 n2 n3 : N) : N :=
  ((((n0 - 240) * 64 + (n1 - 128)) * 64 + (n2 - 128)) * 64 + (n3 - 128))%N.

(** The well-formed two-, three- and four-byte sequences: lead byte,
    continuation bytes, shortest form, scalar value. *)
Definition seq2 (n0 n1 : N) : bool :=
  ((192 <=? n0) && (n0 <? 224) && continuation n1 && (128 <=? join2 n0 n1))%N.
Definition seq3 (n0 n1 n2 : N) : bool :=
  ((224 <=? n0) && (n0 <? 240) && continuation n1 && continuation n2
   && (2048 <=? join3 n0 n1 n2) && is_scalar (join3 n0 n1 n2))%N.
Definition seq4 (n0 n1 n2 n3 : N) : bool :=
  ((240 <=? n0) && (n0 <? 248) && continuation n1 && continuation n2 && continuation n3
   && (65536 <=? join4 n0 n1 n2 n3) && is_scalar (join4 n0 n1 n2 n3))%N.

Fixpoint decode (s : list ascii) : list N :=
  match s with
  | [] => []
  | b0 :: s1 =>
      let n0 := N_of_ascii b0 in
      if (n0 <? 128)%N then n0 :: decode s1
      else
        match s1 with
        | b1 :: s2 =>
            let n1 := N_of_ascii b1 in
            if seq2 n0 n1 then join2 n0 n1 :: decode s2
            else
              match s2 with
              | b2 :: s3 =>
                  let n2 := N_of_ascii b2 in
                  if seq3 n0 n1 n2 then join3 n0 n1 n2 :: decode s3
                  else
                    match s3 with
                    | b3 :: s4 =>
                        let n3 := N_of_ascii b3 in
                        if seq4 n0 n1 n2 n3 then join4 n0 n1 n2 n3 :: decode s4
                        else REPLACEMENT :: decode s1
                    | [] => REPLACEMENT :: decode s1
                    end
              | [] => REPLACEMENT :: decode s1
              end
        | [] => REPLACEMENT :: decode s1
        end
  end.

End Utf8.

(** ** Python [str] primitives

    The methods of [str] that depend on the characters ([lower], [replace],
    [re.sub], [strip]) work on code points, [list N].  The tests of the Link
    Extractor and of [pathlib] ([startswith], [endswith], [split], [rfind])
    look for ASCII text only and are made on the bytes of the encoding,
    [list ascii]: in UTF-8 an ASCII byte occurs only as the character it
    encodes. *)

Module PyStr.

Definition chars := list ascii.

Definition of_str (s : string) : chars := list_ascii_of_string s.
Definition to_str (l : chars) : string := string_of_list_ascii l.

(** The code points of a [str], and the [str] of a list of code points. *)
Definition cps := list N.

Definition codepoints (s : string) : cps := Utf8.decode (of_str s).
Definition of_codepoints (l : cps) : string := to_str (Utf8.encode l).

(** [ord(c)] for an ASCII character of the source text. *)
Definition ord (c : ascii) : N := N_of_ascii c.

(** The loops of the final-sigma rule step over case-ignorable code
    points. *)
Fixpoint skip_ignorable (s : cps) : cps :=
  match s with
  | [] => []
  | c :: rest => if Unicode.case_ignorable c then skip_ignorable rest else s
  end.

(** A capital sigma is final when a cased letter comes before it and none
    after it, case-ignorable code points apart; [before] is the text before
    it, nearest code point first. *)
Definition final_sigma (before after : cps) : bool :=
  match skip_ignorable before with
  | [] => false
  | c :: _ =>
      Unicode.cased c
      && match skip_ignorable after with
         | [] => true
         | d :: _ => negb (Unicode.cased d)
         end
  end.

(** [s.lower()]: every code point gives its full lowercase mapping, a
    capital sigma one of its two lowercase forms. *)
Fixpoint lower_from (before : cps) (s : cps) : cps :=
  match s with
  | [] => []
  | c :: rest =>
      (if (c =? Unicode.CAPITAL_SIGMA)%N
       then [if final_sigma before rest then Unicode.FINAL_SIGMA else Unicode.SMALL_SIGMA]
       else Unicode.to_lower_full c)
      ++ lower_from (c :: before) rest
  end.

Definition lower (s : cps) : cps := lower_from [] s.

(** [s.replace(old, new)] for a one-character [old]. *)
Definition replace (old : N) (new : cps) (s : cps) : cps :=
  List.flat_map (fun c => if (c =? old)%N then new else [c]) s.

(** [re.sub(c + "+", c, s)]: the scanner walks the string left to right;
    [in_run] records that the previous character belonged to a match, whose
    single replacement character has already been written. *)
Fixpoint re_sub_run (c : N) (in_run : bool) (s : cps) : cps :=
  match s with
  | [] => []
  | x :: s' =>
      if (x =? c)%N
      then (if in_run then re_sub_run c true s' else c :: re_sub_run c true s')
      else x :: re_sub_run c false s'
  end.

(** [s.lstrip(c)] *)
Fixpoint lstrip (c : N) (s : cps) : cps :=
  match s with
  | [] => []
  | x :: s' => if (x =? c)%N then lstrip c s' else s
  end.

(** [s.rstrip(c)] *)
Fixpoint rstrip (c : N) (s : cps) : cps :=
  match s with
  | [] => []
  | x :: s' =>
      match rstrip c s' with
      | [] => if (x =? c)%N then [] else [x]
      | r => x :: r
      end
  end.

(** [s.strip(c)] *)
Definition strip (c : N) (s : cps) : cps := rstrip c (lstrip c s).

(** The limit of [str(int)]: [sys.get_int_max_str_digits()], at its
    default. *)
Definition INT_MAX_STR_DIGITS : nat := 4300.

(** [str(n)] for an [int]: [None] is the [ValueError] raised when [n] has
    more decimal digits than the limit. *)
Definition str_of_int (z : Z) : option string :=
  let s := NilZero.string_of_int (Z.to_int z) in
  let digits := (String.length s - (if (z <? 0)%Z then 1 else 0))%nat in
  if (INT_MAX_STR_DIGITS <? digits)%nat then None else Some s.

(** [s.startswith(p)] *)
Fixpoint startswith (p s : chars) : bool :=
  match p, s with
  | [], _ => true
  | _ :: _, [] => false
  | a :: p', b :: s' => Ascii.eqb a b && startswith p' s'
  end.

(** [s.endswith(p)] *)
Definition endswith (p s : chars) : bool :=
  startswith (List.rev p) (List.rev s).

(** [s.split(sep)] for a one-character separator: never empty. *)
Fixpoint split (sep : ascii) (s : chars) : list chars :=
  match s with
  | [] => [[]]
  | x :: s' =>
      if Ascii.eqb x sep then [] :: split sep s'
      else match split sep s' with
           | [] => [[x]]
           | seg :: segs => (x :: seg) :: segs
           end
  end.

(** [s.rfind(c)]: index of the last occurrence, [None] for Python's [-1]. *)
Fixpoint rfind (c : ascii) (s : chars) : option nat :=
  match s with
  | [] => None
  | x :: s' =>
      match rfind c s' with
      | Some i => Some (S i)
      | None => if Ascii.eqb x c then Some 0 else None
      end
  end.

(** [str(n)] for a length ([len(...)] is never negative). *)
Definition str_of_nat (n : nat) : string := NilZero.string_of_uint (Nat.to_uint n).

End PyStr.

(** ** Name Sanitiser *)

(** [sanitise_name] takes [name: str | int]; a [bool] is an [int]. *)
Inductive str_or_int :=
| NameStr (s : string)
| NameInt (z : Z)
| NameBool (b : bool).

(** [str(name)]; [None]: it raises [ValueError]. *)
Definition str (n : str_or_int) : option string :=
  match n with
  | NameStr s => Some s
  | NameInt z => PyStr.str_of_int z
  | NameBool b => Some (if b then "True" else "False")
  end.

(** The chain of [str] calls of [sanitise_name] after [str(name)], on code
    points. *)
Definition sanitise_chars (s : PyStr.cps) : PyStr.cps :=
  let sanitised :=
    PyStr.replace (PyStr.ord ")") []
      (PyStr.replace (PyStr.ord "(") []
        (PyStr.replace (PyStr.ord "&") (PyStr.codepoints "and")
          (PyStr.replace (PyStr.ord "-") (PyStr.codepoints "_")
            (PyStr.replace (PyStr.ord " ") (PyStr.codepoints "_")
              (PyStr.lower s))))) in
  let sanitised := PyStr.re_sub_run (PyStr.ord "_") false sanitised in
  PyStr.strip (PyStr.ord "_") sanitised.

(** [sanitise_name] on a [str]: no step of the chain raises. *)
Definition sanitise_str (s : string) : string :=
  PyStr.of_codepoints (sanitise_chars (PyStr.codepoints s)).

Definition sanitise_name (n : str_or_int) : option string :=
  match str n with
  | Some s => Some (sanitise_str s)
  | None => None
  end.

(** ** Documents, paths, grids: the data the collaborators hand over *)

(** A parsed HTML tree as [BeautifulSoup] exposes it: [classes] is the value
    of the multi-valued [class] attribute, [attrs] the remaining attribute
    dict. *)
#[warnings="-register-all"] Inductive Node :=
| Text (s : string)
| Elem (tag : string) (classes : list string) (attrs : gmap string string)
       (children : list Node).

Definition node_attrs (n : Node) : gmap string string :=
  match n with
  | Text _ => ∅
  | Elem _ _ a _ => a
  end.

(** All descendants in document order. *)
Fixpoint descendants (n : Node) : list Node :=
  match n with
  | Text _ => []
  | Elem _ _ _ cs => List.flat_map (fun c => c :: descendants c) cs
  end.

Definition tag_has_class (tag cls : string) (n : Node) : bool :=
  match n with
  | Text _ => false
  | Elem t cl _ _ => String.eqb t tag && List.existsb (String.eqb cls) cl
  end.

(** [node.find_all(tag, class_=cls)] *)
Definition find_all (tag cls : string) (n : Node) : list Node :=
  List.filter (tag_has_class tag cls) (descendants n).

(** [node.find(tag, class_=cls)] *)
Definition find (tag cls : string) (n : Node) : option Node :=
  List.head (find_all tag cls n).

Module Pathlib.

(** A path is kept as its directory and its final component; [output_dir /
    filename] is used only with a [filename] that is one path segment. *)
Record Path := mkPath { parent : string; name : string }.

Definition div (output_dir filename : string) : Path := mkPath output_dir filename.

(** [PurePath.suffix]: [i = name.rfind('.')]; [name[i:]] when
    [0 < i < len(name) - 1], else the empty string. *)
Definition suffix (p : Path) : string :=
  let nm := PyStr.of_str (name p) in
  match PyStr.rfind "." nm with
  | Some i =>
      if (0 <? i)%nat && (S i <? List.length nm)%nat
      then PyStr.to_str (List.skipn i nm) else ""
  | None => ""
  end.

(** [PurePath.stem]: [name[:i]] under the same test, else [name]. *)
Definition stem (p : Path) : string :=
  let nm := PyStr.of_str (name p) in
  match PyStr.rfind "." nm with
  | Some i =>
      if (0 <? i)%nat && (S i <? List.length nm)%nat
      then PyStr.to_str (List.firstn i nm) else name p
  | None => name p
  end.

End Pathlib.

Import Pathlib.

#[global] Instance Path_eq_dec : EqDecision Path.
Proof. solve_decision. Defined.

#[global] Instance Path_countable : Countable Path :=
  inj_countable' (fun p => (parent p, name p)) (fun q => mkPath q.1 q.2)
                 (fun p => match p with mkPath _ _ => eq_refl end).

(** A [DataFrame]: column labels and rows of cells. *)
Record Grid := mkGrid { columns : list string; rows : list (list string) }.

(** [len(df)] *)
Definition len (df : Grid) : nat := List.length (rows df).

(** The DuckDB file: schemas, each a set of named tables. *)
Abbreviation Database := (gmap string (gmap string Grid)).

(** What a streamed [requests.get(url, stream=True)] does: the request or
    [raise_for_status] raises, or the body arrives as chunks and the
    iteration either ends or raises after them. *)
Inductive Response :=
| RequestFails
| Body (chunks : list (list Byte.byte)) (broken : bool).

(** The collaborators outside the pipeline. *)
Record Env := {
  (** [requests.get(page_url)], [raise_for_status], [BeautifulSoup(...)]:
      the text of the exception raised, or the parsed page. *)
  get_page : string -> string + Node;
  (** the asset server, given the requests already made *)
  get_stream : list string -> string -> Response;
  (** [output_dir.mkdir(exist_ok=True, parents=True)] can create the
      directory when it is not there *)
  mkdir_ok : string -> bool;
  (** [open(file_path, "wb")] does not raise *)
  open_wb_ok : Path -> bool;
  (** [pd.ExcelFile]: the sheets of a workbook, each with what
      [pd.read_excel] makes of it ([None]: it raises) *)
  read_workbook : list Byte.byte -> option (list (string * option Grid));
  (** [pd.read_csv] *)
  read_csv : list Byte.byte -> option Grid;
  (** [duckdb.connect(str(db_path))] does not raise *)
  connect_ok : string -> bool;
  (** how the engine reads the name in [CREATE SCHEMA IF NOT EXISTS <name>] *)
  schema_ident : string -> option string;
  (** how the engine reads the name in [CREATE OR REPLACE TABLE <name>] *)
  table_ident : string -> option (string * string);
  (** [SELECT * FROM df]: the rows the engine stores for a frame *)
  select_all : Grid -> option Grid;
  (** [str(db_path.absolute())] *)
  absolute : string -> string
}.

(** The mutable world of one run. *)
Record World := mkWorld {
  fs : gmap Path (list Byte.byte);
  db : Database;
  requests : list string
}.

Definition path_exists (w : World) (p : Path) : bool := bool_decide (is_Some (fs w !! p)).

(** Some file of the world lies in directory [d], so [d] is there. *)
Definition dir_holds_file (w : World) (d : string) : bool :=
  bool_decide (set_Exists (fun p => parent p = d) (dom (fs w))).

(** ** Config and exceptions *)

Definition IMD_2025_URL : string :=
  "https://www.gov.uk/government/statistics/english-indices-of-deprivation-2025".
Definition BASE_URL : string := "https://assets.publishing.service.gov.uk".
Definition DEFAULT_DATA_DIR : string := "data".
Definition DEFAULT_DB_PATH : string := "IMD2025.duckdb".

(** The exception classes of the module, each carrying its message. *)
Inductive IMDLoaderError :=
| DownloadError (msg : string)
| ExtractionError (msg : string)
| LoadError (msg : string).

(** ** Link Extractor *)

(** [{"url": ..., "filename": ...}] *)
Record Descriptor := mkDescriptor { url : string; filename : string }.

Definition str_startswith (p s : string) : bool :=
  PyStr.startswith (PyStr.of_str p) (PyStr.of_str s).

Definition str_endswith (p s : string) : bool :=
  PyStr.endswith (PyStr.of_str p) (PyStr.of_str s).

(** [href.split("/")[-1]] *)
Definition last_segment (href : string) : string :=
  PyStr.to_str (List.last (PyStr.split "/" (PyStr.of_str href)) []).

(** One turn of the loop over [attachments]: [None] is [continue], [Some d]
    is [files.append(d)]. *)
Definition attachment_link (attachment : Node) : option Descriptor :=
  match find "a" "govuk-link" attachment with
  | None => None
  | Some link =>
      match node_attrs link !! "href" with
      | None => None
      | Some href =>
          if negb (str_endswith ".xlsx" href || str_endswith ".csv" href) then None
          else if str_startswith "/media/" href
               then let href := BASE_URL +:+ href in
                    Some (mkDescriptor href (last_segment href))
          else if negb (str_startswith "http" href) then None
          else Some (mkDescriptor href (last_segment href))
      end
  end.

(** The body of the [try] once the page is parsed. *)
Definition extract_links (soup : Node) : list Descriptor :=
  let attachments := find_all "section" "gem-c-attachment" soup in
  List.flat_map (fun a => option_list (attachment_link a)) attachments.

Definition get_download_links (E : Env) (page_url : string)
  : IMDLoaderError + list Descriptor :=
  match get_page E page_url with
  | inl e => inl (ExtractionError ("Failed to extract download links: " +:+ e))
  | inr soup => inr (extract_links soup)
  end.

(** ** File Fetcher *)

Inductive DlStatus := st_exists | st_downloaded | st_failed.

Definition log_request (u : string) (w : World) : World :=
  mkWorld (fs w) (db w) (requests w ++ [u]).

Definition write_file (p : Path) (data : list Byte.byte) (w : World) : World :=
  mkWorld (<[p := data]> (fs w)) (db w) (requests w).

(** What the [with open(...)] block leaves in the file: the non-empty chunks
    received, in order. *)
Definition written (chunks : list (list Byte.byte)) : list Byte.byte :=
  List.concat (List.filter (fun chunk => negb (Nat.eqb (List.length chunk) 0)) chunks).

(** One turn of the loop of [download_file_gen]: the tuple it yields and the
    world it leaves.  [file_path.exists()] is taken to answer: the
    [OSError]s that [pathlib] lets through (a directory that may not be
    searched) are outside the embedding. *)
Definition download_one (E : Env) (output_dir : string) (file_info : Descriptor)
    (w : World) : (DlStatus * Path) * World :=
  let file_path := Pathlib.div output_dir (filename file_info) in
  if path_exists w file_path then ((st_exists, file_path), w)
  else
    let w1 := log_request (url file_info) w in
    match get_stream E (requests w) (url file_info) with
    | RequestFails => ((st_failed, file_path), w1)
    | Body chunks broken =>
        if open_wb_ok E file_path then
          let w2 := write_file file_path (written chunks) w1 in
          ((if broken then st_failed else st_downloaded, file_path), w2)
        else ((st_failed, file_path), w1)
    end.

Fixpoint download_all (E : Env) (output_dir : string) (files : list Descriptor)
    (w : World) : list (DlStatus * Path) * World :=
  match files with
  | [] => ([], w)
  | file_info :: rest =>
      let '(y, w1) := download_one E output_dir file_info w in
      let '(ys, w2) := download_all E output_dir rest w1 in
      (y :: ys, w2)
  end.

(** [output_dir.mkdir(exist_ok=True, parents=True)] does not raise: with
    [exist_ok] an existing directory is accepted, a missing one has to be
    created. *)
Definition mkdir (E : Env) (w : World) (output_dir : string) : bool :=
  mkdir_ok E output_dir || dir_holds_file w output_dir.

(** The generator, fully consumed: [None] when [mkdir] raises before the
    first tuple, else every tuple it yields. *)
Definition download_file_gen (E : Env) (files : list Descriptor) (output_dir : string)
    (w : World) : option (list (DlStatus * Path)) * World :=
  if mkdir E w output_dir
  then let '(ys, w1) := download_all E output_dir files w in (Some ys, w1)
  else (None, w).

(** ** Table Extractors *)

(** [(schema_name, table_name, df)] *)
Definition TabularUnit := (string * string * Grid)%type.

Definition grid_empty (df : Grid) : bool :=
  Nat.eqb (List.length (columns df)) 0 || Nat.eqb (len df) 0.

(** One turn of the loop over [xl_file.sheet_names]. *)
Definition sheet_unit (schema_name : string) (sheet : string * option Grid)
  : option TabularUnit :=
  let '(sheet_name, parsed) := sheet in
  if String.eqb sheet_name "Notes" then None
  else match parsed with
       | None => None
       | Some df =>
           if grid_empty df then None
           else let table_name := sanitise_str sheet_name in
                Some (schema_name, table_name, df)
       end.

(** [pd.ExcelFile(excel_path)] against the files of the world. *)
Definition ExcelFile (E : Env) (w : World) (excel_path : Path)
  : option (list (string * option Grid)) :=
  match fs w !! excel_path with
  | None => None
  | Some data => read_workbook E data
  end.

Definition process_excel_file (E : Env) (w : World) (excel_path : Path)
  : list TabularUnit :=
  let schema_name := sanitise_str (stem excel_path) in
  match ExcelFile E w excel_path with
  | None => []
  | Some sheets => List.flat_map (fun sh => option_list (sheet_unit schema_name sh)) sheets
  end.

Definition process_csv_file (E : Env) (w : World) (csv_path : Path)
  : list TabularUnit :=
  let schema_name := sanitise_str (stem csv_path) in
  let table_name := sanitise_str (stem csv_path) in
  match fs w !! csv_path with
  | None => []
  | Some data =>
      match read_csv E data with
      | None => []
      | Some df => if grid_empty df then [] else [(schema_name, table_name, df)]
      end
  end.

(** ** Database Loader *)

Inductive Sql :=
| CreateSchemaIfNotExists (schema_name : string)
| CreateOrReplaceTableAsSelect (full_table_name : string) (df : Grid).

(** [con.execute(...)]: [None] when the statement raises. *)
Definition execute (E : Env) (q : Sql) (d : Database) : option Database :=
  match q with
  | CreateSchemaIfNotExists n =>
      match schema_ident E n with
      | None => None
      | Some s => Some (match d !! s with Some _ => d | None => <[s := ∅]> d end)
      end
  | CreateOrReplaceTableAsSelect n df =>
      match table_ident E n with
      | None => None
      | Some (s, t) =>
          match d !! s, select_all E df with
          | Some tables, Some g => Some (<[s := <[t := g]> tables]> d)
          | _, _ => None
          end
      end
  end.

Definition load_to_duckdb (E : Env) (schema_name table_name : string) (df : Grid)
    (db_path : string) (d : Database) : bool * Database :=
  if connect_ok E db_path then
    match execute E (CreateSchemaIfNotExists schema_name) d with
    | None => (false, d)
    | Some d1 =>
        let full_table_name := schema_name +:+ "." +:+ table_name in
        match execute E (CreateOrReplaceTableAsSelect full_table_name df) d1 with
        | None => (false, d1)
        | Some d2 => (true, d2)
        end
    end
  else (false, d).

(** ** Pipeline Orchestrator *)

(** The status dictionaries, one constructor per shape yielded. *)
Inductive Event :=
| EvExtracting (message : string)
| EvError (message : string)
| EvDownloadingTotal (message : string) (total_files : nat)
| EvDownloading (status : DlStatus) (file : string)
| EvLoadingTotal (message : string) (total_files : nat)
| EvProcessing (file : string)
| EvLoaded (file : string) (table : string) (nrows : nat)
| EvFileComplete (file : string) (tables_loaded : nat)
| EvComplete (total_tables : nat) (database : string).

Inductive Stage := extracting | downloading | loading | complete | error.

(** [status["stage"]] *)
Definition stage (e : Event) : Stage :=
  match e with
  | EvExtracting _ => extracting
  | EvError _ => error
  | EvDownloadingTotal _ _ | EvDownloading _ _ => downloading
  | EvLoadingTotal _ _ | EvProcessing _ | EvLoaded _ _ _ | EvFileComplete _ _ => loading
  | EvComplete _ _ => complete
  end.

(** [status.get("file")] *)
Definition event_file (e : Event) : option string :=
  match e with
  | EvDownloading _ f | EvProcessing f | EvLoaded f _ _ | EvFileComplete f _ => Some f
  | _ => None
  end.

Definition is_loaded (e : Event) : bool :=
  match e with EvLoaded _ _ _ => true | _ => false end.

Definition is_processing (e : Event) : bool :=
  match e with EvProcessing _ => true | _ => false end.

(** How the generator ends: it returns, or an exception leaves it. *)
Inductive Outcome := Returned | Raised.

Definition set_db (d : Database) (w : World) : World :=
  mkWorld (fs w) d (requests w).

(** The loop [for schema_name, table_name, df in processor], with the two
    counters it increments. *)
Fixpoint load_units (E : Env) (db_path file : string) (units : list TabularUnit)
    (tables_loaded total_tables : nat) (w : World)
  : list Event * (nat * nat) * World :=
  match units with
  | [] => ([], (tables_loaded, total_tables), w)
  | (schema_name, table_name, df) :: rest =>
      let '(success, d) := load_to_duckdb E schema_name table_name df db_path (db w) in
      let w1 := set_db d w in
      if success then
        let '(evs, n, w2) :=
          load_units E db_path file rest (tables_loaded + 1) (total_tables + 1) w1 in
        (EvLoaded file (schema_name +:+ "." +:+ table_name) (len df) :: evs, n, w2)
      else load_units E db_path file rest tables_loaded total_tables w1
  end.

(** The choice of processor: [None] is the [else: continue] branch. *)
Definition processor (E : Env) (w : World) (data_file : Path) : option (list TabularUnit) :=
  if String.eqb (suffix data_file) ".xlsx" then Some (process_excel_file E w data_file)
  else if String.eqb (suffix data_file) ".csv" then Some (process_csv_file E w data_file)
  else None.

(** One turn of the loop [for data_file in data_files]. *)
Definition load_file (E : Env) (db_path : string) (data_file : Path)
    (total_tables : nat) (w : World) : list Event * nat * World :=
  let processing := EvProcessing (name data_file) in
  let tables_loaded := 0 in
  match processor E w data_file with
  | None => ([processing], total_tables, w)
  | Some units =>
      let '(evs, (tables_loaded, total_tables), w1) :=
        load_units E db_path (name data_file) units tables_loaded total_tables w in
      (processing :: evs ++ [EvFileComplete (name data_file) tables_loaded],
       total_tables, w1)
  end.

Fixpoint load_files (E : Env) (db_path : string) (data_files : list Path)
    (total_tables : nat) (w : World) : list Event * nat * World :=
  match data_files with
  | [] => ([], total_tables, w)
  | data_file :: rest =>
      let '(evs, total_tables, w1) := load_file E db_path data_file total_tables w in
      let '(evs', total_tables, w2) := load_files E db_path rest total_tables w1 in
      (evs ++ evs', total_tables, w2)
  end.

(** [file_path.suffix in (".xlsx", ".csv")] *)
Definition is_data_file (file_path : Path) : bool :=
  String.eqb (suffix file_path) ".xlsx" || String.eqb (suffix file_path) ".csv".

(** The loop over [download_file_gen]: the events yielded and [data_files]. *)
Definition downloading_events (ys : list (DlStatus * Path)) : list Event :=
  List.map (fun y => EvDownloading y.1 (name y.2)) ys.

Definition collect_data_files (ys : list (DlStatus * Path)) : list Path :=
  List.filter is_data_file (List.map snd ys).

(** [imd_data_loader], consumed to its end: the events in the order they are
    yielded, how the generator ends, and the world it leaves. *)
Definition imd_data_loader (E : Env) (data_dir db_path page_url : string) (w : World)
  : list Event * Outcome * World :=
  let ev_extracting := EvExtracting "Fetching download links" in
  let w := log_request page_url w in
  match get_download_links E page_url with
  | inl (ExtractionError e) => ([ev_extracting; EvError e], Returned, w)
  | inl _ => ([ev_extracting], Raised, w)
  | inr files =>
      let ev_found :=
        EvDownloadingTotal ("Found " +:+ PyStr.str_of_nat (List.length files) +:+ " files")
                           (List.length files) in
      match download_file_gen E files data_dir w with
      | (None, w1) => ([ev_extracting; ev_found], Raised, w1)
      | (Some ys, w1) =>
          let data_files := collect_data_files ys in
          let ev_loading :=
            EvLoadingTotal ("Loading " +:+ PyStr.str_of_nat (List.length data_files)
                            +:+ " files into database")
                           (List.length data_files) in
          let '(evs, total_tables, w2) := load_files E db_path data_files 0 w1 in
          ([ev_extracting; ev_found] ++ downloading_events ys ++ [ev_loading] ++ evs
             ++ [EvComplete total_tables (absolute E db_path)],
           Returned, w2)
      end
  end.

(** ** The specification's wording, for comparison with the code *)

Module Spec.

(** Section 4.1, step by step.  Stringify: a string is itself, a boolean
    its Python name, an integer its sign and decimal digits, unless these
    are more than 4300. *)
Fixpoint digits (d : Decimal.uint) : string :=
  match d with
  | Decimal.Nil => ""
  | Decimal.D0 d => String "0" (digits d)
  | Decimal.D1 d => String "1" (digits d)
  | Decimal.D2 d => String "2" (digits d)
  | Decimal.D3 d => String "3" (digits d)
  | Decimal.D4 d => String "4" (digits d)
  | Decimal.D5 d => String "5" (digits d)
  | Decimal.D6 d => String "6" (digits d)
  | Decimal.D7 d => String "7" (digits d)
  | Decimal.D8 d => String "8" (digits d)
  | Decimal.D9 d => String "9" (digits d)
  end.

Definition stringify (n : str_or_int) : option string :=
  match n with
  | NameStr s => Some s
  | NameBool true => Some "True"
  | NameBool false => Some "False"
  | NameInt z =>
      let d := N.to_uint (Z.abs_N z) in
      if (Decimal.nb_digits d <=? 4300)%nat
      then Some (if (z <? 0)%Z then String "-" (digits d) else digits d)
      else None
  end.

(** Lowercase, position by position: the entry of the code point in the
    lowercase table, if it has one; for a capital sigma the final form when
    the nearest code point before it that is not case-ignorable is cased and
    the nearest such code point after it, if any, is not. *)
Definition lower_of (c : N) : list N :=
  match List.find (fun e : N * list N => (e.1 =? c)%N) Unicode.lower_table with
  | Some e => e.2
  | None => [c]
  end.

Definition nearest (s : list N) : option N :=
  List.find (fun c => negb (Unicode.case_ignorable c)) s.

Definition sigma_is_final (s : list N) (i : nat) : bool :=
  match nearest (List.rev (List.firstn i s)) with
  | Some c =>
      Unicode.cased c
      && match nearest (List.skipn (S i) s) with
         | Some d => negb (Unicode.cased d)
         | None => true
         end
  | None => false
  end.

Definition lowercase_at (s : list N) (i : nat) : list N :=
  match List.nth_error s i with
  | Some c =>
      if (c =? 931)%N then [if sigma_is_final s i then 962%N else 963%N]
      else lower_of c
  | None => []
  end.

Definition lowercase (s : list N) : list N :=
  List.flat_map (lowercase_at s) (List.seq 0 (List.length s)).

Definition spaces_and_hyphens (s : list N) : list N :=
  List.map (fun c => if (c =? 32)%N || (c =? 45)%N then 95%N else c) s.

Definition ampersand (s : list N) : list N :=
  List.fold_right
    (fun c acc => if (c =? 38)%N then [97; 110; 100]%N ++ acc else c :: acc) [] s.

Definition strip_parentheses (s : list N) : list N :=
  List.filter (fun c => negb ((c =? 40)%N || (c =? 41)%N)) s.

(** Of a run of underscores only the last one stays. *)
Fixpoint collapse (s : list N) : list N :=
  match s with
  | [] => []
  | x :: s' =>
      match s' with
      | y :: _ => if (x =? 95)%N && (y =? 95)%N then collapse s' else x :: collapse s'
      | [] => [x]
      end
  end.

Fixpoint drop_underscores (s : list N) : list N :=
  match s with
  | [] => []
  | x :: s' => if (x =? 95)%N then drop_underscores s' else s
  end.

Definition trim (s : list N) : list N :=
  List.rev (drop_underscores (List.rev (drop_underscores s))).

Definition sanitise (n : str_or_int) : option string :=
  match stringify n with
  | Some s =>
      Some (PyStr.of_codepoints
              (trim (collapse (strip_parentheses (ampersand (spaces_and_hyphens
                 (lowercase (PyStr.codepoints s))))))))
  | None => None
  end.

(** Section 4.2: the target of an attachment's primary link. *)
Definition primary_href (attachment : Node) : option string :=
  match find "a" "govuk-link" attachment with
  | Some link => node_attrs link !! "href"
  | None => None
  end.

Definition is_data_link (href : string) : bool :=
  str_endswith ".xlsx" href || str_endswith ".csv" href.

(** An absolute HTTP(S) URL. *)
Definition is_absolute_http (href : string) : bool :=
  str_startswith "http://" href || str_startswith "https://" href.

(** Normalisation of a target, for a given test of "is absolute". *)
Definition normalise (absolute : string -> bool) (href : string) : option string :=
  if str_startswith "/media/" href then Some (BASE_URL +:+ href)
  else if absolute href then Some href
  else None.

(** The descriptors of a page, in page order. *)
Definition links (absolute : string -> bool) (soup : Node) : list Descriptor :=
  List.map (fun u => mkDescriptor u (last_segment u))
    (omap (normalise absolute)
       (List.filter is_data_link
          (omap primary_href (find_all "section" "gem-c-attachment" soup)))).


(** Section 4.4, spreadsheet variant: the sheets that give a unit. *)
Definition sheet_kept (sheet : string * option Grid) : bool :=
  negb (String.eqb sheet.1 "Notes")
  && match sheet.2 with
     | Some df =>
         negb (Nat.eqb (List.length (columns df)) 0) && negb (Nat.eqb (len df) 0)
     | None => false
     end.

Definition parsed_sheet (sheet : string * option Grid) : option (string * Grid) :=
  match sheet.2 with
  | Some df => Some (sheet.1, df)
  | None => None
  end.

Definition excel_units (file_stem : string) (sheets : list (string * option Grid))
  : list TabularUnit :=
  List.map (fun nd : string * Grid =>
              (sanitise_str file_stem, sanitise_str nd.1, nd.2))
    (omap parsed_sheet (List.filter sheet_kept sheets)).

End Spec.

(** ** Predicates used in the proofs *)

(** A code point that [lower] leaves alone wherever it stands. *)
Definition stable (c : N) : Prop :=
  Unicode.to_lower_full c = [c] /\ c <> Unicode.CAPITAL_SIGMA.

(** No two neighbours are both [c]. *)
Fixpoint norun (c : N) (s : PyStr.cps) : Prop :=
  match s with
  | x :: (y :: _) as s' => ~ (x = c /\ y = c) /\ norun c s'
  | _ => True
  end.

(** A code point that [lower] leaves alone and that is none of [banned]. *)
Definition clean (banned : list N) (c : N) : Prop :=
  stable c /\ ~ In c banned.

Definition head_not (c : N) (s : PyStr.cps) : Prop :=
  match s with
  | x :: _ => x <> c
  | [] => True
  end.

(** The characters [sanitise_name] replaces or removes. *)
Definition BANNED : list N :=
  [PyStr.ord ")"; PyStr.ord "("; PyStr.ord "&"; PyStr.ord "-"; PyStr.ord " "].

(** The world in which the loop of [download_file_gen] reaches position [i]. *)
Definition world_at (E : Env) (output_dir : string) (files : list Descriptor)
    (i : nat) (w : World) : World :=
  (download_all E output_dir (List.firstn i files) w).2.

Definition is_exists (st : DlStatus) : bool :=
  match st with st_exists => true | _ => false end.

(** The URLs of the descriptors whose tuple is not [exists], in order. *)
Definition fetched_urls (files : list Descriptor) (ys : list (DlStatus * Path))
  : list string :=
  List.map (fun dy => url dy.1)
    (List.filter (fun dy => negb (is_exists dy.2.1)) (List.combine files ys)).

(** The contents of [schema.table], if the table is there. *)
Definition table_contents (d : Database) (schema_name table_name : string)
  : option Grid :=
  match d !! schema_name with
  | Some tables => tables !! table_name
  | None => None
  end.

(** A run that neither raises nor reports an error. *)
Definition successful (r : list Event * Outcome * World) : Prop :=
  r.1.2 = Returned /\ Forall (fun e => stage e <> error) r.1.1.

(** The calls of the Database Loader for the units of one file, in order, each
    with the boolean it returned. *)
Fixpoint load_results (E : Env) (db_path : string) (units : list TabularUnit)
    (d : Database) : list (TabularUnit * bool) * Database :=
  match units with
  | [] => ([], d)
  | (schema_name, table_name, df) :: rest =>
      let '(success, d1) := load_to_duckdb E schema_name table_name df db_path d in
      let '(rs, d2) := load_results E db_path rest d1 in
      ((schema_name, table_name, df, success) :: rs, d2)
  end.

Definition successes (rs : list (TabularUnit * bool)) : list TabularUnit :=
  List.map fst (List.filter snd rs).

Definition loaded_event (file : string) (u : TabularUnit) : Event :=
  EvLoaded file (u.1.1 +:+ "." +:+ u.1.2) (len u.2).

(** The events of one file: its [processing] event, a [loaded] event for each
    unit the loader accepted, and its [complete] event with their number. *)
Definition block_events (b : string * list (TabularUnit * bool)) : list Event :=
  EvProcessing b.1 :: List.map (loaded_event b.1) (successes b.2)
    ++ [EvFileComplete b.1 (List.length (successes b.2))].

(** For each data file in turn, its name and the loader calls made for it. *)
Fixpoint load_trace (E : Env) (db_path : string) (data_files : list Path) (w : World)
  : list (string * list (TabularUnit * bool)) :=
  match data_files with
  | [] => []
  | data_file :: rest =>
      let units := default [] (processor E w data_file) in
      let '(rs, d) := load_results E db_path units (db w) in
      (name data_file, rs) :: load_trace E db_path rest (set_db d w)
  end.

(** The Table Extractor that matches a data file: the CSV extractor for the
    suffix .csv, the spreadsheet extractor for .xlsx. *)
Definition matching_extractor (E : Env) (w : World) (p : Path) : list TabularUnit :=
  if String.eqb (suffix p) ".csv" then process_csv_file E w p
  else process_excel_file E w p.

(** For each path in turn, its name and the loader calls made for the units
    its matching Table Extractor yields. *)
Fixpoint extraction_trace (E : Env) (db_path : string) (paths : list Path) (w : World)
  : list (string * list (TabularUnit * bool)) :=
  match paths with
  | [] => []
  | p :: rest =>
      let '(rs, d) := load_results E db_path (matching_extractor E w p) (db w) in
      (name p, rs) :: extraction_trace E db_path rest (set_db d w)
  end.

Definition trace_total (bs : list (string * list (TabularUnit * bool))) : nat :=
  list_sum (List.map (fun b => List.length (successes b.2)) bs).

Definition count_loaded (evs : list Event) : nat :=
  List.length (List.filter is_loaded evs).

(** The [loaded] events that carry the file name [f]. *)
Definition loaded_for (f : string) (evs : list Event) : nat :=
  List.length
    (List.filter (fun e => is_loaded e && bool_decide (event_file e = Some f)) evs).

Definition processing_files (evs : list Event) : list (option string) :=
  List.map event_file (List.filter is_processing evs).

(** The events of a run whose page fetch gave [files] and whose [mkdir]
    succeeded, written from the tuples of the fetcher and the loader calls. *)
Definition run_events (E : Env) (data_dir db_path page_url : string)
    (files : list Descriptor) (w : World) : list Event :=
  let fetched := download_all E data_dir files (log_request page_url w) in
  let data_files := collect_data_files fetched.1 in
  let bs := load_trace E db_path data_files fetched.2 in
  [EvExtracting "Fetching download links";
   EvDownloadingTotal ("Found " +:+ PyStr.str_of_nat (List.length files) +:+ " files")
                      (List.length files)]
  ++ downloading_events fetched.1
  ++ [EvLoadingTotal ("Loading " +:+ PyStr.str_of_nat (List.length data_files)
                      +:+ " files into database") (List.length data_files)]
  ++ List.flat_map block_events bs
  ++ [EvComplete (trace_total bs) (absolute E db_path)].

(** ** Concrete pages, servers and files used in the examples *)

Module Examples.

Definition attachment (href : string) : Node :=
  Elem "section" ["gem-c-attachment"] ∅
    [Elem "a" ["govuk-link"] {[ "href" := href ]} [Text "download"]].

Definition page (hrefs : list string) : Node :=
  Elem "[document]" [] ∅ [Elem "div" [] ∅ (List.map attachment hrefs)].

(** A relative target that merely begins with the letters h, t, t, p. *)
Definition page_httpdocs : Node := page ["httpdocs/a.csv"].


Definition scores : Grid := mkGrid ["lsoa"; "score"] [["E01000001"; "12.5"]; ["E01000002"; "7.1"]].
Definition no_rows : Grid := mkGrid ["lsoa"; "score"] [].

(** An engine that reads [a.b] as table [b] of schema [a]. *)
Definition dotted (n : string) : option (string * string) :=
  match PyStr.split "." (PyStr.of_str n) with
  | [a; b] => Some (PyStr.to_str a, PyStr.to_str b)
  | _ => None
  end.

(** Collaborators for a given result of the page fetch and an asset server
    [server]; everything else succeeds: every workbook has the sheets Notes,
    Data1 and an empty Data2, every CSV file parses to [scores]. *)
Definition env (fetched : string + Node) (server : string -> Response) : Env :=
  {| get_page := fun _ => fetched;
     get_stream := fun _ u => server u;
     mkdir_ok := fun _ => true;
     open_wb_ok := fun _ => true;
     read_workbook := fun _ =>
       Some [("Notes", Some scores); ("Data1", Some scores); ("Data2", Some no_rows)];
     read_csv := fun _ => Some scores;
     connect_ok := fun _ => true;
     schema_ident := fun n => Some n;
     table_ident := dotted;
     select_all := fun df => Some df;
     absolute := fun p => "/srv/imd/" +:+ p |}.

Definition serve_all (u : string) : Response := Body [[Byte.x41; Byte.x42]; []; [Byte.x43]] false.
Definition serve_none (u : string) : Response := RequestFails.

(** A server whose streams break after the first chunk. *)
Definition serve_broken (u : string) : Response := Body [[Byte.x41; Byte.x42]] true.

Definition online : Env := env (inr (page [])) serve_all.

(** The statistics page cannot be fetched. *)
Definition offline : Env := env (inl "404 Client Error: Not Found") serve_all.

(** One CSV attachment whose download fails. *)
Definition one_failing : Env := env (inr (page ["/media/x/a.csv"])) serve_none.

(** Two attachments whose URLs end in the same file name. *)
Definition same_name_twice : Env :=
  env (inr (page ["/media/1/a.csv"; "/media/2/a.csv"])) serve_all.

Definition empty_world : World := mkWorld ∅ ∅ [].

(** A data directory that already holds [book.xlsx]. *)
Definition world_with_book : World :=
  mkWorld {[ Pathlib.mkPath "data" "book.xlsx" := [Byte.x50; Byte.x4b] ]} ∅ [].

End Examples.

(** ** Further predicates: the shape of a sanitised name *)

(** The characters the Name Sanitiser turns into, or takes for, a
    separator: space, hyphen, underscore and the parentheses. *)
Definition is_separator (c : N) : bool :=
  List.existsb (N.eqb c) [32; 45; 95; 40; 41]%N.

Definition is_digit (c : N) : bool := ((48 <=? c) && (c <=? 57))%N.

(** Lower case, none of space, hyphen, ampersand and parentheses, no two
    underscores in a row, no underscore at either end. *)
Definition sanitised (s : PyStr.cps) : Prop :=
  Forall (clean BANNED) s
  /\ norun (PyStr.ord "_") s
  /\ head_not (PyStr.ord "_") s
  /\ head_not (PyStr.ord "_") (List.rev s).

(** The [replace] calls of [sanitise_name], and all its [str] calls before
    [re.sub]. *)
Definition replaces (s : PyStr.cps) : PyStr.cps :=
  PyStr.replace (PyStr.ord ")") []
    (PyStr.replace (PyStr.ord "(") []
      (PyStr.replace (PyStr.ord "&") (PyStr.codepoints "and")
        (PyStr.replace (PyStr.ord "-") (PyStr.codepoints "_")
          (PyStr.replace (PyStr.ord " ") (PyStr.codepoints "_") s)))).

Definition pre_collapse (s : PyStr.cps) : PyStr.cps := replaces (PyStr.lower s).

(** A Rocq string that is the UTF-8 encoding of a [str]. *)
Definition well_formed (s : string) : Prop :=
  PyStr.of_codepoints (PyStr.codepoints s) = s.

(** A descriptor as the Link Extractor makes them: an [http...] URL ending
    in a data extension, and as file name its last segment, which ends in
    the same extension. *)
Definition has_data_extension (s : string) : bool :=
  str_endswith ".xlsx" s || str_endswith ".csv" s.

Definition descriptor_ok (d : Descriptor) : Prop :=
  str_startswith "http" (url d) = true
  /\ has_data_extension (url d) = true
  /\ filename d = last_segment (url d)
  /\ has_data_extension (filename d) = true
  /\ ~ In "/"%char (PyStr.of_str (filename d)).

(** A unit as the Table Extractors make them for the file [p]: the schema
    is the sanitised stem of the file, both names have the shape of a
    sanitised name, the grid has a column and a row. *)
Definition unit_ok (p : Path) (u : TabularUnit) : Prop :=
  u.1.1 = sanitise_str (stem p)
  /\ sanitised (PyStr.codepoints u.1.1)
  /\ sanitised (PyStr.codepoints u.1.2)
  /\ grid_empty u.2 = false.

(** ** Progress Reporter and command line *)

(** The newline of the f-strings. *)
Definition nl : string := String (ascii_of_nat 10) "".

(** The marks of the progress lines, as the source file has them. *)
Definition MARK_DONE : string := "âœ“".
Definition MARK_SKIPPED : string := "âŠ˜".
Definition MARK_DUCK : string := "ðŸ¦†".

(** What the body of the loop of [load_with_progress] prints for one status:
    one string per [print] call. *)
Definition report_event (status : Event) : list string :=
  match status with
  | EvExtracting message => [message +:+ "..."]
  | EvDownloadingTotal message _ => [nl +:+ message]
  | EvDownloading st_downloaded file => ["  " +:+ MARK_DONE +:+ " " +:+ file]
  | EvDownloading st_exists file => ["  " +:+ MARK_SKIPPED +:+ " " +:+ file +:+ " (exists)"]
  | EvDownloading st_failed _ => []
  | EvLoadingTotal message _ => [nl +:+ message]
  | EvProcessing file => [nl +:+ "  " +:+ file]
  | EvLoaded _ table nrows =>
      ["    " +:+ MARK_DONE +:+ " " +:+ table +:+ " (" +:+ PyStr.str_of_nat nrows +:+ " rows)"]
  | EvFileComplete _ _ => []
  | EvComplete total_tables database =>
      [nl +:+ MARK_DONE +:+ " Loaded " +:+ PyStr.str_of_nat total_tables
          +:+ " tables into " +:+ database;
       "Quack quack " +:+ MARK_DUCK]
  | EvError _ => []
  end.

(** The loop of [load_with_progress] over the statuses, with the variable
    [total_tables] it assigns at the [complete] stage. *)
Fixpoint report (statuses : list Event) (total_tables : nat) : list string * nat :=
  match statuses with
  | [] => ([], total_tables)
  | status :: rest =>
      let total_tables :=
        match status with
        | EvComplete n _ => n
        | _ => total_tables
        end in
      let '(out, total_tables) := report rest total_tables in
      (report_event status ++ out, total_tables)
  end.

(** [load_with_progress]: the lines printed, the number returned ([None]
    when an exception leaves the generator, which the function lets pass),
    and the world left. *)
Definition load_with_progress (E : Env) (data_dir db_path page_url : string) (w : World)
  : list string * option nat * World :=
  let '(statuses, outcome, w') := imd_data_loader E data_dir db_path page_url w in
  let '(out, total_tables) := report statuses 0 in
  (out, match outcome with Returned => Some total_tables | Raised => None end, w').

(** The arguments of [imd load]: each option is absent or a string. *)
Record LoadArgs := mkLoadArgs { arg_data_dir : option string; arg_db_path : option string }.

(** [Path(a) if a else default]: an absent and an empty argument both give
    the default. *)
Definition arg_or (a : option string) (default : string) : string :=
  match a with
  | Some s => if String.eqb s "" then default else s
  | None => default
  end.

(** [cmd_load]: standard output, standard error, the exit status and the
    world left; [exc] is the text of the exception, when one is caught. *)
Definition cmd_load (E : Env) (args : LoadArgs) (exc : string) (w : World)
  : list string * list string * nat * World :=
  let data_dir := arg_or (arg_data_dir args) DEFAULT_DATA_DIR in
  let db_path := arg_or (arg_db_path args) DEFAULT_DB_PATH in
  let '(out, result, w') := load_with_progress E data_dir db_path IMD_2025_URL w in
  match result with
  | Some _ => (out, [], 0, w')
  | None => (out, ["Error: " +:+ exc], 1, w')
  end.

Definition is_file_complete (e : Event) : bool :=
  match e with EvFileComplete _ _ => true | _ => false end.

Definition is_file_download (e : Event) : bool :=
  match e with EvDownloading _ _ => true | _ => false end.

(** ** Listing the tables *)

(** The rows [(table_schema, table_name)] of [information_schema.tables]
    for the tables of the database, in no particular order. *)
Definition table_rows (d : Database) : list (string * string) :=
  List.flat_map (fun st => List.map (fun tg => (st.1, tg.1)) (map_to_list st.2))
                (map_to_list d).

(** [table_schema NOT IN ('information_schema', 'pg_catalog')] *)
Definition is_system_schema (s : string) : bool :=
  String.eqb s "information_schema" || String.eqb s "pg_catalog".

(** [ORDER BY table_schema, table_name], strings compared character by
    character. *)
Definition schema_table_leb (a b : string * string) : bool :=
  match String.compare a.1 b.1 with
  | Lt => true
  | Eq => String.leb a.2 b.2
  | Gt => false
  end.

Definition by_schema_then_table (a b : string * string) : Prop :=
  schema_table_leb a b = true.

#[global] Instance by_schema_then_table_dec a b : Decision (by_schema_then_table a b).
Proof. unfold by_schema_then_table. apply _. Defined.

(** The rows the query of [list_tables] returns. *)
Definition listed_rows (d : Database) : list (string * string) :=
  merge_sort by_schema_then_table
    (List.filter (fun r => negb (is_system_schema r.1)) (table_rows d)).

(** [table_schema || '.' || table_name] *)
Definition full_name (r : string * string) : string := r.1 +:+ "." +:+ r.2.

(** [list_tables]: [None] when [duckdb.connect] raises. *)
Definition list_tables (E : Env) (db_path : string) (d : Database) : option (list string) :=
  if connect_ok E db_path then Some (List.map full_name (listed_rows d)) else None.

(** * Properties *)

(** ** UTF-8 *)

Lemma byte_value n : (n < 256)%N -> N_of_ascii (Utf8.byte n) = n.
Proof. apply N_ascii_embedding. Qed.

Ltac decide_ltb :=
  repeat match goal with
         | |- context [(?x <? ?y)%N] =>
             first [ rewrite (proj2 (N.ltb_lt x y)) by lia
                   | rewrite (proj2 (N.ltb_ge x y)) by lia ]
         | |- context [(?x <=? ?y)%N] =>
             first [ rewrite (proj2 (N.leb_le x y)) by lia
                   | rewrite (proj2 (N.leb_gt x y)) by lia ]
         end.

Lemma decode_encode1 c rest :
  Utf8.is_scalar c = true ->
  Utf8.decode (Utf8.encode1 c ++ rest) = c :: Utf8.decode rest.
Proof.
  unfold Utf8.is_scalar. rewrite andb_true_iff, negb_true_iff, andb_false_iff.
  rewrite N.ltb_lt, N.leb_gt, N.ltb_ge. intros [Hmax Hsur].
  unfold Utf8.encode1.
  pose proof (N.div_mod' c 64) as E0. pose proof (N.mod_lt c 64 ltac:(lia)) as L0.
  pose proof (N.div_mod' (c / 64) 64) as E1.
  pose proof (N.mod_lt (c / 64) 64 ltac:(lia)) as L1.
  pose proof (N.div_mod' (c / 64 / 64) 64) as E2.
  pose proof (N.mod_lt (c / 64 / 64) 64 ltac:(lia)) as L2.
  revert E0 L0 E1 L1 E2 L2.
  generalize (c mod 64)%N as r0. generalize ((c / 64) mod 64)%N as r1.
  generalize ((c / 64 / 64) mod 64)%N as r2.
  generalize (c / 64 / 64 / 64)%N as q3. generalize (c / 64 / 64)%N as q2.
  generalize (c / 64)%N as q1.
  intros q1 q2 q3 r2 r1 r0 E0 L0 E1 L1 E2 L2.
  destruct (N.ltb_spec c 128) as [H1|H1].
  - cbn [app Utf8.decode]. rewrite byte_value by lia. now decide_ltb.
  - destruct (N.ltb_spec c 2048) as [H2|H2].
    + cbn [app Utf8.decode]. rewrite !byte_value by lia.
      unfold Utf8.seq2, Utf8.continuation, Utf8.join2. decide_ltb.
      cbn [andb]. f_equal. lia.
    + destruct (N.ltb_spec c 65536) as [H3|H3].
      * cbn [app Utf8.decode]. rewrite !byte_value by lia.
        unfold Utf8.seq2, Utf8.seq3, Utf8.continuation, Utf8.join2, Utf8.join3,
          Utf8.is_scalar.
        decide_ltb. cbn [andb].
        replace ((224 + q2 - 224) * 64 + (128 + r1 - 128))%N with q1 by lia.
        replace (q1 * 64 + (128 + r0 - 128))%N with c by lia.
        decide_ltb.
        assert (Hs : ((55296 <=? c) && (c <? 57344))%N = false).
        { apply andb_false_iff. rewrite N.leb_gt, N.ltb_ge. exact Hsur. }
        rewrite Hs. reflexivity.
      * cbn [app Utf8.decode]. rewrite !byte_value by lia.
        unfold Utf8.seq2, Utf8.seq3, Utf8.seq4, Utf8.continuation, Utf8.join2,
          Utf8.join3, Utf8.join4, Utf8.is_scalar.
        decide_ltb. cbn [andb].
        replace ((240 + q3 - 240) * 64 + (128 + r2 - 128))%N with q2 by lia.
        replace (q2 * 64 + (128 + r1 - 128))%N with q1 by lia.
        replace (q1 * 64 + (128 + r0 - 128))%N with c by lia.
        decide_ltb. reflexivity.
Qed.

Lemma decode_encode l :
  Forall (fun c => Utf8.is_scalar c = true) l -> Utf8.decode (Utf8.encode l) = l.
Proof.
  induction 1 as [|c l Hc _ IH]; [reflexivity|].
  cbn [Utf8.encode List.flat_map]. fold (Utf8.encode l).
  now rewrite decode_encode1, IH.
Qed.

Lemma decode_scalar_length n s :
  List.length s <= n -> Forall (fun c => Utf8.is_scalar c = true) (Utf8.decode s).
Proof.
  revert s. induction n as [|n IH]; intros s Hn.
  - destruct s; [constructor | cbn in Hn; lia].
  - destruct s as [|b0 s1]; [constructor|]. cbn [List.length] in Hn.
    assert (H1 : Forall (fun c => Utf8.is_scalar c = true) (Utf8.decode s1))
      by (apply IH; lia).
    cbn [Utf8.decode].
    destruct (N.ltb_spec (N_of_ascii b0) 128) as [Hlt|Hge].
    { constructor; [|exact H1]. unfold Utf8.is_scalar. now decide_ltb. }
    destruct s1 as [|b1 s2]; [constructor; [reflexivity | exact H1]|].
    cbn [List.length] in Hn.
    destruct (Utf8.seq2 _ _) eqn:E2.
    { constructor; [|apply IH; lia]. unfold Utf8.seq2, Utf8.continuation, Utf8.join2 in *.
      repeat (apply andb_true_iff in E2 as [E2 ?]).
      repeat match goal with H : (_ <? _)%N = true |- _ => apply N.ltb_lt in H
                        | H : (_ <=? _)%N = true |- _ => apply N.leb_le in H
                        | H : (_ && _) = true |- _ => apply andb_true_iff in H as [? ?] end.
      unfold Utf8.is_scalar. now decide_ltb. }
    destruct s2 as [|b2 s3]; [constructor; [reflexivity | exact H1]|].
    cbn [List.length] in Hn.
    destruct (Utf8.seq3 _ _ _) eqn:E3.
    { constructor; [|apply IH; lia]. unfold Utf8.seq3 in E3.
      now apply andb_true_iff in E3 as [_ E3]. }
    destruct s3 as [|b3 s4]; [constructor; [reflexivity | exact H1]|].
    cbn [List.length] in Hn.
    destruct (Utf8.seq4 _ _ _ _) eqn:E4.
    { constructor; [|apply IH; lia]. unfold Utf8.seq4 in E4.
      now apply andb_true_iff in E4 as [_ E4]. }
    constructor; [reflexivity | exact H1].
Qed.

Lemma decode_scalar s : Forall (fun c => Utf8.is_scalar c = true) (Utf8.decode s).
Proof. apply (decode_scalar_length (List.length s)). lia. Qed.

Lemma encode1_nonempty c : Utf8.encode1 c <> [].
Proof.
  unfold Utf8.encode1.
  destruct (c <? 128)%N; [discriminate|].
  destruct (c <? 2048)%N; [discriminate|].
  destruct (c <? 65536)%N; discriminate.
Qed.

Lemma encode_nil l : Utf8.encode l = [] <-> l = [].
Proof.
  split; [|now intros ->]. destruct l as [|c l]; [reflexivity|].
  cbn [Utf8.encode List.flat_map]. intros H. apply app_eq_nil in H as [H _].
  now apply encode1_nonempty in H.
Qed.

(** ** Characters and strings *)

Lemma of_to_str (l : PyStr.chars) : PyStr.of_str (PyStr.to_str l) = l.
Proof. apply list_ascii_of_string_of_list_ascii. Qed.

Lemma to_of_str (s : string) : PyStr.to_str (PyStr.of_str s) = s.
Proof. apply string_of_list_ascii_of_string. Qed.

Lemma codepoints_of_codepoints l :
  Forall (fun c => Utf8.is_scalar c = true) l ->
  PyStr.codepoints (PyStr.of_codepoints l) = l.
Proof.
  intros H. unfold PyStr.codepoints, PyStr.of_codepoints.
  now rewrite of_to_str, decode_encode.
Qed.

(** ** The lowercase table *)

Lemma lower_table_outputs :
  List.forallb
    (fun e : N * list N =>
       List.forallb (fun d => bool_decide (Unicode.lower_map !! d = None)
                              && Utf8.is_scalar d) e.2)
    Unicode.lower_table = true.
Proof. vm_compute. reflexivity. Qed.

Lemma lower_map_sigma : is_Some (Unicode.lower_map !! Unicode.CAPITAL_SIGMA).
Proof. vm_compute. eauto. Qed.

Lemma unmapped_stable d : Unicode.lower_map !! d = None -> stable d.
Proof.
  intros H. split.
  - unfold Unicode.to_lower_full. now rewrite H.
  - intros ->. destruct lower_map_sigma as [l Hl]. congruence.
Qed.

Lemma lower_table_entry c l d :
  Unicode.lower_map !! c = Some l -> In d l ->
  Unicode.lower_map !! d = None /\ Utf8.is_scalar d = true.
Proof.
  intros Hc Hd. apply elem_of_list_to_map_2, list_elem_of_In in Hc.
  pose proof lower_table_outputs as H. rewrite forallb_forall in H.
  specialize (H _ Hc). cbn [snd] in H. rewrite forallb_forall in H.
  specialize (H _ Hd). apply andb_true_iff in H as [H1 H2].
  apply bool_decide_eq_true in H1. split; assumption.
Qed.

Lemma to_lower_full_stable c d : In d (Unicode.to_lower_full c) -> stable d.
Proof.
  unfold Unicode.to_lower_full.
  destruct (Unicode.lower_map !! c) as [l|] eqn:Hc; cbn [default].
  - intros Hd. apply unmapped_stable. exact (proj1 (lower_table_entry _ _ _ Hc Hd)).
  - intros [<-|[]]. now apply unmapped_stable.
Qed.

Lemma to_lower_full_scalar c d :
  Utf8.is_scalar c = true -> In d (Unicode.to_lower_full c) -> Utf8.is_scalar d = true.
Proof.
  unfold Unicode.to_lower_full.
  destruct (Unicode.lower_map !! c) as [l|] eqn:Hc; cbn [default].
  - intros _ Hd. exact (proj2 (lower_table_entry _ _ _ Hc Hd)).
  - now intros H [<-|[]].
Qed.

Lemma sigma_forms_stable : stable Unicode.FINAL_SIGMA /\ stable Unicode.SMALL_SIGMA.
Proof. split; apply unmapped_stable; vm_compute; reflexivity. Qed.

Lemma lower_from_stable before s :
  Forall stable (PyStr.lower_from before s).
Proof.
  revert before. induction s as [|c s IH]; intros before; [constructor|].
  cbn [PyStr.lower_from]. apply Forall_app. split; [|apply IH].
  destruct (c =? Unicode.CAPITAL_SIGMA)%N.
  - constructor; [|constructor].
    destruct (PyStr.final_sigma before s); apply sigma_forms_stable.
  - apply Forall_forall. intros d Hd. apply list_elem_of_In in Hd.
    exact (to_lower_full_stable _ _ Hd).
Qed.

Lemma lower_from_scalar before s :
  Forall (fun c => Utf8.is_scalar c = true) s ->
  Forall (fun c => Utf8.is_scalar c = true) (PyStr.lower_from before s).
Proof.
  intros H. revert before. induction H as [|c s Hc _ IH]; intros before; [constructor|].
  cbn [PyStr.lower_from]. apply Forall_app. split; [|apply IH].
  destruct (c =? Unicode.CAPITAL_SIGMA)%N.
  - constructor; [|constructor]. now destruct (PyStr.final_sigma before s).
  - apply Forall_forall. intros d Hd. apply list_elem_of_In in Hd.
    exact (to_lower_full_scalar _ _ Hc Hd).
Qed.

Lemma lower_from_fixed before s :
  Forall stable s -> PyStr.lower_from before s = s.
Proof.
  intros H. revert before. induction H as [|c s [Hl Hs] _ IH]; intros before;
    [reflexivity|].
  cbn [PyStr.lower_from]. rewrite (proj2 (N.eqb_neq _ _) Hs), Hl, IH. reflexivity.
Qed.

(** ** [replace], [re.sub] and [strip] *)

Lemma N_eqb_false (a b : N) : a <> b -> (a =? b)%N = false.
Proof. apply N.eqb_neq. Qed.

Lemma Forall_replace (P : N -> Prop) old new s :
  Forall P new ->
  Forall (fun c => c <> old -> P c) s ->
  Forall P (PyStr.replace old new s).
Proof.
  intros Hnew Hs. unfold PyStr.replace.
  induction Hs as [|c s Hc _ IH]; simpl; [constructor|].
  apply Forall_app. split; [|exact IH].
  destruct (N.eqb_spec c old) as [->|Hne]; [exact Hnew|].
  constructor; [now apply Hc | constructor].
Qed.

Lemma replace_absent old new s :
  Forall (fun c => c <> old) s -> PyStr.replace old new s = s.
Proof.
  unfold PyStr.replace.
  induction 1 as [|c s Hc _ IH]; simpl; [reflexivity|].
  rewrite (N_eqb_false _ _ Hc), IH. reflexivity.
Qed.

Lemma norun_app_l c a b : norun c (a ++ b) -> norun c a.
Proof.
  induction a as [|x a IH]; simpl; [trivial|].
  destruct a as [|y a]; simpl in *; [trivial|].
  intros [H1 H2]. split; [exact H1 | now apply IH].
Qed.

Lemma norun_app_r c a b : norun c (a ++ b) -> norun c b.
Proof.
  induction a as [|x a IH]; simpl; [trivial|].
  destruct (a ++ b) eqn:Hab.
  - destruct a; [simpl in Hab; subst; trivial | discriminate].
  - intros [_ H]. now apply IH.
Qed.

Lemma head_not_app_l c a b : head_not c (a ++ b) -> head_not c a.
Proof. destruct a; simpl; trivial. Qed.

Lemma re_sub_run_Forall (P : N -> Prop) c b s :
  Forall P s -> Forall P (PyStr.re_sub_run c b s).
Proof.
  intros H. revert b. induction H as [|x s Hx _ IH]; intros b; simpl; [constructor|].
  destruct (N.eqb_spec x c) as [->|Hne].
  - destruct b; [apply IH | constructor; [exact Hx | apply IH]].
  - constructor; [exact Hx | apply IH].
Qed.

Lemma re_sub_run_head c s : head_not c (PyStr.re_sub_run c true s).
Proof.
  induction s as [|x s IH]; simpl; [trivial|].
  destruct (N.eqb_spec x c) as [->|Hne]; [exact IH | exact Hne].
Qed.

Lemma re_sub_run_norun c b s : norun c (PyStr.re_sub_run c b s).
Proof.
  revert b. induction s as [|x s IH]; intros b; simpl; [trivial|].
  destruct (N.eqb_spec x c) as [->|Hne].
  - destruct b; [apply IH|].
    pose proof (re_sub_run_head c s) as Hh. pose proof (IH true) as Hn.
    destruct (PyStr.re_sub_run c true s) as [|y r]; simpl in *; [trivial|].
    split; [intros [_ Hy]; contradiction | exact Hn].
  - pose proof (IH false) as Hn.
    destruct (PyStr.re_sub_run c false s) as [|y r]; simpl in *; [trivial|].
    split; [intros [Hx _]; contradiction | exact Hn].
Qed.

Lemma re_sub_run_fixed c b s :
  norun c s -> (b = true -> head_not c s) -> PyStr.re_sub_run c b s = s.
Proof.
  revert b. induction s as [|x s IH]; intros b Hn Hh; simpl; [reflexivity|].
  assert (Hs : norun c s) by (destruct s; simpl in *; [trivial | tauto]).
  destruct (N.eqb_spec x c) as [->|Hne].
  - destruct b; [exfalso; now apply (Hh eq_refl)|].
    f_equal. apply IH; [exact Hs|]. intros _.
    destruct s as [|y s]; simpl in *; [trivial|]. intros ->. tauto.
  - f_equal. apply IH; [exact Hs | discriminate].
Qed.

Lemma lstrip_suffix c s : exists k, s = k ++ PyStr.lstrip c s.
Proof.
  induction s as [|x s [k IH]]; simpl; [now exists []|].
  destruct (x =? c)%N; [|now exists []].
  exists (x :: k). simpl. now f_equal.
Qed.

Lemma rstrip_prefix c s : exists k, s = PyStr.rstrip c s ++ k.
Proof.
  induction s as [|x s [k IH]]; simpl; [now exists []|].
  destruct (PyStr.rstrip c s) as [|y r] eqn:Hr.
  - destruct (x =? c)%N; [now exists (x :: s)|].
    exists s. reflexivity.
  - exists k. simpl. f_equal. exact IH.
Qed.

Lemma lstrip_head c s : head_not c (PyStr.lstrip c s).
Proof.
  induction s as [|x s IH]; simpl; [trivial|].
  destruct (N.eqb_spec x c) as [->|Hne]; [exact IH | exact Hne].
Qed.

Lemma lstrip_fixed c s : head_not c s -> PyStr.lstrip c s = s.
Proof.
  destruct s as [|x s]; simpl; [reflexivity|].
  intros H. now rewrite (N_eqb_false _ _ H).
Qed.

Lemma rstrip_idem c s : PyStr.rstrip c (PyStr.rstrip c s) = PyStr.rstrip c s.
Proof.
  induction s as [|x s IH]; simpl; [reflexivity|].
  destruct (PyStr.rstrip c s) as [|y r] eqn:Hr.
  - destruct (x =? c)%N eqn:Hx; simpl; [reflexivity|]. now rewrite Hx.
  - change (PyStr.rstrip c (x :: y :: r)) with
      (match PyStr.rstrip c (y :: r) with
       | [] => if (x =? c)%N then [] else [x]
       | r' => x :: r'
       end).
    now rewrite IH.
Qed.

Lemma strip_Forall (P : N -> Prop) c s : Forall P s -> Forall P (PyStr.strip c s).
Proof.
  intros H. unfold PyStr.strip.
  destruct (lstrip_suffix c s) as [k Hk].
  destruct (rstrip_prefix c (PyStr.lstrip c s)) as [k' Hk'].
  rewrite Hk, Hk' in H.
  apply Forall_app in H as [_ H]. now apply Forall_app in H as [H _].
Qed.

Lemma strip_norun c s : norun c s -> norun c (PyStr.strip c s).
Proof.
  intros H. unfold PyStr.strip.
  destruct (lstrip_suffix c s) as [k Hk].
  destruct (rstrip_prefix c (PyStr.lstrip c s)) as [k' Hk'].
  rewrite Hk in H. apply norun_app_r in H.
  rewrite Hk' in H. now apply norun_app_l in H.
Qed.

Lemma strip_head c s : head_not c (PyStr.strip c s).
Proof.
  unfold PyStr.strip.
  pose proof (lstrip_head c s) as H.
  destruct (rstrip_prefix c (PyStr.lstrip c s)) as [k' Hk'].
  rewrite Hk' in H. now apply head_not_app_l in H.
Qed.

Lemma strip_idem c s : PyStr.strip c (PyStr.strip c s) = PyStr.strip c s.
Proof.
  unfold PyStr.strip at 1.
  rewrite (lstrip_fixed c _ (strip_head c s)).
  unfold PyStr.strip. apply rstrip_idem.
Qed.

(** ** Name Sanitiser *)

Lemma lower_clean s : Forall (clean []) (PyStr.lower s).
Proof.
  eapply Forall_impl; [apply lower_from_stable|].
  intros c Hc. split; [exact Hc | intros []].
Qed.

Lemma replace_clean banned old new s :
  Forall (clean (old :: banned)) new ->
  Forall (clean banned) s ->
  Forall (clean (old :: banned)) (PyStr.replace old new s).
Proof.
  intros Hnew Hs. apply Forall_replace; [exact Hnew|].
  eapply Forall_impl; [exact Hs|].
  intros c [Hl Hb] Hne. split; [exact Hl|].
  intros [Heq|Hin]; [now apply Hne | now apply Hb].
Qed.

Ltac clean_literal :=
  repeat (constructor;
          [split; [apply unmapped_stable; vm_compute; reflexivity
                  | vm_compute; intuition discriminate]|]);
  constructor.

(** The characters a sanitised name is made of. *)
Lemma sanitise_chars_clean s : Forall (clean BANNED) (sanitise_chars s).
Proof.
  unfold sanitise_chars, BANNED. apply strip_Forall, re_sub_run_Forall.
  apply replace_clean; [constructor|].
  apply replace_clean; [constructor|].
  apply replace_clean; [clean_literal|].
  apply replace_clean; [clean_literal|].
  apply replace_clean; [clean_literal|].
  apply lower_clean.
Qed.

Lemma clean_lower banned s : Forall (clean banned) s -> PyStr.lower s = s.
Proof.
  intros H. apply lower_from_fixed. eapply Forall_impl; [exact H|]. now intros c [Hl _].
Qed.

Lemma clean_replace banned old new s :
  In old banned -> Forall (clean banned) s -> PyStr.replace old new s = s.
Proof.
  intros Hin H. apply replace_absent. eapply Forall_impl; [exact H|].
  intros c [_ Hb] ->. now apply Hb.
Qed.

Lemma sanitise_chars_norun s : norun (PyStr.ord "_") (sanitise_chars s).
Proof. unfold sanitise_chars. apply strip_norun, re_sub_run_norun. Qed.

Lemma sanitise_chars_idem s : sanitise_chars (sanitise_chars s) = sanitise_chars s.
Proof.
  pose proof (sanitise_chars_clean s) as Hc.
  pose proof (sanitise_chars_norun s) as Hn.
  assert (Hs : PyStr.strip (PyStr.ord "_") (sanitise_chars s) = sanitise_chars s)
    by (unfold sanitise_chars; apply strip_idem).
  remember (sanitise_chars s) as t eqn:Ht. clear Ht s.
  unfold sanitise_chars.
  rewrite (clean_lower _ _ Hc).
  assert (Hr : forall old new, In old BANNED -> PyStr.replace old new t = t)
    by (intros old new Hin; exact (clean_replace _ _ _ _ Hin Hc)).
  rewrite (Hr (PyStr.ord " ")), (Hr (PyStr.ord "-")), (Hr (PyStr.ord "&")),
    (Hr (PyStr.ord "(")), (Hr (PyStr.ord ")"))
    by (unfold BANNED; cbn [In]; tauto).
  rewrite re_sub_run_fixed; [exact Hs | exact Hn | discriminate].
Qed.

Lemma sanitise_chars_scalar s :
  Forall (fun c => Utf8.is_scalar c = true) s ->
  Forall (fun c => Utf8.is_scalar c = true) (sanitise_chars s).
Proof.
  intros H. unfold sanitise_chars. apply strip_Forall, re_sub_run_Forall.
  repeat (apply Forall_replace;
          [repeat constructor | eapply Forall_impl; [|intros c Hc _; exact Hc]]).
  now apply lower_from_scalar.
Qed.

Lemma sanitise_str_codepoints s :
  PyStr.codepoints (sanitise_str s) = sanitise_chars (PyStr.codepoints s).
Proof.
  unfold sanitise_str. apply codepoints_of_codepoints, sanitise_chars_scalar.
  apply decode_scalar.
Qed.

Lemma sanitise_str_idem s : sanitise_str (sanitise_str s) = sanitise_str s.
Proof.
  unfold sanitise_str at 1. rewrite sanitise_str_codepoints, sanitise_chars_idem.
  reflexivity.
Qed.

(** C3. The Name Sanitiser is idempotent: sanitising the result of
    sanitising any input gives that result again.  Where [str(name)] raises
    (an integer of more than 4300 digits) both sides raise; for a string
    nothing raises; and the chain of [str] calls is idempotent on every
    sequence of code points. *)
Theorem sanitise_name_idempotent :
  (forall x : str_or_int,
      (sanitise_name x ≫= fun r => sanitise_name (NameStr r)) = sanitise_name x)
  /\ (forall s : string,
        exists r, sanitise_name (NameStr s) = Some r
                  /\ sanitise_name (NameStr r) = Some r)
  /\ (forall l : PyStr.cps, sanitise_chars (sanitise_chars l) = sanitise_chars l).
Proof.
  split; [|split].
  - intros x. unfold sanitise_name. destruct (str x) as [s|]; [|reflexivity].
    cbn [mbind option_bind str]. now rewrite sanitise_str_idem.
  - intros s. exists (sanitise_str s). unfold sanitise_name. cbn [str].
    now rewrite sanitise_str_idem.
  - exact sanitise_chars_idem.
Qed.

Lemma ascii_eqb_false (a b : ascii) : a <> b -> Ascii.eqb a b = false.
Proof. intros H. now destruct (Ascii.eqb_spec a b). Qed.

(** ** The steps of the Name Sanitiser *)

Lemma digits_string d : Spec.digits d = NilEmpty.string_of_uint d.
Proof. induction d; cbn; now f_equal. Qed.

Lemma digits_length d : String.length (Spec.digits d) = Decimal.nb_digits d.
Proof. induction d; cbn; now f_equal. Qed.

Lemma nilzero_digits d : d <> Decimal.Nil -> NilZero.string_of_uint d = Spec.digits d.
Proof. intros H. rewrite digits_string. now destruct d. Qed.

Lemma to_uint_nonnil (n : N) : N.to_uint n <> Decimal.Nil.
Proof.
  destruct n as [|p]; [discriminate|]. apply DecimalPos.Unsigned.to_uint_nonnil.
Qed.

Lemma str_of_int_stringify z : PyStr.str_of_int z = Spec.stringify (NameInt z).
Proof.
  unfold PyStr.str_of_int, Spec.stringify, PyStr.INT_MAX_STR_DIGITS.
  assert (Hs : NilZero.string_of_int (Z.to_int z)
               = if (z <? 0)%Z then String "-" (Spec.digits (N.to_uint (Z.abs_N z)))
                 else Spec.digits (N.to_uint (Z.abs_N z))).
  { destruct z as [|p|p]; [reflexivity| |];
      cbn [Z.to_int Z.abs_N Z.ltb Z.compare NilZero.string_of_int];
      change (N.to_uint (N.pos p)) with (Pos.to_uint p);
      now rewrite nilzero_digits by apply DecimalPos.Unsigned.to_uint_nonnil. }
  rewrite Hs.
  assert (Hl : (String.length
                  (if (z <? 0)%Z then String "-" (Spec.digits (N.to_uint (Z.abs_N z)))
                   else Spec.digits (N.to_uint (Z.abs_N z)))
                - (if (z <? 0)%Z then 1 else 0))%nat
               = Decimal.nb_digits (N.to_uint (Z.abs_N z))).
  { destruct (z <? 0)%Z; cbn [String.length]; rewrite digits_length; lia. }
  rewrite Hl.
  destruct (Nat.ltb_spec 4300 (Decimal.nb_digits (N.to_uint (Z.abs_N z))));
    destruct (Nat.leb_spec (Decimal.nb_digits (N.to_uint (Z.abs_N z))) 4300);
    try lia; reflexivity.
Qed.

Lemma str_stringify x : str x = Spec.stringify x.
Proof. destruct x as [s|z|[]]; try reflexivity. apply str_of_int_stringify. Qed.

Lemma list_to_map_find {A} (l : list (N * A)) k :
  (list_to_map l : gmap N A) !! k
  = option_map snd (List.find (fun e : N * A => (e.1 =? k)%N) l).
Proof.
  induction l as [|[k' v] l IH]; [reflexivity|].
  rewrite list_to_map_cons. cbn [List.find fst].
  destruct (N.eqb_spec k' k) as [->|Hne].
  - now rewrite lookup_insert_eq.
  - now rewrite lookup_insert_ne.
Qed.

Lemma lower_of_spec c : Spec.lower_of c = Unicode.to_lower_full c.
Proof.
  unfold Spec.lower_of, Unicode.to_lower_full, Unicode.lower_map.
  rewrite list_to_map_find.
  now destruct (List.find _ Unicode.lower_table).
Qed.

Lemma nearest_skip s :
  Spec.nearest s = List.head (PyStr.skip_ignorable s).
Proof.
  unfold Spec.nearest. induction s as [|c s IH]; [reflexivity|].
  cbn [List.find PyStr.skip_ignorable].
  destruct (Unicode.case_ignorable c); [exact IH | reflexivity].
Qed.

Lemma firstn_prefix {A} (pre : list A) rest :
  List.firstn (List.length pre) (pre ++ rest) = pre.
Proof. induction pre as [|x pre IH]; cbn; [reflexivity | now f_equal]. Qed.

Lemma skipn_prefix {A} (pre : list A) c rest :
  List.skipn (S (List.length pre)) (pre ++ c :: rest) = rest.
Proof. induction pre as [|x pre IH]; [reflexivity | exact IH]. Qed.

Lemma sigma_is_final_spec pre c rest :
  Spec.sigma_is_final (pre ++ c :: rest) (List.length pre)
  = PyStr.final_sigma (List.rev pre) rest.
Proof.
  unfold Spec.sigma_is_final, PyStr.final_sigma.
  rewrite !nearest_skip, firstn_prefix, skipn_prefix.
  destruct (PyStr.skip_ignorable (List.rev pre)); [reflexivity|]. cbn [List.head].
  now destruct (PyStr.skip_ignorable rest).
Qed.

Lemma lowercase_from pre s :
  List.flat_map (Spec.lowercase_at (pre ++ s)) (List.seq (List.length pre) (List.length s))
  = PyStr.lower_from (List.rev pre) s.
Proof.
  revert pre. induction s as [|c s IH]; intros pre; [reflexivity|].
  cbn [List.length List.seq List.flat_map PyStr.lower_from]. f_equal.
  - unfold Spec.lowercase_at.
    rewrite nth_error_app2, Nat.sub_diag by lia. cbn [List.nth_error].
    change 931%N with Unicode.CAPITAL_SIGMA.
    rewrite sigma_is_final_spec, lower_of_spec. reflexivity.
  - specialize (IH (pre ++ [c])).
    rewrite <- app_assoc, length_app, rev_app_distr in IH. cbn [app List.length List.rev] in IH.
    rewrite Nat.add_1_r in IH. exact IH.
Qed.

Lemma lowercase_spec s : Spec.lowercase s = PyStr.lower s.
Proof. exact (lowercase_from [] s). Qed.

Lemma replace_spaces_hyphens s :
  PyStr.replace (PyStr.ord "-") (PyStr.codepoints "_")
    (PyStr.replace (PyStr.ord " ") (PyStr.codepoints "_") s)
  = Spec.spaces_and_hyphens s.
Proof.
  unfold PyStr.replace, Spec.spaces_and_hyphens.
  change (PyStr.ord "-") with 45%N. change (PyStr.ord " ") with 32%N.
  change (PyStr.codepoints "_") with [95%N].
  induction s as [|x s IH]; [reflexivity|].
  cbn [List.flat_map List.map]. rewrite flat_map_app, IH.
  destruct (x =? 32)%N eqn:Hsp; simpl; [reflexivity|].
  destruct (x =? 45)%N; reflexivity.
Qed.

Lemma replace_ampersand s :
  PyStr.replace (PyStr.ord "&") (PyStr.codepoints "and") s = Spec.ampersand s.
Proof.
  unfold PyStr.replace, Spec.ampersand.
  change (PyStr.ord "&") with 38%N. change (PyStr.codepoints "and") with [97; 110; 100]%N.
  induction s as [|x s IH]; [reflexivity|].
  cbn [List.flat_map List.fold_right]. rewrite IH.
  destruct (x =? 38)%N; reflexivity.
Qed.

Lemma replace_parentheses s :
  PyStr.replace (PyStr.ord ")") [] (PyStr.replace (PyStr.ord "(") [] s)
  = Spec.strip_parentheses s.
Proof.
  unfold PyStr.replace, Spec.strip_parentheses.
  change (PyStr.ord ")") with 41%N. change (PyStr.ord "(") with 40%N.
  induction s as [|x s IH]; [reflexivity|].
  cbn [List.flat_map List.filter]. rewrite flat_map_app, IH.
  destruct (x =? 40)%N eqn:Hop; simpl; [reflexivity|].
  destruct (x =? 41)%N; reflexivity.
Qed.

(** The scanner keeps the first underscore of a run, the specification's
    reading the last: the results agree. *)
Lemma re_sub_run_collapse s :
  PyStr.re_sub_run 95 false s = Spec.collapse s
  /\ 95%N :: PyStr.re_sub_run 95 true s = Spec.collapse (95%N :: s).
Proof.
  induction s as [|x s [IHf IHt]]; [split; reflexivity|].
  destruct (x =? 95)%N eqn:Hx.
  - apply N.eqb_eq in Hx. subst x. split.
    + change (PyStr.re_sub_run 95 false (95%N :: s))
        with (95%N :: PyStr.re_sub_run 95 true s). exact IHt.
    + change (PyStr.re_sub_run 95 true (95%N :: s))
        with (PyStr.re_sub_run 95 true s).
      change (Spec.collapse (95%N :: 95%N :: s))
        with (Spec.collapse (95%N :: s)). exact IHt.
  - assert (Hf : PyStr.re_sub_run 95 false (x :: s) = Spec.collapse (x :: s)).
    { cbn [PyStr.re_sub_run Spec.collapse]. rewrite Hx.
      destruct s as [|y s]; [reflexivity|].
      cbn [andb]. rewrite IHf. reflexivity. }
    split; [exact Hf|].
    cbn [PyStr.re_sub_run]. rewrite Hx.
    change (Spec.collapse (95%N :: x :: s))
      with (if (95 =? 95)%N && (x =? 95)%N
            then Spec.collapse (x :: s) else 95%N :: Spec.collapse (x :: s)).
    rewrite Hx. cbn [N.eqb Pos.eqb andb].
    rewrite <- Hf. cbn [PyStr.re_sub_run]. rewrite Hx. reflexivity.
Qed.

Lemma lstrip_app c a b :
  PyStr.lstrip c (a ++ b)
  = match PyStr.lstrip c a with
    | [] => PyStr.lstrip c b
    | r => r ++ b
    end.
Proof.
  induction a as [|x a IH]; simpl; [now destruct (PyStr.lstrip c b)|].
  destruct (x =? c)%N; [exact IH | reflexivity].
Qed.

Lemma rstrip_rev c s : PyStr.rstrip c s = List.rev (PyStr.lstrip c (List.rev s)).
Proof.
  induction s as [|x s IH]; simpl; [reflexivity|].
  rewrite lstrip_app, IH.
  destruct (PyStr.lstrip c (List.rev s)) as [|y r]; simpl.
  - destruct (x =? c)%N; reflexivity.
  - rewrite rev_app_distr. simpl.
    destruct (List.rev r ++ [y]) eqn:Hr; [|reflexivity].
    now destruct (List.rev r).
Qed.

Lemma lstrip_drop_underscores s : PyStr.lstrip 95 s = Spec.drop_underscores s.
Proof.
  induction s as [|x s IH]; [reflexivity|]. cbn [PyStr.lstrip Spec.drop_underscores].
  now rewrite IH.
Qed.

Lemma strip_trim s : PyStr.strip 95 s = Spec.trim s.
Proof.
  unfold PyStr.strip, Spec.trim. rewrite rstrip_rev, !lstrip_drop_underscores.
  reflexivity.
Qed.

Lemma sanitise_chars_steps s :
  sanitise_chars s
  = Spec.trim (Spec.collapse (Spec.strip_parentheses (Spec.ampersand
      (Spec.spaces_and_hyphens (Spec.lowercase s))))).
Proof.
  unfold sanitise_chars. change (PyStr.ord "_") with 95%N.
  rewrite strip_trim. f_equal.
  rewrite (proj1 (re_sub_run_collapse _)). f_equal.
  rewrite <- replace_parentheses. f_equal. f_equal.
  rewrite <- replace_ampersand. f_equal.
  rewrite <- replace_spaces_hyphens, lowercase_spec. reflexivity.
Qed.

Lemma sanitise_name_spec x : sanitise_name x = Spec.sanitise x.
Proof.
  unfold sanitise_name, Spec.sanitise. rewrite str_stringify.
  destruct (Spec.stringify x); [|reflexivity].
  unfold sanitise_str. now rewrite sanitise_chars_steps.
Qed.

(** The decimal digits of a power of ten, without computing it. *)
Lemma revapp_zeros n d acc :
  Decimal.revapp (Nat.iter n Decimal.D0 d) acc
  = Decimal.revapp d (Nat.iter n Decimal.D0 acc).
Proof.
  revert acc. induction n as [|n IH]; intros acc; [reflexivity|].
  change (Nat.iter (S n) Decimal.D0 d) with (Decimal.D0 (Nat.iter n Decimal.D0 d)).
  cbn [Decimal.revapp]. rewrite IH. now rewrite Nat.iter_succ_r.
Qed.

Lemma of_lu_zeros n d :
  DecimalPos.Unsigned.of_lu (Nat.iter n Decimal.D0 d)
  = (10 ^ N.of_nat n * DecimalPos.Unsigned.of_lu d)%N.
Proof.
  induction n as [|n IH]; [now rewrite N.mul_1_l|].
  rewrite Nat2N.inj_succ, N.pow_succ_r', <- N.mul_assoc, <- IH.
  now rewrite (DecimalPos.Unsigned.of_lu_eqn (Nat.iter (S n) Decimal.D0 d)).
Qed.

Lemma to_uint_pow10 n :
  N.to_uint (10 ^ N.of_nat n) = Decimal.D1 (Nat.iter n Decimal.D0 Decimal.Nil).
Proof.
  assert (H : N.of_uint (Decimal.D1 (Nat.iter n Decimal.D0 Decimal.Nil))
              = (10 ^ N.of_nat n)%N).
  { unfold N.of_uint. rewrite DecimalPos.Unsigned.of_uint_alt.
    unfold Decimal.rev. cbn [Decimal.revapp]. rewrite revapp_zeros.
    cbn [Decimal.revapp]. rewrite of_lu_zeros. apply N.mul_1_r. }
  rewrite <- H, DecimalN.Unsigned.to_of. reflexivity.
Qed.

(** C4, as stated, fails: the Name Sanitiser is not total.  For an integer
    of 4301 decimal digits [str(name)] raises ValueError. *)
Lemma sanitise_name_raises_cex : sanitise_name (NameInt (10 ^ 4300)) = None.
Proof.
  rewrite sanitise_name_spec. unfold Spec.sanitise, Spec.stringify.
  rewrite Zabs2N.inj_pow by discriminate.
  change (Z.abs_N 10) with 10%N. change (Z.abs_N 4300) with (N.of_nat 4300).
  rewrite to_uint_pow10.
  change (Decimal.nb_digits (Decimal.D1 ?d)) with (S (Decimal.nb_digits d)).
  rewrite DecimalFacts.nb_digits_iter_D0. reflexivity.
Qed.

(** C4, amended. The Name Sanitiser applies its transformations in the
    stated order (stringify, lowercase, spaces and hyphens to underscore,
    ampersand to "and", strip parentheses, collapse underscore runs, trim
    leading and trailing underscores).  It returns a name for every string,
    for both booleans, and for exactly the integers of at most 4300 decimal
    digits; for a longer integer the stringify step raises ValueError.  The
    three named examples evaluate as stated, and so do a name with letters
    outside ASCII, an integer and a boolean. *)
Theorem sanitise_name_steps :
  (forall x : str_or_int, sanitise_name x = Spec.sanitise x)
  /\ (forall s : string, is_Some (sanitise_name (NameStr s)))
  /\ (forall b : bool, is_Some (sanitise_name (NameBool b)))
  /\ (forall z : Z,
        is_Some (sanitise_name (NameInt z))
        <-> (Decimal.nb_digits (N.to_uint (Z.abs_N z)) <= 4300)%nat)
  /\ sanitise_name (NameStr "Income (Rank)") = Some "income_rank"
  /\ sanitise_name (NameStr "Health & Disability") = Some "health_and_disability"
  /\ sanitise_name (NameStr "  a -- b  ") = Some "a_b"
  /\ sanitise_name (NameStr "École & ÉTÉ (Σ)") = Some "école_and_été_σ"
  /\ sanitise_name (NameInt (-305)) = Some "305"
  /\ sanitise_name (NameBool true) = Some "true".
Proof.
  split; [exact sanitise_name_spec|].
  split; [intros s; now eexists|].
  split; [intros b; now eexists|].
  split; [|repeat split; vm_compute; reflexivity].
  intros z. rewrite sanitise_name_spec. unfold Spec.sanitise, Spec.stringify.
  destruct (Nat.leb_spec (Decimal.nb_digits (N.to_uint (Z.abs_N z))) 4300) as [H|H].
  - split; [intros _; exact H | intros _; eauto].
  - split; [intros [r Hr]; discriminate | lia].
Qed.

Lemma sanitise_name_steps_witness : is_Some (sanitise_name (NameInt (-2025))).
Proof.
  apply (proj1 (proj2 (proj2 (proj2 sanitise_name_steps))) (-2025)%Z).
  change (4 <= 4300)%nat. lia.
Defined.

(** ** Link Extractor *)

Lemma attachment_link_spec (a : Node) :
  attachment_link a
  = match Spec.primary_href a with
    | Some href =>
        if Spec.is_data_link href
        then option_map (fun u => mkDescriptor u (last_segment u))
                        (Spec.normalise (str_startswith "http") href)
        else None
    | None => None
    end.
Proof.
  unfold attachment_link, Spec.primary_href.
  destruct (find "a" "govuk-link" a) as [link|]; [|reflexivity].
  destruct (node_attrs link !! "href") as [href|]; [|reflexivity].
  unfold Spec.is_data_link, Spec.normalise.
  destruct (str_endswith ".xlsx" href || str_endswith ".csv" href); [|reflexivity].
  destruct (str_startswith "/media/" href); [reflexivity|].
  destruct (str_startswith "http" href); reflexivity.
Qed.

Lemma extract_links_spec (soup : Node) :
  extract_links soup = Spec.links (str_startswith "http") soup.
Proof.
  unfold extract_links, Spec.links.
  induction (find_all "section" "gem-c-attachment" soup) as [|a l IH]; [reflexivity|].
  cbn [List.flat_map omap list_omap]. rewrite IH, attachment_link_spec. clear IH.
  destruct (Spec.primary_href a) as [href|]; [|reflexivity].
  cbn [List.filter].
  destruct (Spec.is_data_link href); [|reflexivity].
  cbn [omap list_omap].
  destruct (Spec.normalise (str_startswith "http") href); reflexivity.
Qed.

Lemma startswith_app (p q s : PyStr.chars) :
  PyStr.startswith (p ++ q) s = true -> PyStr.startswith p s = true.
Proof.
  revert s. induction p as [|a p IH]; intros s; [reflexivity|].
  destruct s as [|b s]; cbn [PyStr.startswith app]; [discriminate|].
  intros H. apply andb_true_iff in H as [Hab Hs].
  rewrite Hab. now apply IH.
Qed.

Lemma absolute_http_startswith_http (href : string) :
  Spec.is_absolute_http href = true -> str_startswith "http" href = true.
Proof.
  unfold Spec.is_absolute_http, str_startswith. intros H.
  apply orb_true_iff in H as [H|H].
  - apply (startswith_app (PyStr.of_str "http") (PyStr.of_str "://")). exact H.
  - apply (startswith_app (PyStr.of_str "http") (PyStr.of_str "s://")). exact H.
Qed.

(** C5, as stated, fails: a target that begins with the letters "http"
    without being an absolute HTTP(S) URL is kept by the Link Extractor,
    where the claim has it discarded. *)
Lemma links_keep_http_prefix_cex :
  extract_links Examples.page_httpdocs = [mkDescriptor "httpdocs/a.csv" "a.csv"]
  /\ Spec.is_absolute_http "httpdocs/a.csv" = false
  /\ str_startswith "/media/" "httpdocs/a.csv" = false
  /\ Spec.links Spec.is_absolute_http Examples.page_httpdocs = [].
Proof. repeat split; vm_compute; reflexivity. Qed.

(** C5, amended. For every parsed page the Link Extractor returns, in page
    order, the attachment primary links whose target ends in .xlsx or .csv,
    a /media/ target prefixed by the asset-host base URL, a target that
    begins with the characters "http" (every absolute HTTP(S) URL does) kept
    as it is, every other candidate discarded; each filename is the last
    path segment of the resulting URL. *)
Theorem extract_links_http_prefix (soup : Node) :
  extract_links soup = Spec.links (str_startswith "http") soup
  /\ Forall (fun d => filename d = last_segment (url d)) (extract_links soup)
  /\ (forall href, Spec.is_absolute_http href = true ->
                   Spec.normalise (str_startswith "http") href
                   = Spec.normalise Spec.is_absolute_http href).
Proof.
  assert (H : extract_links soup = Spec.links (str_startswith "http") soup)
    by apply extract_links_spec.
  split; [exact H|]. split.
  - rewrite H. unfold Spec.links. apply Forall_forall. intros d Hd.
    apply list_elem_of_In, in_map_iff in Hd as [u [<- _]]. reflexivity.
  - intros href Habs. unfold Spec.normalise.
    rewrite Habs, (absolute_http_startswith_http _ Habs). reflexivity.
Qed.

(** A file name taken from a URL is a single path segment. *)
Lemma split_no_sep sep s : Forall (fun seg => ~ In sep seg) (PyStr.split sep s).
Proof.
  induction s as [|x s IH]; cbn [PyStr.split]; [repeat constructor; intros []|].
  destruct (Ascii.eqb_spec x sep) as [->|Hne].
  - constructor; [intros [] | exact IH].
  - destruct (PyStr.split sep s) as [|seg segs]; [repeat constructor; intros [H|[]]; auto|].
    apply Forall_cons in IH as [Hseg Hsegs].
    constructor; [|exact Hsegs]. intros [H|H]; auto.
Qed.

Lemma last_segment_no_slash href : ~ In "/"%char (PyStr.of_str (last_segment href)).
Proof.
  unfold last_segment. rewrite of_to_str.
  pose proof (split_no_sep "/" (PyStr.of_str href)) as H.
  induction H as [|seg segs Hseg _ IH]; [intros []|].
  destruct segs; [exact Hseg | exact IH].
Qed.

Lemma extract_links_http_prefix_witness :
  Spec.normalise (str_startswith "http") "https://assets.example/media/a.csv"
  = Spec.normalise Spec.is_absolute_http "https://assets.example/media/a.csv".
Proof.
  apply (proj2 (proj2 (extract_links_http_prefix Examples.page_httpdocs))).
  reflexivity.
Defined.

(** ** File Fetcher *)

Lemma download_one_exists E output_dir D w :
  path_exists w (Pathlib.div output_dir (filename D)) = true ->
  download_one E output_dir D w = ((st_exists, Pathlib.div output_dir (filename D)), w).
Proof. intros H. unfold download_one. now rewrite H. Qed.

Lemma download_one_path E output_dir D w :
  (download_one E output_dir D w).1.2 = Pathlib.div output_dir (filename D).
Proof.
  unfold download_one.
  destruct (path_exists w _); [reflexivity|].
  destruct (get_stream E _ _); [reflexivity|].
  destruct (open_wb_ok E _); reflexivity.
Qed.

Lemma path_exists_write p data w q :
  path_exists w q = true -> path_exists (write_file p data w) q = true.
Proof.
  unfold path_exists, write_file. cbn [fs].
  rewrite !bool_decide_eq_true. intros H.
  destruct (decide (p = q)) as [->|Hne].
  - rewrite lookup_insert_eq. eauto.
  - now rewrite lookup_insert_ne.
Qed.

Lemma download_one_mono E output_dir D w q :
  path_exists w q = true -> path_exists (download_one E output_dir D w).2 q = true.
Proof.
  intros H. unfold download_one.
  destruct (path_exists w (Pathlib.div _ _)); [exact H|].
  destruct (get_stream E _ _); [exact H|].
  destruct (open_wb_ok E _); [|exact H].
  cbn [snd]. now apply path_exists_write.
Qed.

Lemma download_one_requests E output_dir D w :
  requests (download_one E output_dir D w).2
  = requests w ++ (if is_exists (download_one E output_dir D w).1.1 then [] else [url D]).
Proof.
  unfold download_one.
  destruct (path_exists w (Pathlib.div _ _)); [cbn; now rewrite app_nil_r|].
  destruct (get_stream E _ _) as [|chunks broken]; [reflexivity|].
  destruct (open_wb_ok E _); [|reflexivity].
  destruct broken; reflexivity.
Qed.

Lemma download_all_cons E output_dir D files w :
  download_all E output_dir (D :: files) w
  = ((download_one E output_dir D w).1
       :: (download_all E output_dir files (download_one E output_dir D w).2).1,
     (download_all E output_dir files (download_one E output_dir D w).2).2).
Proof.
  cbn [download_all].
  destruct (download_one E output_dir D w) as [y w1]. cbn [fst snd].
  destruct (download_all E output_dir files w1) as [ys w2]. reflexivity.
Qed.

Lemma download_all_app E output_dir a b w :
  download_all E output_dir (a ++ b) w
  = ((download_all E output_dir a w).1
       ++ (download_all E output_dir b (download_all E output_dir a w).2).1,
     (download_all E output_dir b (download_all E output_dir a w).2).2).
Proof.
  revert w. induction a as [|D a IH]; intros w.
  - cbn. now destruct (download_all E output_dir b w).
  - cbn [app]. rewrite !download_all_cons, IH. reflexivity.
Qed.

Lemma download_all_length E output_dir files w :
  List.length (download_all E output_dir files w).1 = List.length files.
Proof.
  revert w. induction files as [|D files IH]; intros w; [reflexivity|].
  rewrite download_all_cons. cbn. now rewrite IH.
Qed.

Lemma download_all_mono E output_dir files w q :
  path_exists w q = true -> path_exists (download_all E output_dir files w).2 q = true.
Proof.
  revert w. induction files as [|D files IH]; intros w H; [exact H|].
  rewrite download_all_cons. cbn [snd]. apply IH. now apply download_one_mono.
Qed.

Lemma download_all_requests E output_dir files w :
  requests (download_all E output_dir files w).2
  = requests w ++ fetched_urls files (download_all E output_dir files w).1.
Proof.
  revert w. induction files as [|D files IH]; intros w.
  - cbn. now rewrite app_nil_r.
  - rewrite download_all_cons. cbn [fst snd]. rewrite IH, download_one_requests.
    rewrite <- app_assoc. f_equal.
    unfold fetched_urls. cbn [List.combine List.filter fst snd].
    destruct (is_exists _); reflexivity.
Qed.

Lemma download_all_lookup E output_dir files w i D :
  files !! i = Some D ->
  (download_all E output_dir files w).1 !! i
  = Some (download_one E output_dir D (world_at E output_dir files i w)).1.
Proof.
  intros Hi. unfold world_at.
  rewrite <- (take_drop_middle files i D Hi) at 1.
  rewrite download_all_app. cbn [fst].
  rewrite download_all_cons. cbn [fst].
  assert (Hlen : List.length (download_all E output_dir (take i files) w).1 = i).
  { rewrite download_all_length, length_take.
    apply lookup_lt_Some in Hi. lia. }
  rewrite lookup_app_r by (rewrite Hlen; lia).
  rewrite Hlen, Nat.sub_diag. reflexivity.
Qed.

Lemma path_exists_mkdir E w output_dir file :
  path_exists w (Pathlib.div output_dir file) = true -> mkdir E w output_dir = true.
Proof.
  unfold path_exists, mkdir, dir_holds_file. rewrite bool_decide_eq_true. intros H.
  apply orb_true_iff. right. apply bool_decide_eq_true.
  exists (Pathlib.div output_dir file). split; [|reflexivity].
  now apply elem_of_dom.
Qed.

(** C6. When the file of descriptor D is already in the output directory,
    the File Fetcher yields [exists] for D, and reaching D makes no network
    call and leaves the world as it was; over a whole run the requests made
    are those of the descriptors reported otherwise, so no existing file is
    downloaded again. *)
Theorem fetcher_skips_existing E output_dir files w i D :
  files !! i = Some D ->
  path_exists w (Pathlib.div output_dir (filename D)) = true ->
  exists ys w',
    download_file_gen E files output_dir w = (Some ys, w')
    /\ ys !! i = Some (st_exists, Pathlib.div output_dir (filename D))
    /\ (let wi := world_at E output_dir files i w in
        download_one E output_dir D wi
        = ((st_exists, Pathlib.div output_dir (filename D)), wi))
    /\ requests w' = requests w ++ fetched_urls files ys.
Proof.
  intros Hi Hex. pose proof (path_exists_mkdir E _ _ _ Hex) as Hmk.
  exists (download_all E output_dir files w).1, (download_all E output_dir files w).2.
  assert (Hwi : path_exists (world_at E output_dir files i w)
                  (Pathlib.div output_dir (filename D)) = true)
    by (unfold world_at; now apply download_all_mono).
  repeat split.
  - unfold download_file_gen. rewrite Hmk.
    now destruct (download_all E output_dir files w).
  - rewrite (download_all_lookup _ _ _ _ _ _ Hi), download_one_exists by exact Hwi.
    reflexivity.
  - cbn zeta. now apply download_one_exists.
  - apply download_all_requests.
Qed.

Lemma fetcher_skips_existing_witness :
  let book := mkDescriptor "https://assets.publishing.service.gov.uk/media/1/book.xlsx"
                           "book.xlsx" in
  exists ys w',
    download_file_gen Examples.online [book] "data" Examples.world_with_book = (Some ys, w')
    /\ ys !! 0 = Some (st_exists, Pathlib.div "data" "book.xlsx")
    /\ (let wi := world_at Examples.online "data" [book] 0 Examples.world_with_book in
        download_one Examples.online "data" book wi
        = ((st_exists, Pathlib.div "data" "book.xlsx"), wi))
    /\ requests w' = requests Examples.world_with_book ++ fetched_urls [book] ys.
Proof.
  intros book.
  apply (fetcher_skips_existing Examples.online "data" [book]
           Examples.world_with_book 0 book); reflexivity.
Defined.

(** ** Database Loader *)

Lemma execute_schema_again E n d d1 :
  execute E (CreateSchemaIfNotExists n) d = Some d1 ->
  execute E (CreateSchemaIfNotExists n) d1 = Some d1.
Proof.
  cbn [execute]. destruct (schema_ident E n) as [s|]; [|discriminate].
  intros [= <-]. destruct (d !! s) as [tables|] eqn:Hs.
  - now rewrite Hs.
  - now rewrite lookup_insert_eq.
Qed.

Lemma execute_schema_after_table E n q df d d1 d2 :
  execute E (CreateSchemaIfNotExists n) d = Some d1 ->
  execute E (CreateOrReplaceTableAsSelect q df) d1 = Some d2 ->
  execute E (CreateSchemaIfNotExists n) d2 = Some d2.
Proof.
  intros H1 H2. apply execute_schema_again in H1. revert H1 H2.
  cbn [execute]. destruct (schema_ident E n) as [s|]; [|discriminate].
  destruct (table_ident E q) as [[s' t']|]; [|discriminate].
  destruct (d1 !! s') as [tables|] eqn:Hs'; [|discriminate].
  destruct (select_all E df) as [g|]; [|discriminate].
  intros H1 [= <-].
  destruct (decide (s' = s)) as [->|Hne].
  - now rewrite lookup_insert_eq.
  - rewrite lookup_insert_ne by exact Hne.
    destruct (d1 !! s) eqn:Hs; [reflexivity|].
    exfalso. injection H1 as H1.
    assert (Hl : (<[s:=∅]> d1 : Database) !! s = d1 !! s) by now rewrite H1.
    rewrite lookup_insert_eq, Hs in Hl. discriminate.
Qed.

Lemma execute_table_again E q df d1 d2 :
  execute E (CreateOrReplaceTableAsSelect q df) d1 = Some d2 ->
  execute E (CreateOrReplaceTableAsSelect q df) d2 = Some d2.
Proof.
  cbn [execute]. destruct (table_ident E q) as [[s t]|]; [|discriminate].
  destruct (d1 !! s) as [tables|]; [|discriminate].
  destruct (select_all E df) as [g|]; [|discriminate].
  intros [= <-]. rewrite lookup_insert_eq.
  now rewrite !insert_insert_eq.
Qed.

Lemma execute_table_contents E q df d1 d2 :
  execute E (CreateOrReplaceTableAsSelect q df) d1 = Some d2 ->
  exists s t g, table_ident E q = Some (s, t) /\ select_all E df = Some g
                /\ table_contents d2 s t = Some g.
Proof.
  cbn [execute]. destruct (table_ident E q) as [[s t]|]; [|discriminate].
  destruct (d1 !! s) as [tables|]; [|discriminate].
  destruct (select_all E df) as [g|]; [|discriminate].
  intros [= <-]. exists s, t, g. repeat split.
  unfold table_contents. now rewrite !lookup_insert_eq.
Qed.

(** C2. Loading the same Tabular Unit a second time leaves the database,
    and the result of the call, exactly as the first load left them; after a
    successful load the table holds the rows of the unit and nothing else,
    whatever it held before. *)
Theorem load_to_duckdb_twice E schema_name table_name df db_path d :
  let once := load_to_duckdb E schema_name table_name df db_path d in
  load_to_duckdb E schema_name table_name df db_path once.2 = once
  /\ (once.1 = true ->
      exists s t g,
        table_ident E (schema_name +:+ "." +:+ table_name) = Some (s, t)
        /\ select_all E df = Some g
        /\ table_contents once.2 s t = Some g).
Proof.
  cbn zeta. unfold load_to_duckdb.
  destruct (connect_ok E db_path); cbn [fst snd];
    [|split; [reflexivity | discriminate]].
  destruct (execute E (CreateSchemaIfNotExists schema_name) d) as [d1|] eqn:H1;
    cbn [fst snd]; [|rewrite H1; split; [reflexivity | discriminate]].
  destruct (execute E (CreateOrReplaceTableAsSelect _ df) d1) as [d2|] eqn:H2;
    cbn [fst snd].
  - rewrite (execute_schema_after_table _ _ _ _ _ _ _ H1 H2),
      (execute_table_again _ _ _ _ _ H2).
    split; [reflexivity|]. intros _. exact (execute_table_contents _ _ _ _ _ H2).
  - rewrite (execute_schema_again _ _ _ _ H1), H2.
    split; [reflexivity | discriminate].
Qed.

Lemma load_to_duckdb_twice_witness :
  let once := load_to_duckdb (Examples.online)
                "imd" "scores" Examples.scores "IMD2025.duckdb" ∅ in
  once.1 = true
  /\ exists s t g,
       Examples.dotted "imd.scores" = Some (s, t)
       /\ Some Examples.scores = Some g
       /\ table_contents once.2 s t = Some g.
Proof.
  cbn zeta. split; [vm_compute; reflexivity|].
  apply (proj2 (load_to_duckdb_twice (Examples.online)
                  "imd" "scores" Examples.scores "IMD2025.duckdb" ∅)).
  vm_compute. reflexivity.
Defined.

(** ** Table Extractor *)

Lemma sheet_units_spec schema_stem sheets :
  List.flat_map
    (fun sh => option_list (sheet_unit (sanitise_str schema_stem) sh)) sheets
  = Spec.excel_units schema_stem sheets.
Proof.
  unfold Spec.excel_units.
  induction sheets as [|[sheet_name parsed] sheets IH]; [reflexivity|].
  cbn [List.flat_map List.filter]. rewrite IH. clear IH.
  unfold sheet_unit, Spec.sheet_kept, grid_empty. cbn [fst snd].
  destruct (String.eqb sheet_name "Notes"); [reflexivity|].
  destruct parsed as [df|]; [|reflexivity].
  cbn [negb andb].
  destruct (Nat.eqb (List.length (columns df)) 0); [reflexivity|].
  destruct (Nat.eqb (len df) 0); reflexivity.
Qed.

(** C7. The spreadsheet Table Extractor yields, in file order, one unit per
    sheet that is not named exactly "Notes", parses, and has at least one
    column and one row; the unit's table is the sanitised sheet name and its
    schema the sanitised file stem; a workbook that does not open yields
    nothing.  A workbook with the sheets Notes, Data1 and an empty Data2
    yields exactly the unit of Data1. *)
Theorem process_excel_file_units E w excel_path :
  process_excel_file E w excel_path
  = match ExcelFile E w excel_path with
    | Some sheets => Spec.excel_units (stem excel_path) sheets
    | None => []
    end
  /\ (forall notes data1 data2,
        ExcelFile E w excel_path
        = Some [("Notes", notes); ("Data1", Some data1); ("Data2", Some data2)] ->
        grid_empty data1 = false ->
        grid_empty data2 = true ->
        process_excel_file E w excel_path
        = [(sanitise_str (stem excel_path), sanitise_str "Data1", data1)]).
Proof.
  split.
  - unfold process_excel_file.
    destruct (ExcelFile E w excel_path); [apply sheet_units_spec | reflexivity].
  - intros notes data1 data2 Hx H1 H2. unfold process_excel_file. rewrite Hx.
    cbn [List.flat_map]. unfold sheet_unit.
    change (String.eqb "Notes" "Notes") with true.
    change (String.eqb "Data1" "Notes") with false.
    change (String.eqb "Data2" "Notes") with false.
    cbv iota. rewrite H1, H2. reflexivity.
Qed.

Lemma process_excel_file_units_witness :
  process_excel_file (Examples.online) Examples.world_with_book
    (Pathlib.mkPath "data" "book.xlsx")
  = [("book", "data1", Examples.scores)].
Proof.
  apply (proj2 (process_excel_file_units (Examples.online)
                  Examples.world_with_book (Pathlib.mkPath "data" "book.xlsx"))
               (Some Examples.scores) Examples.scores Examples.no_rows);
    vm_compute; reflexivity.
Defined.

(** ** Pipeline Orchestrator: the loading loop *)

Lemma set_db_set_db d d' w : set_db d (set_db d' w) = set_db d w.
Proof. reflexivity. Qed.

Lemma set_db_same w : set_db (db w) w = w.
Proof. now destruct w. Qed.

Lemma processor_set_db E d w p : processor E (set_db d w) p = processor E w p.
Proof. reflexivity. Qed.

Lemma load_units_spec E db_path file units tables_loaded total_tables w :
  load_units E db_path file units tables_loaded total_tables w
  = (List.map (loaded_event file) (successes (load_results E db_path units (db w)).1),
     (tables_loaded + List.length (successes (load_results E db_path units (db w)).1),
      total_tables + List.length (successes (load_results E db_path units (db w)).1)),
     set_db (load_results E db_path units (db w)).2 w).
Proof.
  revert tables_loaded total_tables w.
  induction units as [|[[s t] df] units IH]; intros tables_loaded total_tables w.
  - cbn. now rewrite !Nat.add_0_r, set_db_same.
  - cbn [load_units load_results].
    destruct (load_to_duckdb E s t df db_path (db w)) as [success d1].
    specialize (IH (tables_loaded + 1) (total_tables + 1) (set_db d1 w)) as IH1.
    specialize (IH tables_loaded total_tables (set_db d1 w)) as IH0.
    cbn [db set_db] in IH1, IH0.
    destruct (load_results E db_path units d1) as [rs d2]. cbn [fst snd] in *.
    destruct success.
    + rewrite IH1. unfold successes. cbn [List.filter snd List.map fst List.length].
      unfold loaded_event at 2. cbn [fst snd].
      rewrite <- !Nat.add_assoc. reflexivity.
    + rewrite IH0. unfold successes. cbn [List.filter snd]. reflexivity.
Qed.

Lemma load_file_spec E db_path data_file total_tables w units :
  processor E w data_file = Some units ->
  load_file E db_path data_file total_tables w
  = (block_events (name data_file, (load_results E db_path units (db w)).1),
     total_tables + List.length (successes (load_results E db_path units (db w)).1),
     set_db (load_results E db_path units (db w)).2 w).
Proof.
  intros Hp. unfold load_file. rewrite Hp, load_units_spec. reflexivity.
Qed.

Lemma is_data_file_processor E w p :
  is_data_file p = true -> exists units, processor E w p = Some units.
Proof.
  unfold is_data_file, processor. intros H.
  destruct (String.eqb (suffix p) ".xlsx"); [eauto|].
  destruct (String.eqb (suffix p) ".csv"); [eauto | discriminate].
Qed.

Lemma load_files_spec E db_path data_files total_tables w :
  Forall (fun p => is_data_file p = true) data_files ->
  (load_files E db_path data_files total_tables w).1
  = (List.flat_map block_events (load_trace E db_path data_files w),
     total_tables + trace_total (load_trace E db_path data_files w)).
Proof.
  intros H. revert total_tables w.
  induction H as [|p data_files Hp _ IH]; intros total_tables w.
  - cbn. now rewrite Nat.add_0_r.
  - destruct (is_data_file_processor E w p Hp) as [units Hu].
    cbn [load_files load_trace]. rewrite (load_file_spec _ _ _ _ _ _ Hu), Hu.
    change (default [] (Some units)) with units.
    destruct (load_results E db_path units (db w)) as [rs d]. cbn [fst snd].
    specialize (IH (total_tables + List.length (successes rs)) (set_db d w)).
    destruct (load_files E db_path data_files _ (set_db d w)) as [[evs tt] w2].
    cbn [fst] in IH. injection IH as -> ->.
    cbn [fst List.flat_map]. f_equal.
    unfold trace_total. cbn [List.map].
    match goal with
    | |- _ = _ + list_sum (?a :: ?l) => change (list_sum (a :: l)) with (a + list_sum l)
    end.
    cbn [snd]. lia.
Qed.

Lemma collect_data_files_data ys :
  Forall (fun p => is_data_file p = true) (collect_data_files ys).
Proof.
  unfold collect_data_files. apply Forall_forall. intros p Hp.
  apply list_elem_of_In, filter_In in Hp. tauto.
Qed.

Lemma run_shape E data_dir db_path page_url w files :
  get_download_links E page_url = inr files ->
  mkdir E (log_request page_url w) data_dir = true ->
  (imd_data_loader E data_dir db_path page_url w).1
  = (run_events E data_dir db_path page_url files w, Returned).
Proof.
  intros Hg Hm. unfold imd_data_loader, run_events, download_file_gen.
  rewrite Hg, Hm.
  destruct (download_all E data_dir files (log_request page_url w)) as [ys w1].
  cbn [fst snd].
  pose proof (load_files_spec E db_path (collect_data_files ys) 0 w1
                (collect_data_files_data ys)) as Hl.
  destruct (load_files E db_path (collect_data_files ys) 0 w1) as [[evs tt] w2].
  cbn [fst] in Hl. injection Hl as -> ->. reflexivity.
Qed.

Lemma successful_inv E data_dir db_path page_url w :
  successful (imd_data_loader E data_dir db_path page_url w) ->
  exists files, get_download_links E page_url = inr files
                /\ mkdir E (log_request page_url w) data_dir = true.
Proof.
  unfold successful, imd_data_loader, download_file_gen.
  destruct (get_download_links E page_url) as [[msg|msg|msg]|files].
  - cbn. intros [H _]. discriminate.
  - cbn. intros [_ H]. apply Forall_cons in H as [_ H].
    apply Forall_cons in H as [H _]. now elim H.
  - cbn. intros [H _]. discriminate.
  - destruct (mkdir E (log_request page_url w) data_dir); [eauto|].
    cbn. intros [H _]. discriminate.
Qed.

Lemma count_loaded_app a b : count_loaded (a ++ b) = count_loaded a + count_loaded b.
Proof. unfold count_loaded. now rewrite List.filter_app, length_app. Qed.

Lemma count_loaded_events file us :
  count_loaded (List.map (loaded_event file) us) = List.length us.
Proof. unfold count_loaded. induction us as [|u us IH]; cbn; [reflexivity | now rewrite IH]. Qed.

Lemma count_loaded_block b : count_loaded (block_events b) = List.length (successes b.2).
Proof.
  unfold block_events.
  change (EvProcessing b.1 :: ?l) with ([EvProcessing b.1] ++ l).
  rewrite !count_loaded_app, count_loaded_events. cbn. lia.
Qed.

Lemma count_loaded_blocks bs :
  count_loaded (List.flat_map block_events bs) = trace_total bs.
Proof.
  induction bs as [|b bs IH]; [reflexivity|].
  cbn [List.flat_map]. rewrite count_loaded_app, count_loaded_block, IH. reflexivity.
Qed.

Lemma count_loaded_downloading ys : count_loaded (downloading_events ys) = 0.
Proof. unfold count_loaded. induction ys as [|y ys IH]; [reflexivity | exact IH]. Qed.

(** ** Pipeline Orchestrator: the event sequence *)

(** C8. When the Link Extractor raises ExtractionError the run yields
    exactly two events, the extracting event and an error event carrying the
    message, then returns: there is no downloading, loading or complete
    event. *)
Theorem extraction_error_events E data_dir db_path page_url w msg :
  get_download_links E page_url = inl (ExtractionError msg) ->
  (imd_data_loader E data_dir db_path page_url w).1
  = ([EvExtracting "Fetching download links"; EvError msg], Returned)
  /\ Forall (fun e => stage e <> downloading /\ stage e <> loading /\ stage e <> complete)
            (imd_data_loader E data_dir db_path page_url w).1.1.
Proof.
  intros Hg. unfold imd_data_loader. rewrite Hg. cbn [fst snd].
  split; [reflexivity|].
  repeat constructor; discriminate.
Qed.

Lemma extraction_error_events_witness :
  (imd_data_loader Examples.offline "data" "IMD2025.duckdb" IMD_2025_URL
                   Examples.empty_world).1
  = ([EvExtracting "Fetching download links";
      EvError "Failed to extract download links: 404 Client Error: Not Found"],
     Returned).
Proof.
  apply (extraction_error_events Examples.offline "data" "IMD2025.duckdb" IMD_2025_URL
           Examples.empty_world
           "Failed to extract download links: 404 Client Error: Not Found").
  reflexivity.
Defined.

Lemma downloading_events_stage ys :
  Forall (fun e => stage e = downloading) (downloading_events ys).
Proof. unfold downloading_events. induction ys; cbn; constructor; auto. Qed.

Lemma block_events_stage b : Forall (fun e => stage e = loading) (block_events b).
Proof.
  unfold block_events. constructor; [reflexivity|].
  apply Forall_app. split; [|repeat constructor].
  induction (successes b.2); cbn; constructor; auto.
Qed.

Lemma blocks_stage bs :
  Forall (fun e => stage e = loading) (List.flat_map block_events bs).
Proof.
  induction bs as [|b bs IH]; cbn [List.flat_map]; [constructor|].
  apply Forall_app. split; [apply block_events_stage | exact IH].
Qed.

Lemma stage_split_order (A B : list Event) i j ei ej :
  Forall (fun e => stage e <> loading) A ->
  Forall (fun e => stage e <> downloading) B ->
  (A ++ B) !! i = Some ei -> (A ++ B) !! j = Some ej ->
  stage ei = downloading -> stage ej = loading -> i < j.
Proof.
  intros HA HB Hi Hj Hdl Hld.
  destruct (decide (j < List.length A)) as [Hlt|Hge].
  - rewrite lookup_app_l in Hj by exact Hlt.
    exfalso. exact (Forall_lookup_1 _ _ _ _ HA Hj Hld).
  - destruct (decide (i < List.length A)) as [Hlt'|Hge']; [lia|].
    rewrite lookup_app_r in Hi by lia.
    exfalso. exact (Forall_lookup_1 _ _ _ _ HB Hi Hdl).
Qed.

(** Events written out in the goal are at another stage; so are the events
    of a list known to be at one stage. *)
Ltac other_stage := repeat constructor; discriminate.
Ltac other_stage_from H :=
  eapply Forall_impl; [exact H|]; intros ? ?; cbn beta in *; congruence.

(** C9. In a run that returns without an error event, every downloading
    event of a file comes before every loading event (processing included)
    of that file, and the run has exactly one complete event, its last
    event. *)
Theorem run_event_order E data_dir db_path page_url w :
  successful (imd_data_loader E data_dir db_path page_url w) ->
  let evs := (imd_data_loader E data_dir db_path page_url w).1.1 in
  (forall i j ei ej f,
      evs !! i = Some ei -> evs !! j = Some ej ->
      stage ei = downloading -> stage ej = loading ->
      event_file ei = Some f -> event_file ej = Some f -> i < j)
  /\ exists pre total_tables database,
       evs = pre ++ [EvComplete total_tables database]
       /\ Forall (fun e => stage e <> complete) pre.
Proof.
  intros Hs. destruct (successful_inv _ _ _ _ _ Hs) as [files [Hg Hm]].
  cbn zeta. rewrite (run_shape _ _ _ _ _ _ Hg Hm). cbn [fst].
  unfold run_events.
  set (fetched := download_all E data_dir files (log_request page_url w)).
  set (bs := load_trace E db_path (collect_data_files fetched.1) fetched.2).
  pose proof (downloading_events_stage fetched.1) as Hd.
  pose proof (blocks_stage bs) as Hb.
  split.
  - intros i j ei ej f Hi Hj Hdl Hld _ _.
    rewrite (app_assoc [_; _]) in Hi, Hj.
    eapply stage_split_order; [| |exact Hi|exact Hj|exact Hdl|exact Hld].
    + apply Forall_app. split; [other_stage | other_stage_from Hd].
    + apply Forall_app. split; [other_stage|].
      apply Forall_app. split; [other_stage_from Hb | other_stage].
  - eexists _, _, _. split.
    + rewrite !app_assoc. reflexivity.
    + repeat (apply Forall_app; split);
        first [other_stage_from Hd | other_stage_from Hb | other_stage].
Qed.

Lemma run_event_order_witness :
  exists pre total_tables database,
    (imd_data_loader Examples.same_name_twice "data" "IMD2025.duckdb" IMD_2025_URL
                     Examples.empty_world).1.1
    = pre ++ [EvComplete total_tables database]
    /\ Forall (fun e => stage e <> complete) pre.
Proof.
  apply (run_event_order Examples.same_name_twice "data" "IMD2025.duckdb" IMD_2025_URL
           Examples.empty_world).
  split; [reflexivity|].
  vm_compute. repeat constructor; discriminate.
Defined.

Lemma processing_files_app a b :
  processing_files (a ++ b) = processing_files a ++ processing_files b.
Proof. unfold processing_files. now rewrite List.filter_app, List.map_app. Qed.

Lemma processing_files_none evs :
  Forall (fun e => is_processing e = false) evs -> processing_files evs = [].
Proof.
  unfold processing_files. induction 1 as [|e evs He _ IH]; [reflexivity|].
  cbn [List.filter]. now rewrite He.
Qed.

Lemma processing_files_downloading ys : processing_files (downloading_events ys) = [].
Proof.
  apply processing_files_none. unfold downloading_events.
  induction ys; cbn; constructor; auto.
Qed.

Lemma processing_files_block b : processing_files (block_events b) = [Some b.1].
Proof.
  unfold block_events.
  change (EvProcessing b.1 :: ?l) with ([EvProcessing b.1] ++ l).
  rewrite !processing_files_app.
  rewrite (processing_files_none (List.map _ _)); [reflexivity|].
  induction (successes b.2); cbn; constructor; auto.
Qed.

Lemma processing_files_blocks bs :
  processing_files (List.flat_map block_events bs) = List.map (fun b => Some b.1) bs.
Proof.
  induction bs as [|b bs IH]; [reflexivity|].
  cbn [List.flat_map List.map].
  now rewrite processing_files_app, processing_files_block, IH.
Qed.

Lemma load_trace_names E db_path data_files w :
  List.map fst (load_trace E db_path data_files w) = List.map name data_files.
Proof.
  revert w. induction data_files as [|p data_files IH]; intros w; [reflexivity|].
  cbn [load_trace].
  destruct (load_results E db_path _ (db w)) as [rs d].
  cbn [List.map fst]. now rewrite IH.
Qed.

Lemma absent_file_no_units E w p :
  path_exists w p = false ->
  process_excel_file E w p = [] /\ process_csv_file E w p = [].
Proof.
  unfold path_exists, process_excel_file, process_csv_file, ExcelFile.
  rewrite bool_decide_eq_false. intros H.
  destruct (fs w !! p); [|split; reflexivity].
  exfalso. apply H. eauto.
Qed.

(** C1, as stated, fails: the download of a.csv yields [failed], and the
    loading phase still emits a processing event for a.csv and runs the CSV
    Table Extractor on it (its per-file complete event follows). *)
Lemma failed_download_processed_cex :
  (imd_data_loader Examples.one_failing "data" "IMD2025.duckdb" IMD_2025_URL
                   Examples.empty_world).1.1
  = [EvExtracting "Fetching download links";
     EvDownloadingTotal "Found 1 files" 1;
     EvDownloading st_failed "a.csv";
     EvLoadingTotal "Loading 1 files into database" 1;
     EvProcessing "a.csv";
     EvFileComplete "a.csv" 0;
     EvComplete 0 "/srv/imd/IMD2025.duckdb"].
Proof. vm_compute. reflexivity. Qed.

Lemma processor_matching E w p :
  is_data_file p = true -> processor E w p = Some (matching_extractor E w p).
Proof.
  unfold is_data_file, processor, matching_extractor. intros H.
  destruct (String.eqb_spec (suffix p) ".xlsx") as [Hx|Hx];
    destruct (String.eqb_spec (suffix p) ".csv") as [Hc|Hc];
    try reflexivity.
  - rewrite Hx in Hc. discriminate Hc.
  - discriminate H.
Qed.

Lemma load_trace_matching E db_path data_files w :
  Forall (fun p => is_data_file p = true) data_files ->
  load_trace E db_path data_files w = extraction_trace E db_path data_files w.
Proof.
  intros H. revert w. induction H as [|p data_files Hp _ IH]; intros w; [reflexivity|].
  cbn [load_trace extraction_trace]. rewrite (processor_matching E w p Hp).
  change (default [] (Some (matching_extractor E w p))) with (matching_extractor E w p).
  destruct (load_results E db_path (matching_extractor E w p) (db w)) as [rs d].
  now rewrite IH.
Qed.

(** C1, amended. The load stage takes every path the File Fetcher yielded
    whose suffix is .xlsx or .csv, whatever status came with it, [failed]
    included: the processing events of a run are, in order, the names of
    exactly those paths, and the matching Table Extractor is run on each:
    the events of the run are those of the fetch followed, path by path, by
    the events of loading the units that the extractor matching the path
    yields.  A file that is not on disk gives no Tabular Unit, so nothing is
    loaded from it. *)
Theorem load_stage_takes_every_data_path E data_dir db_path page_url w files :
  get_download_links E page_url = inr files ->
  mkdir E (log_request page_url w) data_dir = true ->
  let fetched := download_all E data_dir files (log_request page_url w) in
  let data_paths := List.filter is_data_file (List.map snd fetched.1) in
  let bs := extraction_trace E db_path data_paths fetched.2 in
  processing_files (imd_data_loader E data_dir db_path page_url w).1.1
  = List.map (fun p => Some (name p)) data_paths
  /\ (imd_data_loader E data_dir db_path page_url w).1.1
     = [EvExtracting "Fetching download links";
        EvDownloadingTotal ("Found " +:+ PyStr.str_of_nat (List.length files) +:+ " files")
                           (List.length files)]
       ++ downloading_events fetched.1
       ++ [EvLoadingTotal ("Loading " +:+ PyStr.str_of_nat (List.length data_paths)
                           +:+ " files into database") (List.length data_paths)]
       ++ List.flat_map block_events bs
       ++ [EvComplete (trace_total bs) (absolute E db_path)]
  /\ (forall w' p, path_exists w' p = false ->
                   process_excel_file E w' p = [] /\ process_csv_file E w' p = []).
Proof.
  intros Hg Hm. cbn zeta.
  split; [|split; [|intros w' p; apply absent_file_no_units]].
  - rewrite (run_shape _ _ _ _ _ _ Hg Hm). cbn [fst]. unfold run_events.
    rewrite !processing_files_app, processing_files_downloading, processing_files_blocks.
    cbn [processing_files List.filter is_processing List.map app].
    rewrite app_nil_r.
    rewrite <- (List.map_map fst Some), load_trace_names, List.map_map. reflexivity.
  - rewrite (run_shape _ _ _ _ _ _ Hg Hm). cbn [fst]. unfold run_events.
    rewrite (load_trace_matching E db_path _ _ (collect_data_files_data _)).
    reflexivity.
Qed.

Lemma load_stage_takes_every_data_path_witness :
  processing_files
    (imd_data_loader Examples.one_failing "data" "IMD2025.duckdb" IMD_2025_URL
                     Examples.empty_world).1.1
  = [Some "a.csv"]
  /\ extraction_trace Examples.one_failing "IMD2025.duckdb"
       [Pathlib.mkPath "data" "a.csv"]
       (download_all Examples.one_failing "data"
          [mkDescriptor "https://assets.publishing.service.gov.uk/media/x/a.csv" "a.csv"]
          (log_request IMD_2025_URL Examples.empty_world)).2
     = [("a.csv", [])]
  /\ process_csv_file Examples.one_failing Examples.empty_world
       (Pathlib.mkPath "data" "a.csv") = [].
Proof.
  pose proof (load_stage_takes_every_data_path Examples.one_failing "data"
                "IMD2025.duckdb" IMD_2025_URL Examples.empty_world
                [mkDescriptor "https://assets.publishing.service.gov.uk/media/x/a.csv"
                              "a.csv"]
                eq_refl eq_refl) as (H1 & H2 & H3).
  split; [exact H1|]. split; [vm_compute; reflexivity|].
  apply (H3 Examples.empty_world (Pathlib.mkPath "data" "a.csv")). reflexivity.
Defined.

Lemma loaded_for_app f a b : loaded_for f (a ++ b) = loaded_for f a + loaded_for f b.
Proof. unfold loaded_for. now rewrite List.filter_app, length_app. Qed.

Lemma loaded_for_none f evs : count_loaded evs = 0 -> loaded_for f evs = 0.
Proof.
  unfold count_loaded, loaded_for.
  induction evs as [|e evs IH]; [reflexivity|].
  cbn [List.filter]. destruct (is_loaded e); cbn; [discriminate | exact IH].
Qed.

Lemma loaded_for_events_same f us :
  loaded_for f (List.map (loaded_event f) us) = List.length us.
Proof.
  unfold loaded_for. induction us as [|u us IH]; [reflexivity|].
  cbn [List.map List.filter loaded_event is_loaded event_file andb].
  rewrite bool_decide_eq_true_2 by reflexivity. cbn. now rewrite IH.
Qed.

Lemma loaded_for_events_other f g us :
  g <> f -> loaded_for f (List.map (loaded_event g) us) = 0.
Proof.
  intros Hne. unfold loaded_for. induction us as [|u us IH]; [reflexivity|].
  cbn [List.map List.filter loaded_event is_loaded event_file andb].
  rewrite bool_decide_eq_false_2 by congruence. exact IH.
Qed.

Lemma loaded_for_block f b :
  loaded_for f (block_events b)
  = if bool_decide (b.1 = f) then List.length (successes b.2) else 0.
Proof.
  unfold block_events.
  change (EvProcessing b.1 :: ?l) with ([EvProcessing b.1] ++ l).
  rewrite !loaded_for_app.
  change (loaded_for f [EvProcessing b.1]) with 0.
  change (loaded_for f [EvFileComplete b.1 _]) with 0.
  case_bool_decide as Hb.
  - rewrite Hb, loaded_for_events_same. lia.
  - rewrite loaded_for_events_other by exact Hb. lia.
Qed.

Lemma loaded_for_blocks_absent f bs :
  ~ In f (List.map fst bs) -> loaded_for f (List.flat_map block_events bs) = 0.
Proof.
  induction bs as [|b bs IH]; intros Hn; [reflexivity|].
  cbn [List.flat_map]. rewrite loaded_for_app, loaded_for_block.
  cbn [List.map In] in Hn.
  rewrite bool_decide_eq_false_2 by tauto.
  rewrite IH by tauto. reflexivity.
Qed.

Lemma loaded_for_blocks_once bs :
  List.NoDup (List.map fst bs) ->
  Forall (fun b => loaded_for b.1 (List.flat_map block_events bs)
                   = List.length (successes b.2)) bs.
Proof.
  induction bs as [|b bs IH]; intros Hnd; [constructor|].
  cbn [List.map] in Hnd. apply List.NoDup_cons_iff in Hnd as [Hb Hnd].
  constructor.
  - cbn [List.flat_map]. rewrite loaded_for_app, loaded_for_block.
    rewrite bool_decide_eq_true_2 by reflexivity.
    rewrite loaded_for_blocks_absent by exact Hb. lia.
  - specialize (IH Hnd). rewrite Forall_forall in IH |- *.
    intros b' Hb'. cbn [List.flat_map].
    rewrite loaded_for_app, loaded_for_block, (IH b' Hb').
    rewrite bool_decide_eq_false_2; [reflexivity|].
    intros Heq. apply Hb. rewrite Heq.
    apply list_elem_of_In in Hb'. now apply in_map.
Qed.

(** C10, as stated, fails: two attachments end in the same file name, the
    file is loaded twice, two loaded events carry its name, and each of its
    per-file complete events reports one table. *)
Lemma per_file_count_cex :
  let evs := (imd_data_loader Examples.same_name_twice "data" "IMD2025.duckdb"
                              IMD_2025_URL Examples.empty_world).1.1 in
  evs = [EvExtracting "Fetching download links";
         EvDownloadingTotal "Found 2 files" 2;
         EvDownloading st_downloaded "a.csv";
         EvDownloading st_exists "a.csv";
         EvLoadingTotal "Loading 2 files into database" 2;
         EvProcessing "a.csv"; EvLoaded "a.csv" "a.a" 2; EvFileComplete "a.csv" 1;
         EvProcessing "a.csv"; EvLoaded "a.csv" "a.a" 2; EvFileComplete "a.csv" 1;
         EvComplete 2 "/srv/imd/IMD2025.duckdb"]
  /\ loaded_for "a.csv" evs = 2.
Proof. cbn zeta. split; vm_compute; reflexivity. Qed.

(** C10, amended. In a run that reaches its end, the final complete event
    carries the number of loaded events of the run.  The loading events are
    one block per data file: its processing event, one loaded event for each
    Tabular Unit for which the Database Loader returned success and none for
    the others, and its complete event, whose [tables_loaded] is the number
    of loaded events of that block.  That number is the number of all loaded
    events carrying the file's name whenever no two data files of the run
    share a name. *)
Theorem loaded_event_counts E data_dir db_path page_url w files :
  get_download_links E page_url = inr files ->
  mkdir E (log_request page_url w) data_dir = true ->
  let fetched := download_all E data_dir files (log_request page_url w) in
  let bs := load_trace E db_path (collect_data_files fetched.1) fetched.2 in
  let evs := (imd_data_loader E data_dir db_path page_url w).1.1 in
  (exists pre,
      evs = pre ++ List.flat_map block_events bs
                ++ [EvComplete (count_loaded evs) (absolute E db_path)]
      /\ count_loaded pre = 0)
  /\ Forall (fun b =>
               block_events b
               = EvProcessing b.1 :: List.map (loaded_event b.1) (successes b.2)
                   ++ [EvFileComplete b.1 (count_loaded (block_events b))]) bs
  /\ (List.NoDup (List.map fst bs) ->
      Forall (fun b => loaded_for b.1 evs = List.length (successes b.2)) bs).
Proof.
  intros Hg Hm. cbn zeta. rewrite (run_shape _ _ _ _ _ _ Hg Hm). cbn [fst].
  unfold run_events.
  set (fetched := download_all E data_dir files (log_request page_url w)).
  set (bs := load_trace E db_path (collect_data_files fetched.1) fetched.2).
  set (e1 := EvExtracting _). set (e2 := EvDownloadingTotal _ _).
  set (e3 := EvLoadingTotal _ _).
  set (c := EvComplete (trace_total bs) (absolute E db_path)).
  set (pre := [e1; e2] ++ downloading_events fetched.1 ++ [e3]).
  assert (Hre : [e1; e2] ++ downloading_events fetched.1 ++ [e3]
                  ++ List.flat_map block_events bs ++ [c]
                = pre ++ List.flat_map block_events bs ++ [c]).
  { unfold pre. rewrite <- !app_assoc. reflexivity. }
  rewrite Hre. clear Hre.
  assert (Hpre : count_loaded pre = 0).
  { unfold pre. rewrite !count_loaded_app, count_loaded_downloading. reflexivity. }
  assert (Hc : count_loaded (pre ++ List.flat_map block_events bs ++ [c]) = trace_total bs).
  { rewrite !count_loaded_app, Hpre, count_loaded_blocks. cbn. lia. }
  split; [|split].
  - exists pre. split; [|exact Hpre]. rewrite Hc. reflexivity.
  - apply Forall_forall. intros b _. rewrite count_loaded_block. reflexivity.
  - intros Hnd. eapply Forall_impl; [exact (loaded_for_blocks_once bs Hnd)|].
    intros b Hb. cbn beta in *.
    rewrite !loaded_for_app, (loaded_for_none _ _ Hpre), Hb. cbn. lia.
Qed.

Lemma loaded_event_counts_witness :
  let E := Examples.env (inr (Examples.page ["/media/1/book.xlsx"; "/media/2/a.csv"]))
                        Examples.serve_all in
  let evs := (imd_data_loader E "data" "IMD2025.duckdb" IMD_2025_URL
                              Examples.empty_world).1.1 in
  exists pre bs,
    evs = pre ++ List.flat_map block_events bs
              ++ [EvComplete (count_loaded evs) "/srv/imd/IMD2025.duckdb"]
    /\ count_loaded pre = 0
    /\ Forall (fun b => loaded_for b.1 evs = List.length (successes b.2)) bs.
Proof.
  cbn zeta.
  destruct (loaded_event_counts
              (Examples.env (inr (Examples.page ["/media/1/book.xlsx"; "/media/2/a.csv"]))
                            Examples.serve_all)
              "data" "IMD2025.duckdb" IMD_2025_URL Examples.empty_world
              [mkDescriptor "https://assets.publishing.service.gov.uk/media/1/book.xlsx"
                            "book.xlsx";
               mkDescriptor "https://assets.publishing.service.gov.uk/media/2/a.csv"
                            "a.csv"]
              eq_refl eq_refl) as [[pre [H1 H2]] [_ H3]].
  exists pre. eexists. split; [exact H1|]. split; [exact H2|].
  apply H3. vm_compute. repeat constructor; cbn; intuition discriminate.
Defined.

(** ** Name Sanitiser: the shape of its results *)

Lemma rstrip_fixed c s : head_not c (List.rev s) -> PyStr.rstrip c s = s.
Proof.
  intros H. rewrite rstrip_rev, lstrip_fixed by exact H. apply rev_involutive.
Qed.

Lemma strip_last c s : head_not c (List.rev (PyStr.strip c s)).
Proof.
  unfold PyStr.strip. rewrite rstrip_rev, rev_involutive. apply lstrip_head.
Qed.

Lemma sanitise_chars_sanitised s : sanitised (sanitise_chars s).
Proof.
  repeat split.
  - apply sanitise_chars_clean.
  - apply sanitise_chars_norun.
  - unfold sanitise_chars. apply strip_head.
  - unfold sanitise_chars. apply strip_last.
Qed.

Lemma replaces_clean t : Forall (clean BANNED) t -> replaces t = t.
Proof.
  intros Hc. unfold replaces.
  assert (Hr : forall old new, In old BANNED -> PyStr.replace old new t = t)
    by (intros old new Hin; exact (clean_replace _ _ _ _ Hin Hc)).
  now rewrite (Hr (PyStr.ord " ")), (Hr (PyStr.ord "-")), (Hr (PyStr.ord "&")),
    (Hr (PyStr.ord "(")), (Hr (PyStr.ord ")"))
    by (unfold BANNED; cbn [In]; tauto).
Qed.

Lemma sanitise_chars_pre s :
  sanitise_chars s
  = PyStr.strip (PyStr.ord "_") (PyStr.re_sub_run (PyStr.ord "_") false (pre_collapse s)).
Proof. reflexivity. Qed.

Lemma sanitised_fixed t : sanitised t -> sanitise_chars t = t.
Proof.
  intros (Hc & Hn & Hh & Hl). rewrite sanitise_chars_pre. unfold pre_collapse.
  rewrite (clean_lower _ _ Hc), (replaces_clean _ Hc).
  rewrite re_sub_run_fixed by (try exact Hn; discriminate).
  unfold PyStr.strip. rewrite lstrip_fixed by exact Hh. now apply rstrip_fixed.
Qed.

Lemma sanitise_str_sanitised s : sanitised (PyStr.codepoints (sanitise_str s)).
Proof. rewrite sanitise_str_codepoints. apply sanitise_chars_sanitised. Qed.

Lemma sanitise_str_well_formed s : well_formed (sanitise_str s).
Proof.
  unfold well_formed. rewrite sanitise_str_codepoints. reflexivity.
Qed.

Lemma sanitise_str_fixed s :
  sanitise_str s = s <-> sanitised (PyStr.codepoints s) /\ well_formed s.
Proof.
  split.
  - intros Hs. rewrite <- Hs. split.
    + apply sanitise_str_sanitised.
    + apply sanitise_str_well_formed.
  - intros [Hs Hw]. unfold sanitise_str. rewrite (sanitised_fixed _ Hs). exact Hw.
Qed.

(** X1. Every result of the Name Sanitiser is lower case, has no space,
    hyphen, ampersand or parenthesis, no two underscores in a row and no
    underscore at either end; and the strings of that shape are exactly the
    ones the sanitiser returns unchanged. *)
Theorem sanitise_name_shape :
  (forall (x : str_or_int) (r : string),
      sanitise_name x = Some r -> sanitised (PyStr.codepoints r) /\ well_formed r)
  /\ (forall s : string,
        sanitise_name (NameStr s) = Some s
        <-> sanitised (PyStr.codepoints s) /\ well_formed s).
Proof.
  split.
  - intros x r. unfold sanitise_name. destruct (str x) as [s|]; [|discriminate].
    intros [= <-]. split; [apply sanitise_str_sanitised | apply sanitise_str_well_formed].
  - intros s. rewrite <- sanitise_str_fixed. unfold sanitise_name. cbn [str].
    split; [now intros [= H] | now intros ->].
Qed.

Lemma sanitise_name_shape_witness :
  sanitise_name (NameStr "health_and_disability") = Some "health_and_disability".
Proof.
  apply (proj2 sanitise_name_shape "health_and_disability").
  split; [|vm_compute; reflexivity].
  split; [vm_compute PyStr.codepoints; unfold BANNED; clean_literal|].
  vm_compute. repeat split; try (intros [? ?]; discriminate); discriminate.
Defined.

(** ** Name Sanitiser: the inputs that give the empty name *)

Lemma replaces_app a b : replaces (a ++ b) = replaces a ++ replaces b.
Proof. unfold replaces, PyStr.replace. now rewrite !flat_map_app. Qed.

Lemma replaces_char c :
  List.forallb (N.eqb 95) (replaces [c]) = is_separator c.
Proof.
  destruct (N.eqb_spec c 32) as [->|H32]; [reflexivity|].
  destruct (N.eqb_spec c 45) as [->|H45]; [reflexivity|].
  destruct (N.eqb_spec c 38) as [->|H38]; [reflexivity|].
  destruct (N.eqb_spec c 40) as [->|H40]; [reflexivity|].
  destruct (N.eqb_spec c 41) as [->|H41]; [reflexivity|].
  unfold replaces, PyStr.replace, is_separator.
  change (PyStr.ord " ") with 32%N. change (PyStr.ord "-") with 45%N.
  change (PyStr.ord "&") with 38%N. change (PyStr.ord "(") with 40%N.
  change (PyStr.ord ")") with 41%N.
  cbn [List.flat_map app List.existsb].
  rewrite (N_eqb_false _ _ H32). cbn [List.flat_map app].
  rewrite (N_eqb_false _ _ H45). cbn [List.flat_map app].
  rewrite (N_eqb_false _ _ H38). cbn [List.flat_map app].
  rewrite (N_eqb_false _ _ H40). cbn [List.flat_map app].
  rewrite (N_eqb_false _ _ H41). cbn [List.forallb orb].
  cbn [app List.forallb]. rewrite (N.eqb_sym 95 c). now rewrite andb_true_r, orb_false_r.
Qed.

Lemma Forall_eqb c s : List.forallb (N.eqb c) s = true <-> Forall (eq c) s.
Proof.
  induction s as [|x s IH]; cbn; [split; [constructor | reflexivity]|].
  rewrite andb_true_iff, IH, Forall_cons, N.eqb_eq. reflexivity.
Qed.

Lemma replaces_underscores s :
  Forall (eq 95%N) (replaces s) <-> Forall (fun c => is_separator c = true) s.
Proof.
  induction s as [|c s IH]; [split; constructor|].
  change (c :: s) with ([c] ++ s).
  rewrite replaces_app, !Forall_app, IH, <- Forall_eqb, replaces_char.
  rewrite Forall_singleton. reflexivity.
Qed.

(** No code point with a lowercase mapping is a separator, and no lowercase
    mapping consists of separators. *)
Lemma lower_table_separators :
  List.forallb
    (fun e : N * list N => negb (is_separator e.1) && negb (List.forallb is_separator e.2))
    Unicode.lower_table = true.
Proof. vm_compute. reflexivity. Qed.

Lemma forallb_Forall {A} (f : A -> bool) l :
  List.forallb f l = true <-> Forall (fun x => f x = true) l.
Proof.
  induction l as [|x l IH]; cbn; [split; [constructor | reflexivity]|].
  now rewrite andb_true_iff, IH, Forall_cons.
Qed.

Lemma to_lower_full_separators c :
  Forall (fun d => is_separator d = true) (Unicode.to_lower_full c)
  <-> is_separator c = true.
Proof.
  unfold Unicode.to_lower_full.
  destruct (Unicode.lower_map !! c) as [l|] eqn:Hl; cbn [default].
  - unfold Unicode.lower_map in Hl. apply elem_of_list_to_map_2 in Hl.
    apply list_elem_of_In in Hl.
    pose proof (proj1 (List.forallb_forall _ _) lower_table_separators _ Hl) as Hf.
    cbn [fst snd] in Hf. apply andb_true_iff in Hf as [Hk Hv].
    apply negb_true_iff in Hk, Hv. rewrite Hk. split; [|discriminate].
    intros H. apply (proj2 (forallb_Forall is_separator l)) in H. congruence.
  - rewrite Forall_singleton. reflexivity.
Qed.

Lemma lower_from_separators before s :
  Forall (fun d => is_separator d = true) (PyStr.lower_from before s)
  <-> Forall (fun d => is_separator d = true) s.
Proof.
  revert before. induction s as [|c s IH]; intros before; [reflexivity|].
  cbn [PyStr.lower_from]. rewrite Forall_app, Forall_cons, IH.
  destruct (N.eqb_spec c Unicode.CAPITAL_SIGMA) as [->|Hne].
  - rewrite Forall_singleton.
    destruct (PyStr.final_sigma before s); split; intros [H _]; discriminate H.
  - now rewrite to_lower_full_separators.
Qed.

Lemma lstrip_all c s : Forall (eq c) (PyStr.lstrip c s) <-> Forall (eq c) s.
Proof.
  induction s as [|x s IH]; [reflexivity|]. cbn [PyStr.lstrip].
  destruct (N.eqb_spec x c) as [->|Hne]; [|reflexivity].
  rewrite IH, Forall_cons. tauto.
Qed.

Lemma lstrip_nil c s : PyStr.lstrip c s = [] <-> Forall (eq c) s.
Proof.
  induction s as [|x s IH]; [split; [constructor | reflexivity]|].
  cbn [PyStr.lstrip]. destruct (N.eqb_spec x c) as [->|Hne].
  - rewrite IH, Forall_cons. tauto.
  - split; [discriminate|]. intros H. apply Forall_cons in H as [H _]. congruence.
Qed.

Lemma strip_nil c s : PyStr.strip c s = [] <-> Forall (eq c) s.
Proof.
  unfold PyStr.strip. rewrite rstrip_rev.
  rewrite <- (lstrip_all c s).
  generalize (PyStr.lstrip c s) as t. intros t. split.
  - intros H. apply (f_equal (@List.rev N)) in H.
    rewrite rev_involutive in H. cbn in H.
    apply lstrip_nil in H. apply Forall_rev in H. now rewrite rev_involutive in H.
  - intros H. apply Forall_rev in H. apply lstrip_nil in H. now rewrite H.
Qed.

Lemma re_sub_run_all c b s :
  Forall (eq c) (PyStr.re_sub_run c b s) <-> Forall (eq c) s.
Proof.
  revert b. induction s as [|x s IH]; intros b; [reflexivity|].
  cbn [PyStr.re_sub_run]. destruct (N.eqb_spec x c) as [->|Hne].
  - destruct b; rewrite ?Forall_cons, IH, ?Forall_cons; tauto.
  - rewrite !Forall_cons, IH. reflexivity.
Qed.

Lemma sanitise_chars_nil s :
  sanitise_chars s = [] <-> Forall (fun c => is_separator c = true) s.
Proof.
  rewrite sanitise_chars_pre. unfold pre_collapse, PyStr.lower.
  change (PyStr.ord "_") with 95%N.
  now rewrite strip_nil, re_sub_run_all, replaces_underscores, lower_from_separators.
Qed.

Lemma of_codepoints_nil l : PyStr.of_codepoints l = "" <-> l = [].
Proof.
  split; [|now intros ->]. intros H.
  apply (f_equal PyStr.of_str) in H. unfold PyStr.of_codepoints in H.
  rewrite of_to_str in H. now apply encode_nil.
Qed.

(** X2. The Name Sanitiser returns the empty string exactly for inputs made
    only of spaces, hyphens, underscores and parentheses (the empty input
    among them). *)
Theorem sanitise_name_empty (x : str_or_int) :
  sanitise_name x = Some ""
  <-> exists s, str x = Some s
                /\ Forall (fun c => is_separator c = true) (PyStr.codepoints s).
Proof.
  unfold sanitise_name. destruct (str x) as [s|].
  - unfold sanitise_str. split.
    + intros [= H]. exists s. split; [reflexivity|].
      now apply sanitise_chars_nil, of_codepoints_nil.
    + intros (s' & [= <-] & H). f_equal.
      now apply of_codepoints_nil, sanitise_chars_nil.
  - split; [discriminate | intros (s & H & _); discriminate].
Qed.

Lemma sanitise_name_empty_witness : sanitise_name (NameStr "( - )") = Some "".
Proof.
  apply (proj2 (sanitise_name_empty (NameStr "( - )"))).
  exists "( - )". split; [reflexivity|]. vm_compute. repeat constructor.
Defined.

(** ** Name Sanitiser: integers and booleans *)

Lemma decode_ascii l :
  Forall (fun b => (N_of_ascii b < 128)%N) l -> Utf8.decode l = List.map N_of_ascii l.
Proof.
  induction 1 as [|b l Hb _ IH]; [reflexivity|].
  cbn [Utf8.decode List.map]. rewrite (proj2 (N.ltb_lt _ _) Hb). now f_equal.
Qed.

Lemma encode_ascii l :
  Forall (fun b => (N_of_ascii b < 128)%N) l -> Utf8.encode (List.map N_of_ascii l) = l.
Proof.
  induction 1 as [|b l Hb _ IH]; [reflexivity|].
  cbn [List.map Utf8.encode List.flat_map]. fold (Utf8.encode (List.map N_of_ascii l)).
  rewrite IH. unfold Utf8.encode1. rewrite (proj2 (N.ltb_lt _ _) Hb).
  unfold Utf8.byte. now rewrite ascii_N_embedding.
Qed.

Lemma digit_facts c :
  is_digit c = true -> clean BANNED c /\ c <> 95%N.
Proof.
  unfold is_digit. rewrite andb_true_iff, !N.leb_le. intros [H1 H2].
  assert (Hc : (c = 48 \/ c = 49 \/ c = 50 \/ c = 51 \/ c = 52 \/ c = 53 \/ c = 54
                \/ c = 55 \/ c = 56 \/ c = 57)%N) by lia.
  clear H1 H2.
  repeat (destruct Hc as [->|Hc]); try subst c;
    (split; [split; [apply unmapped_stable; vm_compute; reflexivity
                    | vm_compute; intuition discriminate]
            | discriminate]).
Qed.

Lemma absent_shape c s :
  Forall (fun x => x <> c) s -> norun c s /\ head_not c s /\ head_not c (List.rev s).
Proof.
  intros H. repeat split.
  - induction H as [|x s Hx Hs IH]; [exact I|].
    destruct s; [exact I|]. split; [tauto | exact IH].
  - destruct H; [exact I | assumption].
  - apply Forall_rev in H. destruct H; [exact I | assumption].
Qed.

Lemma digits_sanitised s :
  Forall (fun c => is_digit c = true) s -> sanitised s.
Proof.
  intros H.
  assert (Hc : Forall (clean BANNED) s)
    by (eapply Forall_impl; [exact H|]; intros c Hd; exact (proj1 (digit_facts c Hd))).
  assert (Hu : Forall (fun x => x <> 95%N) s)
    by (eapply Forall_impl; [exact H|]; intros c Hd; exact (proj2 (digit_facts c Hd))).
  destruct (absent_shape _ _ Hu) as (Hn & Hh & Hl).
  repeat split; assumption.
Qed.

Lemma digits_of_uint d :
  Forall (fun b => is_digit (N_of_ascii b) = true) (PyStr.of_str (Spec.digits d)).
Proof. induction d; cbn; constructor; auto. Qed.

Lemma digits_codepoints d :
  PyStr.codepoints (Spec.digits d) = List.map N_of_ascii (PyStr.of_str (Spec.digits d))
  /\ Forall (fun c => is_digit c = true) (PyStr.codepoints (Spec.digits d))
  /\ well_formed (Spec.digits d).
Proof.
  pose proof (digits_of_uint d) as Hd.
  assert (Ha : Forall (fun b => (N_of_ascii b < 128)%N) (PyStr.of_str (Spec.digits d))).
  { eapply Forall_impl; [exact Hd|]. intros b. unfold is_digit.
    rewrite andb_true_iff, !N.leb_le. lia. }
  assert (He : PyStr.codepoints (Spec.digits d)
               = List.map N_of_ascii (PyStr.of_str (Spec.digits d)))
    by (apply decode_ascii, Ha).
  split; [exact He|]. split.
  - rewrite He. now apply Forall_map.
  - unfold well_formed, PyStr.of_codepoints. rewrite He, (encode_ascii _ Ha).
    apply to_of_str.
Qed.

Lemma sanitise_str_digits d : sanitise_str (Spec.digits d) = Spec.digits d.
Proof.
  destruct (digits_codepoints d) as (_ & Hd & Hw).
  apply sanitise_str_fixed. split; [now apply digits_sanitised | exact Hw].
Qed.

Lemma sanitise_chars_minus ds :
  Forall (fun c => is_digit c = true) ds -> sanitise_chars (45%N :: ds) = ds.
Proof.
  intros Hd. pose proof (digits_sanitised _ Hd) as (Hc & Hn & Hh & Hl).
  assert (Hst : Forall stable (45%N :: ds)).
  { constructor; [apply unmapped_stable; vm_compute; reflexivity|].
    eapply Forall_impl; [exact Hc|]. now intros c [Hs _]. }
  rewrite sanitise_chars_pre. unfold pre_collapse.
  rewrite (lower_from_fixed [] _ Hst : PyStr.lower (45%N :: ds) = 45%N :: ds).
  change (45%N :: ds) with ([45%N] ++ ds).
  rewrite replaces_app, (replaces_clean _ Hc).
  change (replaces [45%N] ++ ds) with (95%N :: ds).
  change (PyStr.ord "_") with 95%N.
  change (PyStr.re_sub_run 95 false (95%N :: ds))
    with (95%N :: PyStr.re_sub_run 95 true ds).
  rewrite re_sub_run_fixed by (try exact Hn; intros _; exact Hh).
  unfold PyStr.strip. cbn [PyStr.lstrip]. change (95 =? 95)%N with true.
  cbv iota. rewrite lstrip_fixed by exact Hh. now apply rstrip_fixed.
Qed.

Lemma sanitise_str_minus d : sanitise_str (String "-" (Spec.digits d)) = Spec.digits d.
Proof.
  destruct (digits_codepoints d) as (He & Hd & Hw).
  unfold sanitise_str.
  change (PyStr.codepoints (String "-" (Spec.digits d)))
    with (45%N :: PyStr.codepoints (Spec.digits d)).
  rewrite (sanitise_chars_minus _ Hd). exact Hw.
Qed.

(** X3. For an integer the Name Sanitiser gives the decimal digits of its
    absolute value: the minus sign of a negative number becomes a leading
    underscore and is trimmed, so n and -n get the same name; beyond 4300
    digits both [sanitise_name(n)] and [str(abs(n))] raise.  A boolean gives
    its lowercased Python name. *)
Theorem sanitise_name_int :
  (forall z : Z, sanitise_name (NameInt z) = str (NameInt (Z.abs z)))
  /\ (forall b : bool,
         sanitise_name (NameBool b) = Some (if b then "true" else "false")).
Proof.
  split; [|intros []; vm_compute; reflexivity].
  intros z. unfold sanitise_name. rewrite !str_stringify.
  unfold Spec.stringify.
  replace (Z.abs_N (Z.abs z)) with (Z.abs_N z) by (now destruct z).
  replace (Z.abs z <? 0)%Z with false by (symmetry; apply Z.ltb_ge, Z.abs_nonneg).
  destruct (Decimal.nb_digits (N.to_uint (Z.abs_N z)) <=? 4300)%nat; [|reflexivity].
  f_equal. destruct (z <? 0)%Z; [apply sanitise_str_minus | apply sanitise_str_digits].
Qed.

(** ** Link Extractor: the descriptors it makes *)

Lemma of_str_app (a b : string) : PyStr.of_str (a +:+ b) = PyStr.of_str a ++ PyStr.of_str b.
Proof.
  unfold PyStr.of_str. induction a as [|c a IH]; [reflexivity|].
  change (list_ascii_of_string (String c a +:+ b))
    with (c :: list_ascii_of_string (a +:+ b)).
  now rewrite IH.
Qed.

Lemma startswith_iff p s : PyStr.startswith p s = true <-> exists t, s = p ++ t.
Proof.
  revert s. induction p as [|a p IH]; intros s.
  - split; [intros _; now exists s | reflexivity].
  - destruct s as [|b s]; cbn [PyStr.startswith app].
    + split; [discriminate | intros [t Ht]; discriminate].
    + rewrite andb_true_iff, Ascii.eqb_eq, IH. split.
      * intros [-> [t ->]]. now exists t.
      * intros [t [= -> ->]]. split; [reflexivity | now exists t].
Qed.

Lemma endswith_iff p s : PyStr.endswith p s = true <-> exists a, s = a ++ p.
Proof.
  unfold PyStr.endswith. rewrite startswith_iff. split.
  - intros [t Ht]. exists (List.rev t).
    apply (f_equal (@List.rev ascii)) in Ht.
    now rewrite rev_involutive, rev_app_distr, rev_involutive in Ht.
  - intros [a ->]. exists (List.rev a). apply rev_app_distr.
Qed.

Lemma split_no_sep_id sep p : ~ In sep p -> PyStr.split sep p = [p].
Proof.
  induction p as [|x p IH]; intros Hn; [reflexivity|].
  cbn [PyStr.split]. rewrite ascii_eqb_false by (intros ->; apply Hn; now left).
  rewrite IH by (intros H; apply Hn; now right). reflexivity.
Qed.

(** Appending text without separator extends the last segment. *)
Lemma split_app_last sep a p :
  ~ In sep p ->
  exists L l, PyStr.split sep a = L ++ [l] /\ PyStr.split sep (a ++ p) = L ++ [l ++ p].
Proof.
  intros Hn. induction a as [|x a (L & l & Ha & Hap)].
  - exists [], []. split; [reflexivity | now apply split_no_sep_id].
  - cbn [app PyStr.split]. rewrite Ha, Hap.
    destruct (Ascii.eqb x sep).
    + exists ([] :: L), l. split; reflexivity.
    + destruct L as [|s0 L0]; cbn [app].
      * exists [], (x :: l). split; reflexivity.
      * exists ((x :: s0) :: L0), l. split; reflexivity.
Qed.

Lemma last_segment_app (a p : string) :
  ~ In "/"%char (PyStr.of_str p) ->
  exists l, last_segment (a +:+ p) = PyStr.to_str (l ++ PyStr.of_str p).
Proof.
  intros Hn. unfold last_segment. rewrite of_str_app.
  destruct (split_app_last "/" (PyStr.of_str a) _ Hn) as (L & l & _ & ->).
  exists l. now rewrite last_last.
Qed.

Lemma has_data_extension_iff s :
  has_data_extension s = true
  <-> exists a, s = a +:+ ".xlsx" \/ s = a +:+ ".csv".
Proof.
  unfold has_data_extension, str_endswith.
  rewrite orb_true_iff, !endswith_iff. split.
  - intros [[a H]|[a H]]; exists (PyStr.to_str a);
      [left | right]; apply (f_equal PyStr.to_str) in H;
      rewrite to_of_str in H; rewrite H;
      rewrite <- (to_of_str (_ +:+ _)), of_str_app, of_to_str; reflexivity.
  - intros [a [->| ->]]; [left | right]; exists (PyStr.of_str a); apply of_str_app.
Qed.

Lemma last_segment_extension s :
  has_data_extension s = true -> has_data_extension (last_segment s) = true.
Proof.
  rewrite !has_data_extension_iff. intros [a [->| ->]].
  - destruct (last_segment_app a ".xlsx") as [l ->];
      [cbn; intuition discriminate|].
    exists (PyStr.to_str l). left.
    rewrite <- (to_of_str (_ +:+ _)), of_str_app, of_to_str. reflexivity.
  - destruct (last_segment_app a ".csv") as [l ->];
      [cbn; intuition discriminate|].
    exists (PyStr.to_str l). right.
    rewrite <- (to_of_str (_ +:+ _)), of_str_app, of_to_str. reflexivity.
Qed.

Lemma str_app_assoc (a b c : string) : a +:+ (b +:+ c) = (a +:+ b) +:+ c.
Proof.
  rewrite <- (to_of_str (a +:+ (b +:+ c))), <- (to_of_str ((a +:+ b) +:+ c)).
  now rewrite !of_str_app, app_assoc.
Qed.

Lemma has_data_extension_prefix a s :
  has_data_extension s = true -> has_data_extension (a +:+ s) = true.
Proof.
  rewrite !has_data_extension_iff. intros [b [->| ->]]; exists (a +:+ b);
    [left | right]; apply str_app_assoc.
Qed.

Lemma attachment_link_ok a d : attachment_link a = Some d -> descriptor_ok d.
Proof.
  unfold attachment_link.
  destruct (find "a" "govuk-link" a) as [link|]; [|discriminate].
  destruct (node_attrs link !! "href") as [href|]; [|discriminate].
  fold (has_data_extension href).
  destruct (has_data_extension href) eqn:Hext; [|discriminate]. cbn [negb].
  destruct (str_startswith "/media/" href) eqn:Hm.
  - intros [= <-]. unfold descriptor_ok. cbn [url filename].
    pose proof (has_data_extension_prefix BASE_URL _ Hext) as Hu.
    repeat split; try assumption.
    + now apply last_segment_extension.
    + apply last_segment_no_slash.
  - destruct (str_startswith "http" href) eqn:Hh; [|discriminate].
    intros [= <-]. unfold descriptor_ok. cbn [url filename].
    repeat split; try assumption.
    + now apply last_segment_extension.
    + apply last_segment_no_slash.
Qed.

(** X4. Every descriptor the Link Extractor returns has a URL that begins
    with "http" and ends in .xlsx or .csv, and a file name that is the last
    segment of that URL, ends in the same extension and contains no slash. *)
Theorem extract_links_descriptors (soup : Node) :
  Forall descriptor_ok (extract_links soup).
Proof.
  unfold extract_links. apply Forall_forall. intros d Hd.
  apply list_elem_of_In, in_flat_map in Hd as (a & _ & Ha).
  destruct (attachment_link a) as [d'|] eqn:Hl; [|destruct Ha].
  destruct Ha as [->|[]]. exact (attachment_link_ok _ _ Hl).
Qed.

(** ** Which fetched files are data files *)

Lemma rfind_absent c s : ~ In c s -> PyStr.rfind c s = None.
Proof.
  induction s as [|x s IH]; intros Hn; [reflexivity|].
  cbn [PyStr.rfind]. rewrite IH by (intros H; apply Hn; now right).
  now rewrite ascii_eqb_false by (intros ->; apply Hn; now left).
Qed.

Lemma rfind_last c a e : ~ In c e -> PyStr.rfind c (a ++ c :: e) = Some (List.length a).
Proof.
  intros Hn. induction a as [|x a IH]; cbn [app PyStr.rfind List.length].
  - now rewrite (rfind_absent _ _ Hn), Ascii.eqb_refl.
  - now rewrite IH.
Qed.

Lemma suffix_of_extension dir a e :
  ~ In "."%char e -> e <> [] ->
  suffix (Pathlib.div dir (PyStr.to_str (a ++ "."%char :: e)))
  = match a with [] => "" | _ => PyStr.to_str ("."%char :: e) end.
Proof.
  intros Hn He. unfold suffix, Pathlib.div. cbn [name].
  rewrite of_to_str, (rfind_last _ _ _ Hn).
  destruct a as [|x a]; [reflexivity|].
  set (l := x :: a). rewrite drop_app_length.
  assert (H0 : (0 <? List.length l)%nat = true) by reflexivity.
  assert (H1 : (S (List.length l) <? List.length (l ++ "."%char :: e))%nat = true).
  { apply Nat.ltb_lt. rewrite length_app. destruct e; [contradiction | cbn; lia]. }
  now rewrite H0, H1.
Qed.

Lemma to_str_neq_length (l : PyStr.chars) (s : string) :
  List.length l <> String.length s -> String.eqb (PyStr.to_str l) s = false.
Proof.
  intros Hl. apply String.eqb_neq. intros H. apply Hl.
  apply (f_equal PyStr.of_str) in H. rewrite of_to_str in H. subst l.
  clear Hl. induction s as [|c s IH]; cbn; [reflexivity | now f_equal].
Qed.

Lemma csv_name_not_xlsx (l : PyStr.chars) :
  String.eqb (PyStr.to_str (l ++ "."%char :: PyStr.of_str "csv")) ".xlsx" = false.
Proof.
  apply String.eqb_neq. intros H.
  apply (f_equal PyStr.of_str) in H. rewrite of_to_str in H.
  apply (f_equal (@List.rev ascii)) in H. rewrite rev_app_distr in H.
  cbn in H. discriminate H.
Qed.

(** X5. A file whose name ends in .xlsx or .csv, as every name made by the
    Link Extractor does, passes the suffix test of the orchestrator and
    reaches the load stage, unless the name is the bare extension: a file
    named exactly ".xlsx" or ".csv" has no suffix for pathlib, so it is
    fetched and never loaded. *)
Theorem data_file_unless_bare_extension (output_dir file : string) :
  has_data_extension file = true ->
  is_data_file (Pathlib.div output_dir file)
  = negb (String.eqb file ".xlsx" || String.eqb file ".csv").
Proof.
  intros H. apply has_data_extension_iff in H as [a H].
  assert (Hf : file = PyStr.to_str (PyStr.of_str a ++ "."%char :: PyStr.of_str "xlsx")
               \/ file = PyStr.to_str (PyStr.of_str a ++ "."%char :: PyStr.of_str "csv")).
  { destruct H as [->| ->]; [left | right];
      rewrite <- (to_of_str (_ +:+ _)), of_str_app; reflexivity. }
  clear H. unfold is_data_file.
  destruct Hf as [->| ->];
    (rewrite suffix_of_extension by (cbn; first [intuition discriminate | discriminate]));
    destruct (PyStr.of_str a) as [|x r]; try reflexivity;
    rewrite ?csv_name_not_xlsx;
    rewrite ?(to_str_neq_length ((x :: r) ++ _) ".xlsx"),
      (to_str_neq_length ((x :: r) ++ _) ".csv")
      by (rewrite length_app; cbn; lia);
    reflexivity.
Qed.

Lemma data_file_unless_bare_extension_witness :
  is_data_file (Pathlib.div "data" "File_7.csv") = true
  /\ is_data_file (Pathlib.div "data" ".csv") = false.
Proof.
  split.
  - apply (data_file_unless_bare_extension "data" "File_7.csv"). reflexivity.
  - apply (data_file_unless_bare_extension "data" ".csv"). reflexivity.
Defined.

(** ** File Fetcher: what a run leaves on disk *)

Lemma written_concat chunks : written chunks = List.concat chunks.
Proof.
  unfold written. induction chunks as [|ch chunks IH]; [reflexivity|].
  cbn [List.filter List.concat]. destruct ch as [|b ch]; cbn; [exact IH | now rewrite IH].
Qed.

Lemma path_exists_lookup w p : path_exists w p = true <-> is_Some (fs w !! p).
Proof. unfold path_exists. apply bool_decide_eq_true. Qed.

Lemma download_one_keeps E output_dir D w :
  fs w ⊆ fs (download_one E output_dir D w).2
  /\ db (download_one E output_dir D w).2 = db w.
Proof.
  unfold download_one.
  destruct (path_exists w (Pathlib.div output_dir (filename D))) eqn:Hex; [done|].
  destruct (get_stream E _ _) as [|chunks broken]; [done|].
  destruct (open_wb_ok E _); [|done].
  cbn [snd write_file log_request fs db]. split; [|reflexivity].
  apply insert_subseteq.
  destruct (fs w !! Pathlib.div output_dir (filename D)) eqn:Hl; [|reflexivity].
  exfalso. assert (Ht : path_exists w (Pathlib.div output_dir (filename D)) = true)
    by (apply path_exists_lookup; eauto).
  congruence.
Qed.

Lemma download_all_keeps E output_dir files w :
  fs w ⊆ fs (download_all E output_dir files w).2
  /\ db (download_all E output_dir files w).2 = db w.
Proof.
  revert w. induction files as [|D files IH]; intros w; [done|].
  rewrite download_all_cons. cbn [snd].
  destruct (download_one_keeps E output_dir D w) as [H1 H2].
  destruct (IH (download_one E output_dir D w).2) as [H3 H4].
  split; [by etrans | congruence].
Qed.

Lemma download_all_world E output_dir files w i D :
  files !! i = Some D ->
  (download_all E output_dir files w).2
  = (download_all E output_dir (drop (S i) files)
       (download_one E output_dir D (world_at E output_dir files i w)).2).2.
Proof.
  intros Hi. unfold world_at.
  rewrite <- (take_drop_middle files i D Hi) at 1.
  rewrite download_all_app. cbn [snd]. now rewrite download_all_cons.
Qed.

Lemma download_one_present E output_dir D w :
  (download_one E output_dir D w).1.1 <> st_failed ->
  path_exists (download_one E output_dir D w).2 (Pathlib.div output_dir (filename D)) = true.
Proof.
  unfold download_one.
  destruct (path_exists w (Pathlib.div output_dir (filename D))) eqn:Hex; [done|].
  destruct (get_stream E _ _) as [|chunks broken]; [done|].
  destruct (open_wb_ok E _); [|done].
  destruct broken; [done|]. intros _. cbn [snd].
  apply path_exists_lookup. cbn [write_file fs]. rewrite lookup_insert_eq. eauto.
Qed.

Lemma download_all_descriptor E output_dir files w i y :
  (download_all E output_dir files w).1 !! i = Some y ->
  exists D, files !! i = Some D
            /\ y = (download_one E output_dir D (world_at E output_dir files i w)).1.
Proof.
  intros Hy. pose proof (lookup_lt_Some _ _ _ Hy) as Hlt.
  rewrite download_all_length in Hlt.
  destruct (lookup_lt_is_Some_2 files i Hlt) as [D HD].
  exists D. split; [exact HD|].
  rewrite (download_all_lookup _ _ _ _ _ _ HD) in Hy. congruence.
Qed.

Lemma download_all_present E output_dir files w i st p :
  (download_all E output_dir files w).1 !! i = Some (st, p) ->
  st <> st_failed ->
  path_exists (download_all E output_dir files w).2 p = true.
Proof.
  intros Hy Hst. destruct (download_all_descriptor _ _ _ _ _ _ Hy) as (D & HD & Heq).
  rewrite (download_all_world _ _ _ _ _ _ HD). apply download_all_mono.
  assert (Hp : p = Pathlib.div output_dir (filename D))
    by (rewrite <- (download_one_path E output_dir D (world_at E output_dir files i w)),
          <- Heq; reflexivity).
  subst p. apply download_one_present. now rewrite <- Heq.
Qed.

(** X7. The File Fetcher never deletes or overwrites a file that is already
    there, and never touches the database: every file of the world before
    is in the world after with the same bytes. *)
Theorem download_keeps_files E output_dir files w :
  fs w ⊆ fs (download_file_gen E files output_dir w).2
  /\ db (download_file_gen E files output_dir w).2 = db w.
Proof.
  unfold download_file_gen. destruct (mkdir E w output_dir); [|done].
  pose proof (download_all_keeps E output_dir files w) as H.
  now destruct (download_all E output_dir files w).
Qed.

(** X8. At the end of a run every path reported [exists] or [downloaded] is
    a file on disk. *)
Theorem reported_files_present E output_dir files w i st p :
  (download_all E output_dir files w).1 !! i = Some (st, p) ->
  st <> st_failed ->
  path_exists (download_all E output_dir files w).2 p = true.
Proof. apply download_all_present. Qed.

Lemma reported_files_present_witness :
  path_exists
    (download_all Examples.same_name_twice "data"
       [mkDescriptor "https://assets.publishing.service.gov.uk/media/1/a.csv" "a.csv"]
       Examples.empty_world).2
    (Pathlib.div "data" "a.csv") = true.
Proof.
  apply (reported_files_present Examples.same_name_twice "data"
           [mkDescriptor "https://assets.publishing.service.gov.uk/media/1/a.csv" "a.csv"]
           Examples.empty_world 0 st_downloaded (Pathlib.div "data" "a.csv"));
    [reflexivity | discriminate].
Defined.

Lemma download_one_downloaded E output_dir D w :
  (download_one E output_dir D w).1.1 = st_downloaded ->
  exists chunks,
    get_stream E (requests w) (url D) = Body chunks false
    /\ fs (download_one E output_dir D w).2 !! Pathlib.div output_dir (filename D)
       = Some (List.concat chunks).
Proof.
  unfold download_one.
  destruct (path_exists w (Pathlib.div output_dir (filename D))); [discriminate|].
  destruct (get_stream E _ _) as [|chunks broken]; [discriminate|].
  destruct (open_wb_ok E _); [|discriminate].
  destruct broken; [discriminate|]. intros _. exists chunks. split; [reflexivity|].
  cbn [snd write_file fs]. now rewrite lookup_insert_eq, written_concat.
Qed.

(** X9. A file reported [downloaded] holds, at the end of the run, exactly
    the bytes of the chunks the server sent for its URL, in order. *)
Theorem downloaded_file_bytes E output_dir files w i D p :
  files !! i = Some D ->
  (download_all E output_dir files w).1 !! i = Some (st_downloaded, p) ->
  exists chunks,
    get_stream E (requests (world_at E output_dir files i w)) (url D) = Body chunks false
    /\ fs (download_all E output_dir files w).2 !! p = Some (List.concat chunks).
Proof.
  intros HD Hy. rewrite (download_all_lookup _ _ _ _ _ _ HD) in Hy.
  injection Hy as Hy.
  destruct (download_one_downloaded E output_dir D (world_at E output_dir files i w))
    as (chunks & Hs & Hf); [now rewrite Hy|].
  exists chunks. split; [exact Hs|].
  assert (Hp : p = Pathlib.div output_dir (filename D))
    by (rewrite <- (download_one_path E output_dir D (world_at E output_dir files i w)),
          Hy; reflexivity).
  subst p. rewrite (download_all_world _ _ _ _ _ _ HD).
  eapply lookup_weaken; [exact Hf|]. apply download_all_keeps.
Qed.

Lemma downloaded_file_bytes_witness :
  exists chunks,
    Examples.serve_all "https://assets.publishing.service.gov.uk/media/1/a.csv"
    = Body chunks false
    /\ fs (download_all Examples.same_name_twice "data"
             [mkDescriptor "https://assets.publishing.service.gov.uk/media/1/a.csv" "a.csv"]
             Examples.empty_world).2 !! Pathlib.div "data" "a.csv"
       = Some (List.concat chunks).
Proof.
  apply (downloaded_file_bytes Examples.same_name_twice "data"
           [mkDescriptor "https://assets.publishing.service.gov.uk/media/1/a.csv" "a.csv"]
           Examples.empty_world 0
           (mkDescriptor "https://assets.publishing.service.gov.uk/media/1/a.csv" "a.csv")
           (Pathlib.div "data" "a.csv")); reflexivity.
Defined.

Lemma download_all_all_exist E output_dir files w :
  Forall (fun D => path_exists w (Pathlib.div output_dir (filename D)) = true) files ->
  download_all E output_dir files w
  = (List.map (fun D => (st_exists, Pathlib.div output_dir (filename D))) files, w).
Proof.
  induction 1 as [|D files HD _ IH]; [reflexivity|].
  rewrite download_all_cons, (download_one_exists _ _ _ _ HD). cbn [fst snd].
  now rewrite IH.
Qed.

(** X10. Fetching the same descriptors again: every descriptor that was not
    reported [failed] is reported [exists]; and when none was reported
    [failed] the second run reports [exists] throughout, sends no request
    and leaves the world as the first run left it. *)
Theorem fetch_again E output_dir files w :
  let first := download_all E output_dir files w in
  let second := download_all E output_dir files first.2 in
  (forall i st p, first.1 !! i = Some (st, p) -> st <> st_failed ->
                  second.1 !! i = Some (st_exists, p))
  /\ (Forall (fun y => y.1 <> st_failed) first.1 ->
      second = (List.map (fun D => (st_exists, Pathlib.div output_dir (filename D))) files,
                first.2)).
Proof.
  cbn zeta. split.
  - intros i st p Hy Hst.
    pose proof (download_all_present _ _ _ _ _ _ _ Hy Hst) as Hp.
    destruct (download_all_descriptor _ _ _ _ _ _ Hy) as (D & HD & Heq).
    assert (Hpath : p = Pathlib.div output_dir (filename D))
      by (rewrite <- (download_one_path E output_dir D (world_at E output_dir files i w)),
            <- Heq; reflexivity).
    subst p. rewrite (download_all_lookup _ _ _ _ _ _ HD).
    rewrite download_one_exists; [reflexivity|].
    unfold world_at. now apply download_all_mono.
  - intros Hall. apply download_all_all_exist.
    apply Forall_forall. intros D HD.
    apply list_elem_of_lookup in HD as [i HD].
    pose proof (download_all_lookup E output_dir files w i D HD) as Hy.
    eapply (download_all_present _ _ _ _ i
              (download_one E output_dir D (world_at E output_dir files i w)).1.1).
    + rewrite Hy. f_equal.
      rewrite <- (download_one_path E output_dir D (world_at E output_dir files i w)).
      now destruct (download_one E output_dir D (world_at E output_dir files i w)).1.
    + exact (Forall_lookup_1 _ _ _ _ Hall Hy).
Qed.

Lemma fetch_again_witness :
  let files := [mkDescriptor "https://assets.publishing.service.gov.uk/media/1/a.csv"
                             "a.csv"] in
  let first := download_all Examples.same_name_twice "data" files Examples.empty_world in
  download_all Examples.same_name_twice "data" files first.2
  = ([(st_exists, Pathlib.div "data" "a.csv")], first.2).
Proof.
  cbn zeta.
  apply (proj2 (fetch_again Examples.same_name_twice "data"
                  [mkDescriptor "https://assets.publishing.service.gov.uk/media/1/a.csv"
                                "a.csv"]
                  Examples.empty_world)).
  repeat constructor. discriminate.
Defined.

(** X11. A stream that breaks after some chunks is reported [failed] and
    leaves the chunks received so far in the file; the next fetch of that
    descriptor finds the file, reports [exists] and does not ask the server
    again. *)
Theorem broken_stream_leaves_partial_file E output_dir D w chunks :
  path_exists w (Pathlib.div output_dir (filename D)) = false ->
  get_stream E (requests w) (url D) = Body chunks true ->
  open_wb_ok E (Pathlib.div output_dir (filename D)) = true ->
  let p := Pathlib.div output_dir (filename D) in
  let r := download_one E output_dir D w in
  r.1 = (st_failed, p)
  /\ fs r.2 !! p = Some (List.concat chunks)
  /\ download_one E output_dir D r.2 = ((st_exists, p), r.2).
Proof.
  intros Hex Hs Ho. cbn zeta.
  assert (Hr : download_one E output_dir D w
               = ((st_failed, Pathlib.div output_dir (filename D)),
                  write_file (Pathlib.div output_dir (filename D)) (written chunks)
                             (log_request (url D) w)))
    by (unfold download_one; now rewrite Hex, Hs, Ho).
  rewrite Hr. cbn [fst snd]. split; [reflexivity|]. split.
  - cbn [write_file fs]. now rewrite lookup_insert_eq, written_concat.
  - apply download_one_exists, path_exists_lookup.
    cbn [write_file fs]. rewrite lookup_insert_eq. eauto.
Qed.

Lemma broken_stream_leaves_partial_file_witness :
  let E := Examples.env (inr (Examples.page [])) Examples.serve_broken in
  let D := mkDescriptor "https://assets.publishing.service.gov.uk/media/1/a.csv" "a.csv" in
  let r := download_one E "data" D Examples.empty_world in
  r.1 = (st_failed, Pathlib.div "data" "a.csv")
  /\ fs r.2 !! Pathlib.div "data" "a.csv" = Some [Byte.x41; Byte.x42]
  /\ download_one E "data" D r.2 = ((st_exists, Pathlib.div "data" "a.csv"), r.2).
Proof.
  cbn zeta.
  apply (broken_stream_leaves_partial_file
           (Examples.env (inr (Examples.page [])) Examples.serve_broken) "data"
           (mkDescriptor "https://assets.publishing.service.gov.uk/media/1/a.csv" "a.csv")
           Examples.empty_world [[Byte.x41; Byte.x42]]); reflexivity.
Defined.

(** ** Table Extractors: the units that reach the loader *)

Lemma sheet_unit_ok p sheet u :
  sheet_unit (sanitise_str (stem p)) sheet = Some u -> unit_ok p u.
Proof.
  destruct sheet as [sheet_name parsed]. unfold sheet_unit.
  destruct (String.eqb sheet_name "Notes"); [discriminate|].
  destruct parsed as [df|]; [|discriminate].
  destruct (grid_empty df) eqn:Hg; [discriminate|].
  intros [= <-]. unfold unit_ok. cbn [fst snd].
  split; [reflexivity|]. split; [apply sanitise_str_sanitised|].
  split; [apply sanitise_str_sanitised | exact Hg].
Qed.

(** X12. Whatever the file holds, every unit either Table Extractor yields
    for it is named by the Name Sanitiser (schema: the sanitised file stem;
    both names in sanitised shape) and carries a grid with at least one
    column and one row; the CSV extractor yields at most one unit, whose
    table name is its schema name. *)
Theorem extracted_units_ok E w p :
  Forall (unit_ok p) (process_excel_file E w p)
  /\ Forall (fun u => unit_ok p u /\ u.1.2 = u.1.1) (process_csv_file E w p)
  /\ List.length (process_csv_file E w p) <= 1.
Proof.
  split; [|split].
  - unfold process_excel_file. destruct (ExcelFile E w p) as [sheets|]; [|constructor].
    apply Forall_forall. intros u Hu.
    apply list_elem_of_In, in_flat_map in Hu as (sheet & _ & Hs).
    destruct (sheet_unit _ sheet) as [u'|] eqn:Hsu; [|destruct Hs].
    destruct Hs as [->|[]]. exact (sheet_unit_ok _ _ _ Hsu).
  - unfold process_csv_file. destruct (fs w !! p); [|constructor].
    destruct (read_csv E _) as [df|]; [|constructor].
    destruct (grid_empty df) eqn:Hg; constructor; [|constructor].
    unfold unit_ok. cbn [fst snd]. split; [|reflexivity].
    split; [reflexivity|]. split; [apply sanitise_str_sanitised|].
    split; [apply sanitise_str_sanitised | exact Hg].
  - unfold process_csv_file. destruct (fs w !! p); [|cbn; lia].
    destruct (read_csv E _) as [df|]; [|cbn; lia].
    destruct (grid_empty df); cbn; lia.
Qed.

(** ** Database Loader: replacement and frame *)

Lemma table_contents_schema E n d d1 s t :
  execute E (CreateSchemaIfNotExists n) d = Some d1 ->
  table_contents d1 s t = table_contents d s t.
Proof.
  cbn [execute]. destruct (schema_ident E n) as [s0|]; [|discriminate].
  intros [= <-]. destruct (d !! s0) eqn:Hs0; [reflexivity|].
  unfold table_contents. destruct (decide (s0 = s)) as [->|Hne].
  - now rewrite lookup_insert_eq, Hs0, lookup_empty.
  - now rewrite lookup_insert_ne.
Qed.

Lemma load_to_duckdb_failed E schema_name table_name df db_path d s t :
  (load_to_duckdb E schema_name table_name df db_path d).1 = false ->
  table_contents (load_to_duckdb E schema_name table_name df db_path d).2 s t
  = table_contents d s t.
Proof.
  unfold load_to_duckdb. destruct (connect_ok E db_path); [|reflexivity].
  destruct (execute E (CreateSchemaIfNotExists schema_name) d) as [d1|] eqn:H1;
    [|reflexivity].
  destruct (execute E (CreateOrReplaceTableAsSelect _ df) d1) as [d2|];
    [discriminate|].
  intros _. cbn [snd]. exact (table_contents_schema _ _ _ _ _ _ H1).
Qed.

(** X13. A load that returns False changes the contents of no table; at
    most it has created the (empty) schema. *)
Theorem failed_load_keeps_tables E schema_name table_name df db_path d :
  (load_to_duckdb E schema_name table_name df db_path d).1 = false ->
  forall s t,
    table_contents (load_to_duckdb E schema_name table_name df db_path d).2 s t
    = table_contents d s t.
Proof. intros H s t. now apply load_to_duckdb_failed. Qed.

Lemma failed_load_keeps_tables_witness :
  table_contents
    (load_to_duckdb Examples.online "imd" "a.b" Examples.scores "IMD2025.duckdb" ∅).2
    "imd" "a.b"
  = table_contents ∅ "imd" "a.b".
Proof.
  apply (failed_load_keeps_tables Examples.online "imd" "a.b" Examples.scores
           "IMD2025.duckdb" ∅). reflexivity.
Defined.

(** X14. A load changes no table other than the one its qualified name
    resolves to. *)
Theorem load_keeps_other_tables E schema_name table_name df db_path d s t :
  table_ident E (schema_name +:+ "." +:+ table_name) <> Some (s, t) ->
  table_contents (load_to_duckdb E schema_name table_name df db_path d).2 s t
  = table_contents d s t.
Proof.
  intros Hne.
  destruct (load_to_duckdb E schema_name table_name df db_path d).1 eqn:Hok;
    [|now apply load_to_duckdb_failed].
  revert Hok. unfold load_to_duckdb. destruct (connect_ok E db_path); [|discriminate].
  destruct (execute E (CreateSchemaIfNotExists schema_name) d) as [d1|] eqn:H1;
    [|discriminate].
  destruct (execute E (CreateOrReplaceTableAsSelect _ df) d1) as [d2|] eqn:H2;
    [|discriminate].
  intros _. cbn [snd]. rewrite <- (table_contents_schema _ _ _ _ s t H1).
  revert H2. cbn [execute].
  destruct (table_ident E _) as [[s1 t1]|]; [|discriminate].
  destruct (d1 !! s1) as [tables|] eqn:Hs1; [|discriminate].
  destruct (select_all E df) as [g|]; [|discriminate].
  intros [= <-]. unfold table_contents.
  destruct (decide (s1 = s)) as [->|Hs].
  - rewrite lookup_insert_eq, Hs1. apply lookup_insert_ne. congruence.
  - now rewrite lookup_insert_ne.
Qed.

Lemma load_keeps_other_tables_witness :
  table_contents
    (load_to_duckdb Examples.online "imd" "scores" Examples.scores "IMD2025.duckdb" ∅).2
    "imd" "ranks"
  = table_contents ∅ "imd" "ranks".
Proof.
  apply (load_keeps_other_tables Examples.online "imd" "scores" Examples.scores
           "IMD2025.duckdb" ∅ "imd" "ranks"). vm_compute. discriminate.
Defined.

(** X15. The last load wins: when a load under a name succeeds, the database
    is the one that load alone would have produced, whatever an earlier load
    under the same name did, so of two units with the same names only the
    second stays. *)
Theorem load_last_wins E schema_name table_name df1 df2 db_path d :
  let first := load_to_duckdb E schema_name table_name df1 db_path d in
  (load_to_duckdb E schema_name table_name df2 db_path first.2).1 = true ->
  load_to_duckdb E schema_name table_name df2 db_path first.2
  = load_to_duckdb E schema_name table_name df2 db_path d.
Proof.
  cbn zeta. unfold load_to_duckdb.
  destruct (connect_ok E db_path); [|discriminate]. cbn [fst snd].
  destruct (execute E (CreateSchemaIfNotExists schema_name) d) as [d1|] eqn:H1;
    cbn [fst snd]; [|now rewrite H1].
  pose proof (execute_schema_again _ _ _ _ H1) as H1'.
  destruct (execute E (CreateOrReplaceTableAsSelect _ df1) d1) as [d2|] eqn:H2;
    cbn [fst snd]; [|now rewrite H1'].
  rewrite (execute_schema_after_table _ _ _ _ _ _ _ H1 H2).
  revert H2. cbn [execute].
  destruct (table_ident E _) as [[s t]|]; [|discriminate].
  destruct (d1 !! s) as [tables|] eqn:Hs; [|discriminate].
  destruct (select_all E df1) as [g1|]; [|discriminate].
  intros [= <-]. rewrite lookup_insert_eq.
  destruct (select_all E df2) as [g2|]; [|discriminate].
  intros _. now rewrite !insert_insert_eq.
Qed.

Lemma load_last_wins_witness :
  let first := load_to_duckdb Examples.online "imd" "scores" Examples.scores
                 "IMD2025.duckdb" ∅ in
  load_to_duckdb Examples.online "imd" "scores" Examples.no_rows "IMD2025.duckdb" first.2
  = load_to_duckdb Examples.online "imd" "scores" Examples.no_rows "IMD2025.duckdb" ∅.
Proof.
  cbn zeta.
  apply (load_last_wins Examples.online "imd" "scores" Examples.scores Examples.no_rows
           "IMD2025.duckdb" ∅). reflexivity.
Defined.

(** ** Pipeline Orchestrator: the effects of a run *)




Lemma file_complete_blocks bs :
  List.length (List.filter is_file_complete (List.flat_map block_events bs))
  = List.length bs.
Proof.
  induction bs as [|b bs IH]; [reflexivity|].
  cbn [List.flat_map]. rewrite List.filter_app, length_app, IH.
  unfold block_events. cbn [List.filter is_file_complete].
  rewrite List.filter_app. cbn [List.filter is_file_complete].
  replace (List.filter is_file_complete (List.map (loaded_event b.1) (successes b.2)))
    with (@nil Event); [reflexivity|].
  induction (successes b.2) as [|u us IHu]; [reflexivity | exact IHu].
Qed.

(** X17. In a run that reaches its end the announced totals are the numbers
    of events that follow: the downloading summary carries the number of
    descriptors, which is the number of per-file downloading events, and the
    loading summary carries the number of processing events, which is also
    the number of per-file complete events. *)
Theorem summary_totals E data_dir db_path page_url w files :
  get_download_links E page_url = inr files ->
  mkdir E (log_request page_url w) data_dir = true ->
  exists dl ld total_tables,
    (imd_data_loader E data_dir db_path page_url w).1.1
    = EvExtracting "Fetching download links"
      :: EvDownloadingTotal ("Found " +:+ PyStr.str_of_nat (List.length dl) +:+ " files")
                            (List.length dl)
      :: dl
      ++ EvLoadingTotal ("Loading " +:+ PyStr.str_of_nat (List.length (processing_files ld))
                         +:+ " files into database")
                        (List.length (processing_files ld))
      :: ld ++ [EvComplete total_tables (absolute E db_path)]
    /\ List.length dl = List.length files
    /\ Forall (fun e => is_file_download e = true) dl
    /\ Forall (fun e => stage e = loading) ld
    /\ List.length (List.filter is_file_complete ld) = List.length (processing_files ld).
Proof.
  intros Hg Hm. rewrite (run_shape _ _ _ _ _ _ Hg Hm). cbn [fst]. unfold run_events.
  set (fetched := download_all E data_dir files (log_request page_url w)).
  set (bs := load_trace E db_path (collect_data_files fetched.1) fetched.2).
  assert (Hdl : List.length (downloading_events fetched.1) = List.length files)
    by (unfold downloading_events, fetched;
        now rewrite length_map, download_all_length).
  assert (Hbs : List.length bs = List.length (collect_data_files fetched.1))
    by (unfold bs; rewrite <- (length_map fst), load_trace_names; apply length_map).
  assert (Hpf : List.length (processing_files (List.flat_map block_events bs))
                = List.length bs)
    by (rewrite processing_files_blocks; apply length_map).
  exists (downloading_events fetched.1), (List.flat_map block_events bs), (trace_total bs).
  rewrite Hdl, Hpf, Hbs. repeat split.
  - unfold downloading_events. apply Forall_forall. intros e He.
    apply list_elem_of_In, in_map_iff in He as [y [<- _]]. reflexivity.
  - apply blocks_stage.
  - rewrite file_complete_blocks. exact Hbs.
Qed.

Lemma summary_totals_witness :
  exists dl ld total_tables,
    (imd_data_loader Examples.same_name_twice "data" "IMD2025.duckdb" IMD_2025_URL
                     Examples.empty_world).1.1
    = EvExtracting "Fetching download links"
      :: EvDownloadingTotal ("Found " +:+ PyStr.str_of_nat (List.length dl) +:+ " files")
                            (List.length dl)
      :: dl
      ++ EvLoadingTotal ("Loading " +:+ PyStr.str_of_nat (List.length (processing_files ld))
                         +:+ " files into database")
                        (List.length (processing_files ld))
      :: ld ++ [EvComplete total_tables "/srv/imd/IMD2025.duckdb"]
    /\ List.length dl = 2
    /\ Forall (fun e => is_file_download e = true) dl
    /\ Forall (fun e => stage e = loading) ld
    /\ List.length (List.filter is_file_complete ld) = List.length (processing_files ld).
Proof.
  apply (summary_totals Examples.same_name_twice "data" "IMD2025.duckdb" IMD_2025_URL
           Examples.empty_world
           [mkDescriptor "https://assets.publishing.service.gov.uk/media/1/a.csv" "a.csv";
            mkDescriptor "https://assets.publishing.service.gov.uk/media/2/a.csv" "a.csv"]);
    reflexivity.
Defined.

(** ** Progress Reporter and command line *)

Lemma report_app a b total_tables :
  report (a ++ b) total_tables
  = ((report a total_tables).1 ++ (report b (report a total_tables).2).1,
     (report b (report a total_tables).2).2).
Proof.
  revert total_tables. induction a as [|e a IH]; intros total_tables.
  - cbn. now destruct (report b total_tables).
  - cbn [app report]. rewrite IH.
    destruct (report a _) as [oa ta]. cbn [fst snd].
    destruct (report b ta) as [ob tb]. cbn [fst snd]. now rewrite app_assoc.
Qed.

(** X18. When the run reaches its end, [load_with_progress] returns the
    number of loaded events of the run, that is, the number of loads the
    Database Loader reported as successful. *)
Theorem load_with_progress_total E data_dir db_path page_url w files :
  get_download_links E page_url = inr files ->
  mkdir E (log_request page_url w) data_dir = true ->
  (load_with_progress E data_dir db_path page_url w).1.2
  = Some (count_loaded (imd_data_loader E data_dir db_path page_url w).1.1).
Proof.
  intros Hg Hm. unfold load_with_progress.
  pose proof (run_shape _ _ db_path _ w _ Hg Hm) as Hr.
  destruct (imd_data_loader E data_dir db_path page_url w) as [[evs out] w'].
  cbn [fst] in Hr. injection Hr as -> ->. cbn [fst snd].
  unfold run_events.
  set (fetched := download_all E data_dir files (log_request page_url w)).
  set (bs := load_trace E db_path (collect_data_files fetched.1) fetched.2).
  rewrite !app_assoc, report_app. cbn [report fst snd]. f_equal.
  rewrite <- !app_assoc, !count_loaded_app, count_loaded_downloading, count_loaded_blocks.
  cbn. lia.
Qed.

Lemma load_with_progress_total_witness :
  (load_with_progress Examples.same_name_twice "data" "IMD2025.duckdb" IMD_2025_URL
                      Examples.empty_world).1.2
  = Some (count_loaded
            (imd_data_loader Examples.same_name_twice "data" "IMD2025.duckdb" IMD_2025_URL
                             Examples.empty_world).1.1).
Proof.
  apply (load_with_progress_total Examples.same_name_twice "data" "IMD2025.duckdb"
           IMD_2025_URL Examples.empty_world
           [mkDescriptor "https://assets.publishing.service.gov.uk/media/1/a.csv" "a.csv";
            mkDescriptor "https://assets.publishing.service.gov.uk/media/2/a.csv" "a.csv"]);
    reflexivity.
Defined.

(** X19. When the page cannot be fetched, [imd load] prints the one line
    "Fetching download links...", writes nothing to standard error, and
    exits with status 0: the error event is not reported. *)
Theorem cmd_load_extraction_error E args exc w e :
  get_page E IMD_2025_URL = inl e ->
  cmd_load E args exc w
  = (["Fetching download links..."], [], 0, log_request IMD_2025_URL w).
Proof.
  intros Hp. unfold cmd_load, load_with_progress, imd_data_loader, get_download_links.
  rewrite Hp. reflexivity.
Qed.

Lemma cmd_load_extraction_error_witness :
  cmd_load Examples.offline (mkLoadArgs None None) "" Examples.empty_world
  = (["Fetching download links..."], [], 0, log_request IMD_2025_URL Examples.empty_world).
Proof.
  apply (cmd_load_extraction_error Examples.offline (mkLoadArgs None None) ""
           Examples.empty_world "404 Client Error: Not Found").
  reflexivity.
Defined.

(** ** Listing the tables *)

Lemma table_rows_spec d s t :
  In (s, t) (table_rows d) <-> is_Some (table_contents d s t).
Proof.
  unfold table_rows, table_contents. rewrite in_flat_map. split.
  - intros ([s' tables] & Hd & Ht). cbn [fst snd] in Ht.
    apply in_map_iff in Ht as ([t' g] & [= <- <-] & Hg).
    apply list_elem_of_In, elem_of_map_to_list in Hd.
    apply list_elem_of_In, elem_of_map_to_list in Hg.
    rewrite Hd. eauto.
  - destruct (d !! s) as [tables|] eqn:Hs; [|intros [? [=]]].
    intros [g Hg]. exists (s, tables). split.
    + now apply list_elem_of_In, elem_of_map_to_list.
    + cbn [fst snd]. apply in_map_iff. exists (t, g). split; [reflexivity|].
      now apply list_elem_of_In, elem_of_map_to_list.
Qed.

Lemma table_rows_NoDup d : List.NoDup (table_rows d).
Proof.
  unfold table_rows.
  pose proof (NoDup_fst_map_to_list d) as Hk.
  induction (map_to_list d) as [|[s tables] l IH]; [constructor|].
  cbn [List.flat_map fst snd]. apply NoDup_ListNoDup, NoDup_app.
  cbn [fmap list_fmap fst] in Hk. apply NoDup_cons in Hk as [Hs Hl].
  split; [|split].
  - apply NoDup_ListNoDup.
    apply (List.NoDup_map_inv snd). rewrite List.map_map. cbn [snd].
    apply NoDup_ListNoDup. exact (NoDup_fst_map_to_list tables).
  - intros [s' t'] H1 H2.
    apply list_elem_of_In, in_map_iff in H1 as ([t0 g0] & [= <- <-] & _).
    apply list_elem_of_In, in_flat_map in H2 as ([s2 tables2] & Hin & Ht).
    cbn [fst snd] in Ht. apply in_map_iff in Ht as ([t3 g3] & [= <- <-] & _).
    apply Hs. apply list_elem_of_fmap. exists (s2, tables2).
    split; [reflexivity | now apply list_elem_of_In].
  - apply NoDup_ListNoDup. exact (IH Hl).
Qed.

Lemma by_schema_then_table_total : Total by_schema_then_table.
Proof.
  intros a b. unfold by_schema_then_table, schema_table_leb.
  rewrite (String.compare_antisym b.1 a.1).
  destruct (String.compare a.1 b.1); cbn [CompOpp]; auto.
  apply String.leb_total.
Qed.

(** X21. [list_tables] returns the qualified name of every table of the
    database outside the two system schemas, each once, ordered by schema
    and then by table; and it returns nothing else. *)
Theorem list_tables_rows E db_path d :
  connect_ok E db_path = true ->
  list_tables E db_path d = Some (List.map full_name (listed_rows d))
  /\ Sorted by_schema_then_table (listed_rows d)
  /\ List.NoDup (listed_rows d)
  /\ (forall s t, In (s, t) (listed_rows d)
                  <-> is_Some (table_contents d s t) /\ is_system_schema s = false).
Proof.
  intros Hc. unfold list_tables. rewrite Hc. split; [reflexivity|].
  unfold listed_rows.
  split; [apply (@Sorted_merge_sort _ _ _ by_schema_then_table_total)|]. split.
  - apply NoDup_ListNoDup. rewrite merge_sort_Permutation.
    apply NoDup_ListNoDup, List.NoDup_filter, table_rows_NoDup.
  - intros s t. rewrite <- table_rows_spec.
    rewrite <- !list_elem_of_In, merge_sort_Permutation, !list_elem_of_In.
    rewrite filter_In. cbn [fst]. rewrite negb_true_iff. reflexivity.
Qed.

Lemma list_tables_rows_witness :
  list_tables Examples.online "IMD2025.duckdb"
    (load_to_duckdb Examples.online "imd" "scores" Examples.scores "IMD2025.duckdb" ∅).2
  = Some ["imd.scores"].
Proof.
  destruct (list_tables_rows Examples.online "IMD2025.duckdb"
              (load_to_duckdb Examples.online "imd" "scores" Examples.scores
                 "IMD2025.duckdb" ∅).2 eq_refl) as [H _].
  rewrite H. vm_compute. reflexivity.
Defined.

(** X22. After a successful load the table is listed: [list_tables]
    contains the qualified name the load resolved to, unless its schema is
    one of the two system schemas the query leaves out. *)
Theorem loaded_table_is_listed E schema_name table_name df db_path d s t :
  (load_to_duckdb E schema_name table_name df db_path d).1 = true ->
  table_ident E (schema_name +:+ "." +:+ table_name) = Some (s, t) ->
  is_system_schema s = false ->
  exists names,
    list_tables E db_path (load_to_duckdb E schema_name table_name df db_path d).2
    = Some names
    /\ In (s +:+ "." +:+ t) names.
Proof.
  unfold load_to_duckdb, list_tables.
  destruct (connect_ok E db_path); [|discriminate].
  destruct (execute E (CreateSchemaIfNotExists schema_name) d) as [d1|]; [|discriminate].
  destruct (execute E (CreateOrReplaceTableAsSelect _ df) d1) as [d2|] eqn:H2;
    [|discriminate].
  intros _ Hid Hsys. cbn [snd]. eexists. split; [reflexivity|].
  destruct (execute_table_contents _ _ _ _ _ H2) as (s' & t' & g & Hid' & _ & Hg).
  rewrite Hid in Hid'. injection Hid' as <- <-.
  apply (in_map full_name _ (s, t)).
  unfold listed_rows.
  rewrite <- list_elem_of_In, merge_sort_Permutation, list_elem_of_In.
  apply filter_In. cbn [fst]. rewrite Hsys. split; [|reflexivity].
  apply table_rows_spec. rewrite Hg. eauto.
Qed.

Lemma loaded_table_is_listed_witness :
  exists names,
    list_tables Examples.online "IMD2025.duckdb"
      (load_to_duckdb Examples.online "imd" "scores" Examples.scores "IMD2025.duckdb" ∅).2
    = Some names
    /\ In ("imd" +:+ "." +:+ "scores") names.
Proof.
  apply (loaded_table_is_listed Examples.online "imd" "scores" Examples.scores
           "IMD2025.duckdb" ∅ "imd" "scores"); reflexivity.
Defined.

(** ** File Fetcher: descriptors that share a file name *)

Lemma world_at_later E output_dir files w i j D p :
  files !! i = Some D -> i < j ->
  path_exists (download_one E output_dir D (world_at E output_dir files i w)).2 p = true ->
  path_exists (world_at E output_dir files j w) p = true.
Proof.
  intros HD Hij Hp. unfold world_at in *.
  assert (Hsplit : take j files
                   = take i files ++ D :: drop (S i) (take j files)).
  { rewrite <- (take_drop_middle (take j files) i D) at 1.
    - now rewrite take_take, Nat.min_l by lia.
    - rewrite lookup_take_lt by lia. exact HD. }
  rewrite Hsplit, download_all_app. cbn [snd].
  rewrite download_all_cons. cbn [snd]. now apply download_all_mono.
Qed.

(** X23. When two descriptors have the same file name, the later one is
    never downloaded once the earlier one was reported [exists] or
    [downloaded]: it is reported [exists] and no request is sent for its URL
    at that point, whatever that URL is. *)
Theorem same_name_fetched_once E output_dir files w i j D1 D2 st p :
  files !! i = Some D1 ->
  files !! j = Some D2 ->
  i < j ->
  filename D2 = filename D1 ->
  (download_all E output_dir files w).1 !! i = Some (st, p) ->
  st <> st_failed ->
  (download_all E output_dir files w).1 !! j = Some (st_exists, p)
  /\ (let wj := world_at E output_dir files j w in
      download_one E output_dir D2 wj = ((st_exists, p), wj)).
Proof.
  intros H1 H2 Hij Hname Hy Hst.
  rewrite (download_all_lookup _ _ _ _ _ _ H1) in Hy. injection Hy as Hy.
  assert (Hp : p = Pathlib.div output_dir (filename D1))
    by (rewrite <- (download_one_path E output_dir D1 (world_at E output_dir files i w)),
          Hy; reflexivity).
  assert (Hex : path_exists (world_at E output_dir files j w)
                  (Pathlib.div output_dir (filename D2)) = true).
  { rewrite Hname. eapply world_at_later; [exact H1 | exact Hij |].
    apply download_one_present. now rewrite Hy. }
  cbn zeta. rewrite (download_all_lookup _ _ _ _ _ _ H2).
  rewrite !(download_one_exists _ _ _ _ Hex), Hp, Hname. split; reflexivity.
Qed.

Lemma same_name_fetched_once_witness :
  let files :=
    [mkDescriptor "https://assets.publishing.service.gov.uk/media/1/a.csv" "a.csv";
     mkDescriptor "https://assets.publishing.service.gov.uk/media/2/a.csv" "a.csv"] in
  (download_all Examples.same_name_twice "data" files Examples.empty_world).1 !! 1
  = Some (st_exists, Pathlib.div "data" "a.csv")
  /\ (let wj := world_at Examples.same_name_twice "data" files 1 Examples.empty_world in
      download_one Examples.same_name_twice "data"
        (mkDescriptor "https://assets.publishing.service.gov.uk/media/2/a.csv" "a.csv") wj
      = ((st_exists, Pathlib.div "data" "a.csv"), wj)).
Proof.
  cbn zeta.
  apply (same_name_fetched_once Examples.same_name_twice "data"
           [mkDescriptor "https://assets.publishing.service.gov.uk/media/1/a.csv" "a.csv";
            mkDescriptor "https://assets.publishing.service.gov.uk/media/2/a.csv" "a.csv"]
           Examples.empty_world 0 1
           (mkDescriptor "https://assets.publishing.service.gov.uk/media/1/a.csv" "a.csv")
           (mkDescriptor "https://assets.publishing.service.gov.uk/media/2/a.csv" "a.csv")
           st_downloaded (Pathlib.div "data" "a.csv"));
    first [reflexivity | lia | discriminate].
Defined.
